(** * The rules engine of the text adventure (src/engine.py)

    A shallow embedding of the dice roller, the enemy and player records,
    character creation, the combat actions, skill checks, items and the
    save/load pair of [engine.py], followed by the properties the
    specification states about them and by further properties of the
    code.

    Conventions of the embedding.
    - Python [int] is [Z].  JSON numbers with a fractional part (Python
      [float]) are outside the model: every number of a [pyval] is an
      integer.  What is stated of a dictionary of the narrative layer is
      stated of a dictionary without such numbers.
    - A Python value whose type the program does not fix (the fields of a
      dictionary produced by the narrative layer, the fields of an [Enemy]
      built from it) is a [pyval].  Fields of [GameState] and the static
      tables carry the types of their annotations.
    - A function that can raise returns a [result]; the exception replaces
      the value and the state.
    - The generator behind [random.Random] is an interface, [RandomGen]:
      the engine relies only on [randint a b] lying in [[a, b]]. *)

From stdpp Require Import gmap strings list fin_maps pretty sorting.
From Stdlib Require Import ZArith Lia Ascii.

Open Scope string_scope.
Open Scope Z_scope.

(** ** Python values and exceptions *)

#[local] Set Warnings "-register-all".

Inductive pyval : Type :=
| PNone
| PBool (b : bool)
| PInt (z : Z)
| PStr (s : string)
| PList (l : list pyval)
| PTuple (l : list pyval)
| PDict (d : list (string * pyval)).

Inductive pyerr : Type :=
| TypeError
| KeyError
| ValueError.

Inductive result (A : Type) : Type :=
| Ok (a : A)
| Raise (e : pyerr).

Arguments Ok {A} a.
Arguments Raise {A} e.

(** The exception monad, with stdpp's notations [x ← m; k] and [mret]. *)
#[global] Instance result_ret : MRet result := fun A a => Ok a.
#[global] Instance result_bind : MBind result := fun A B k m =>
  match m with
  | Ok a => k a
  | Raise e => Raise e
  end.

#[global] Instance result_fmap : FMap result := fun A B f m =>
  match m with
  | Ok a => Ok (f a)
  | Raise e => Raise e
  end.

(** A Python dictionary with string keys. *)
Abbreviation dict := (gmap string pyval).

(** [bool] is a subclass of [int]: [True] counts as 1 and [False] as 0 in
    comparisons and arithmetic.  Nothing else is a number here. *)
Definition as_int (v : pyval) : option Z :=
  match v with
  | PInt z => Some z
  | PBool b => Some (if b then 1 else 0)
  | _ => None
  end.

(** [a < b].  Ordering is modelled on numbers; against a number every other
    value raises [TypeError].  (Python also orders two strings or two
    lists; no comparison of the engine can reach that case, because one
    operand is always an [int] literal or a value that an earlier
    comparison with an [int] literal has accepted.) *)
Definition py_lt (a b : pyval) : result bool :=
  match as_int a, as_int b with
  | Some x, Some y => Ok (x <? y)
  | _, _ => Raise TypeError
  end.

(** [min(a, b)]: the first argument unless the second is strictly smaller. *)
Definition py_min (a b : pyval) : result pyval :=
  smaller ← py_lt b a; Ok (if smaller : bool then b else a).

(** [max(a, b)]: the first argument unless the second is strictly larger. *)
Definition py_max (a b : pyval) : result pyval :=
  larger ← py_lt a b; Ok (if larger : bool then b else a).

(** [a >= b] for an [int] on the left. *)
Definition py_int_ge (a : Z) (b : pyval) : result bool :=
  match as_int b with
  | Some y => Ok (y <=? a)
  | None => Raise TypeError
  end.

(** [a - b] for an [int] on the right: the result is always an [int]. *)
Definition py_sub_int (a : pyval) (b : Z) : result pyval :=
  match as_int a with
  | Some x => Ok (PInt (x - b))
  | None => Raise TypeError
  end.

(** [str(v)] for a number, as an f-string prints it. *)
Definition py_str_num (v : pyval) : string :=
  match v with
  | PInt z => pretty z
  | PBool true => "True"
  | PBool false => "False"
  | _ => ""
  end.

(** A Python string is a sequence of characters, held here as the bytes
    of its UTF-8 encoding: a character is a byte that is not a
    continuation byte together with the continuation bytes (128 to 191)
    that follow it. *)
Definition is_continuation (c : ascii) : bool :=
  let n := nat_of_ascii c in ((128 <=? n) && (n <=? 191))%nat.

Definition continues (s : string) : bool :=
  match s with
  | String c _ => is_continuation c
  | EmptyString => false
  end.

Fixpoint char_groups (s : string) : list string :=
  match s with
  | EmptyString => []
  | String c s' =>
      if continues s' then
        match char_groups s' with
        | g :: gs => String c g :: gs
        | [] => [String c EmptyString]
        end
      else String c EmptyString :: char_groups s'
  end.

(** The characters of a string, one string each. *)
Definition chars (s : string) : list pyval := map PStr (char_groups s).

(** The elements an iteration over [v] yields: [list(v)] and [tuple(v)]
    collect them. *)
Definition py_iter (v : pyval) : result (list pyval) :=
  match v with
  | PList l | PTuple l => Ok l
  | PStr s => Ok (chars s)
  | PDict d => Ok (map (fun kv => PStr (fst kv)) d)
  | PNone | PBool _ | PInt _ => Raise TypeError
  end.

Definition py_list (v : pyval) : result pyval := l ← py_iter v; Ok (PList l).
Definition py_tuple (v : pyval) : result pyval := l ← py_iter v; Ok (PTuple l).

(** [d[k]] *)
Definition getitem (d : dict) (k : string) : result pyval :=
  match d !! k with
  | Some v => Ok v
  | None => Raise KeyError
  end.

(** [d.get(k, dflt)] *)
Definition dict_get (d : dict) (k : string) (dflt : pyval) : pyval :=
  default dflt (d !! k).

Definition sum (l : list Z) : Z := foldr Z.add 0 l.

(** ** Dice system *)

(** What the engine uses of [random.Random]: [Random(seed)], where the
    seed [None] stands for the seeding from the operating system that
    Python then does, and [randint(a, b)] for [a <= b], which returns a
    value of [[a, b]] and advances the generator. *)
Class RandomGen (G : Type) : Type := {
  Random : option Z -> G;
  randint_draw : G -> Z -> Z -> Z * G;
  randint_draw_range : forall g a b, a <= b ->
    a <= fst (randint_draw g a b) <= b
}.

(** A concrete generator, a linear congruential one, used to run the
    engine on examples.  It stands for no particular Python generator. *)
Definition lcg_next (s : Z) : Z := (s * 1103515245 + 12345) mod 2147483648.
Definition lcg_randint (s a b : Z) : Z * Z :=
  let s' := lcg_next s in (a + s' mod (b - a + 1), s').
Definition lcg_seed (seed : option Z) : Z := default 1 seed.

Section Dice.
Context {G : Type} `{RandomGen G}.

(** [rng.randint(a, b)]: [ValueError] on an empty range. *)
Definition randint (g : G) (a b : Z) : result (Z * G) :=
  if b <? a then Raise ValueError else Ok (randint_draw g a b).

Record DiceRoller : Type := mkDiceRoller {
  rng : G;
  seed : option Z
}.

(** [DiceRoller(seed)] *)
Definition DiceRoller_init (seed : option Z) : DiceRoller :=
  {| rng := Random seed; seed := seed |}.

Definition with_rng (self : DiceRoller) (g : G) : DiceRoller :=
  {| rng := g; seed := seed self |}.

(** [get_seed]: [self.seed if self.seed else random.randint(0, 999999)].
    [None] and [0] are both false; the draw is from the module-level
    generator of [random], here [pyrandom], not from [self.rng]. *)
Definition get_seed (self : DiceRoller) (pyrandom : G) : Z * G :=
  match seed self with
  | Some s => if s =? 0 then randint_draw pyrandom 0 999999 else (s, pyrandom)
  | None => randint_draw pyrandom 0 999999
  end.

(** [[self.rng.randint(1, die_size) for _ in range(num_dice)]] *)
Fixpoint roll_each (n : nat) (die_size : Z) (g : G) : result (list Z * G) :=
  match n with
  | O => Ok ([], g)
  | S n' =>
      '(r, g1) ← randint g 1 die_size;
      '(rs, g2) ← roll_each n' die_size g1;
      Ok (r :: rs, g2)
  end.

Definition roll (self : DiceRoller) (num_dice die_size : Z)
  : result (list Z * Z * DiceRoller) :=
  '(rolls, g) ← roll_each (Z.to_nat num_dice) die_size (rng self);
  let total := sum rolls in
  Ok (rolls, total, with_rng self g).

Definition sign_str (modifier : Z) : string :=
  if 0 <=? modifier then "+" else "".

Definition nonempty (s : string) : bool :=
  match s with EmptyString => false | _ => true end.

Definition roll_d20 (self : DiceRoller) (modifier : Z) (stat_name : string)
    (advantage disadvantage : bool) : result (Z * Z * string * DiceRoller) :=
  '(raw, adv_str, g) ←
    (if advantage && negb disadvantage then
       '(roll1, g1) ← randint (rng self) 1 20;
       '(roll2, g2) ← randint g1 1 20;
       Ok (Z.max roll1 roll2,
           " (ADV: " +:+ pretty roll1 +:+ ", " +:+ pretty roll2 +:+ ")", g2)
     else if disadvantage && negb advantage then
       '(roll1, g1) ← randint (rng self) 1 20;
       '(roll2, g2) ← randint g1 1 20;
       Ok (Z.min roll1 roll2,
           " (DIS: " +:+ pretty roll1 +:+ ", " +:+ pretty roll2 +:+ ")", g2)
     else
       '(raw, g1) ← randint (rng self) 1 20;
       Ok (raw, "", g1));
  let total := raw + modifier in
  let display :=
    if nonempty stat_name && negb (modifier =? 0) then
      "d20: " +:+ pretty raw +:+ adv_str +:+ " " +:+ sign_str modifier +:+ " "
        +:+ stat_name +:+ "(" +:+ pretty modifier +:+ ") = " +:+ pretty total
    else if negb (modifier =? 0) then
      "d20: " +:+ pretty raw +:+ adv_str +:+ " " +:+ sign_str modifier
        +:+ pretty modifier +:+ " = " +:+ pretty total
    else
      "d20: " +:+ pretty raw +:+ adv_str in
  Ok (raw, total, display, with_rng self g).

Definition roll_damage (self : DiceRoller) (num_dice die_size modifier : Z)
    (stat_name : string) : result (Z * string * DiceRoller) :=
  '(rolls, dice_total, self') ← roll self num_dice die_size;
  let total := dice_total + modifier in
  let rolls_str :=
    match rolls with
    | [r] => pretty r
    | _ => "(" +:+ String.concat "+" (map pretty rolls) +:+ ")"
    end in
  let head := pretty num_dice +:+ "d" +:+ pretty die_size +:+ ": " +:+ rolls_str in
  let display :=
    if nonempty stat_name && negb (modifier =? 0) then
      head +:+ " " +:+ sign_str modifier +:+ " " +:+ stat_name
        +:+ "(" +:+ pretty modifier +:+ ") = " +:+ pretty total
    else if negb (modifier =? 0) then
      head +:+ " " +:+ sign_str modifier +:+ pretty modifier
        +:+ " = " +:+ pretty total
    else
      head +:+ " = " +:+ pretty total in
  Ok (Z.max 1 total, display, self').

(** [set_dice_seed(seed)]: the roller that replaces the global one. *)
Definition set_dice_seed (seed : Z) : DiceRoller :=
  DiceRoller_init (Some seed).

End Dice.

Arguments DiceRoller G : clear implicits.

(** ** Static tables *)

Module Ability.
Record t : Type := mk {
  name : string;
  description : string;
  uses : Z;
  cooldown_type : string;
  effect : string
}.
End Ability.

Module ClassData.
Record t : Type := mk {
  base_hp : Z;
  primary_stat : string;
  starting_gold : Z;
  starting_items : list string;
  ability : Ability.t
}.
End ClassData.

Definition fighter : ClassData.t :=
  ClassData.mk 18 "STR" 10 ["Longsword"; "Chain Mail"; "Health Potion"]
    (Ability.mk "Second Wind" "Heal 1d10 + 2 HP" 1 "rest" "heal").

Definition rogue : ClassData.t :=
  ClassData.mk 12 "DEX" 15
    ["Dagger"; "Leather Armor"; "Lockpicks"; "Health Potion"]
    (Ability.mk "Sneak Attack" "Deal +2d6 extra damage on your next attack"
       1 "combat" "damage_boost").

Definition mage : ClassData.t :=
  ClassData.mk 10 "INT" 12
    ["Staff"; "Robes"; "Spell Component Pouch"; "Health Potion"; "Mana Potion"]
    (Ability.mk "Fireball" "Unleash 3d6 fire damage" 2 "day" "direct_damage").

Definition CLASSES : gmap string ClassData.t :=
  list_to_map [("fighter", fighter); ("rogue", rogue); ("mage", mage)].

Module Weapon.
Record t : Type := mk {
  damage_dice : Z * Z;
  stat : string;
  description : string
}.
End Weapon.

Definition WEAPONS : gmap string Weapon.t :=
  list_to_map
    [("Longsword", Weapon.mk (1, 8) "STR" "A reliable blade for any warrior");
     ("Dagger", Weapon.mk (1, 4) "DEX" "Quick and deadly in skilled hands");
     ("Staff", Weapon.mk (1, 6) "INT" "A focus for arcane power");
     ("Rusty Sword", Weapon.mk (1, 6) "STR" "Seen better days, but still sharp");
     ("Hand Axe", Weapon.mk (1, 6) "STR" "Good for chopping wood... or enemies")].

(** The profile [get_equipped_weapon_data] falls back to. *)
Definition fists : Weapon.t := Weapon.mk (1, 2) "STR" "Bare fists".

Module Item.
Record t : Type := mk {
  type : string;
  effect : option string;
  value : option pyval;
  skill : option string;
  bonus : option Z;
  ac_bonus : option Z;
  description : string
}.
End Item.

(** The entries of [ITEMS]; a key an entry does not have is [None]. *)
Definition ITEMS : gmap string Item.t :=
  list_to_map
    [("Health Potion",
      Item.mk "consumable" (Some "heal") (Some (PStr "2d4+2")) None None None
        "Restores health when consumed");
     ("Mana Potion",
      Item.mk "consumable" (Some "restore_ability") (Some (PInt 1)) None None
        None "Restores one ability use");
     ("Lockpicks",
      Item.mk "tool" (Some "skill_bonus") None (Some "DEX") (Some 2) None
        "Grants +2 to lockpicking attempts");
     ("Chain Mail",
      Item.mk "armor" None None None None (Some 3) "Heavy but protective");
     ("Leather Armor",
      Item.mk "armor" None None None None (Some 2) "Light and flexible");
     ("Robes",
      Item.mk "armor" None None None None (Some 1)
        "Comfortable but not very protective");
     ("Spell Component Pouch",
      Item.mk "tool" (Some "enables_magic") None None None None
        "Required for casting spells");
     ("Rusty Key",
      Item.mk "key_item" None None None None None "Opens something... somewhere");
     ("Ancient Amulet",
      Item.mk "key_item" None None None None None
        "Pulses with mysterious energy");
     ("Gold Coins",
      Item.mk "treasure" None (Some (PInt 10)) None None None
        "Shiny and spendable");
     ("Torch",
      Item.mk "tool" (Some "light") None None None None
        "Illuminates dark places")].

(** [a == b] for a string [b] and a value that is a string or [None]. *)
Definition option_eqb (a : option string) (b : string) : bool :=
  match a with
  | Some x => String.eqb x b
  | None => false
  end.

(** ** Enemy *)

Module Enemy.

Record t : Type := mk {
  name : pyval;
  hp : pyval;
  max_hp : pyval;
  ac : pyval;
  attack_bonus : pyval;
  damage_dice : pyval;
  damage_bonus : pyval;
  xp : pyval;
  gold_drop : pyval;
  behavior : pyval;
  description : pyval;
  loot : pyval
}.

Definition set_hp (self : t) (v : pyval) : t :=
  mk (name self) v (max_hp self) (ac self) (attack_bonus self)
     (damage_dice self) (damage_bonus self) (xp self) (gold_drop self)
     (behavior self) (description self) (loot self).

Definition field_names : list string :=
  ["name"; "hp"; "max_hp"; "ac"; "attack_bonus"; "damage_dice";
   "damage_bonus"; "xp"; "gold_drop"; "behavior"; "description"; "loot"].

Definition to_dict (self : t) : result dict :=
  dd ← py_list (damage_dice self);
  gd ← py_list (gold_drop self);
  Ok (list_to_map
        [("name", name self);
         ("hp", hp self);
         ("max_hp", max_hp self);
         ("ac", ac self);
         ("attack_bonus", attack_bonus self);
         ("damage_dice", dd);
         ("damage_bonus", damage_bonus self);
         ("xp", xp self);
         ("gold_drop", gd);
         ("behavior", behavior self);
         ("description", description self);
         ("loot", loot self)]).

(** A keyword argument without default: [TypeError] when it is missing. *)
Definition required (data : dict) (k : string) : result pyval :=
  match data !! k with
  | Some v => Ok v
  | None => Raise TypeError
  end.

(** [cls( **data )]: the generated [__init__] takes the twelve fields by
    keyword, [description] and [loot] with defaults, and refuses any other
    keyword. *)
Definition init (data : dict) : result t :=
  if bool_decide (dom data ⊆ list_to_set field_names) then
    name ← required data "name";
    hp ← required data "hp";
    max_hp ← required data "max_hp";
    ac ← required data "ac";
    attack_bonus ← required data "attack_bonus";
    damage_dice ← required data "damage_dice";
    damage_bonus ← required data "damage_bonus";
    xp ← required data "xp";
    gold_drop ← required data "gold_drop";
    behavior ← required data "behavior";
    Ok (mk name hp max_hp ac attack_bonus damage_dice damage_bonus xp
           gold_drop behavior
           (dict_get data "description" (PStr ""))
           (dict_get data "loot" (PList [])))
  else Raise TypeError.

(** [from_dict] overwrites two entries of the dictionary it is given before
    it builds the enemy: the caller's dictionary is returned as it is
    left. *)
Definition from_dict (data : dict) : result (dict * t) :=
  dd ← getitem data "damage_dice";
  dd ← py_tuple dd;
  let data := <["damage_dice" := dd]> data in
  gd ← getitem data "gold_drop";
  gd ← py_tuple gd;
  let data := <["gold_drop" := gd]> data in
  self ← init data;
  Ok (data, self).

End Enemy.

(** [create_enemy_from_llm]: defaults for missing entries, clamps on the
    numbers. *)
Definition create_enemy_from_llm (enemy_data : dict) : result Enemy.t :=
  let name := dict_get enemy_data "name" (PStr "Mysterious Creature") in
  m ← py_min (PInt 100) (dict_get enemy_data "hp" (PInt 10));
  hp ← py_max (PInt 1) m;
  m ← py_min (PInt 20) (dict_get enemy_data "ac" (PInt 12));
  ac ← py_max (PInt 8) m;
  m ← py_min (PInt 8) (dict_get enemy_data "attack_bonus" (PInt 2));
  attack_bonus ← py_max (PInt (-2)) m;
  damage_dice ←
    match dict_get enemy_data "damage_dice" (PList [PInt 1; PInt 6]) with
    | PList [d0; d1] =>
        m ← py_min (PInt 4) d0;
        num_dice ← py_max (PInt 1) m;
        m ← py_min (PInt 12) d1;
        die_size ← py_max (PInt 4) m;
        Ok (PTuple [num_dice; die_size])
    | _ => Ok (PTuple [PInt 1; PInt 6])
    end;
  m ← py_min (PInt 5) (dict_get enemy_data "damage_bonus" (PInt 1));
  damage_bonus ← py_max (PInt 0) m;
  m ← py_min (PInt 500) (dict_get enemy_data "xp" (PInt 25));
  xp ← py_max (PInt 10) m;
  gold_drop ←
    match dict_get enemy_data "gold_drop" (PList [PInt 1; PInt 5]) with
    | PList [g0; g1] =>
        low ← py_max (PInt 0) g0;
        high ← py_max g0 g1;
        Ok (PTuple [low; high])
    | _ => Ok (PTuple [PInt 1; PInt 5])
    end;
  Ok (Enemy.mk name hp hp ac attack_bonus damage_dice damage_bonus xp gold_drop
        (dict_get enemy_data "behavior" (PStr "aggressive"))
        (dict_get enemy_data "description" (PStr ""))
        (dict_get enemy_data "loot" (PList []))).

(** ** Game state *)

Module GameState.

Record t : Type := mk {
  name : string;
  player_class : string;
  stats : gmap string (gmap string Z);
  hp : Z;
  max_hp : Z;
  ac : Z;
  gold : Z;
  inventory : list string;
  equipped_weapon : string;
  ability_uses : Z;
  ability_max_uses : Z;
  sneak_attack_available : bool;
  location : string;
  visited_locations : list string;
  world_flags : dict;
  quests : gmap string dict;
  active_quest : option string;
  in_combat : bool;
  current_enemy : option dict;
  turn_count : Z;
  story_summary : string;
  story_log : list string;
  game_started : bool;
  game_over : bool;
  ending : option string
}.

(** Assignments to the attributes the combat engine writes. *)
Definition set_hp (s : t) (v : Z) : t :=
  mk (name s) (player_class s) (stats s) v (max_hp s) (ac s) (gold s)
     (inventory s) (equipped_weapon s) (ability_uses s) (ability_max_uses s)
     (sneak_attack_available s) (location s) (visited_locations s)
     (world_flags s) (quests s) (active_quest s) (in_combat s)
     (current_enemy s) (turn_count s) (story_summary s) (story_log s)
     (game_started s) (game_over s) (ending s).

Definition set_ability_uses (s : t) (v : Z) : t :=
  mk (name s) (player_class s) (stats s) (hp s) (max_hp s) (ac s) (gold s)
     (inventory s) (equipped_weapon s) v (ability_max_uses s)
     (sneak_attack_available s) (location s) (visited_locations s)
     (world_flags s) (quests s) (active_quest s) (in_combat s)
     (current_enemy s) (turn_count s) (story_summary s) (story_log s)
     (game_started s) (game_over s) (ending s).

Definition set_sneak_attack_available (s : t) (v : bool) : t :=
  mk (name s) (player_class s) (stats s) (hp s) (max_hp s) (ac s) (gold s)
     (inventory s) (equipped_weapon s) (ability_uses s) (ability_max_uses s)
     v (location s) (visited_locations s)
     (world_flags s) (quests s) (active_quest s) (in_combat s)
     (current_enemy s) (turn_count s) (story_summary s) (story_log s)
     (game_started s) (game_over s) (ending s).

Definition set_in_combat (s : t) (v : bool) : t :=
  mk (name s) (player_class s) (stats s) (hp s) (max_hp s) (ac s) (gold s)
     (inventory s) (equipped_weapon s) (ability_uses s) (ability_max_uses s)
     (sneak_attack_available s) (location s) (visited_locations s)
     (world_flags s) (quests s) (active_quest s) v
     (current_enemy s) (turn_count s) (story_summary s) (story_log s)
     (game_started s) (game_over s) (ending s).

Definition set_current_enemy (s : t) (v : option dict) : t :=
  mk (name s) (player_class s) (stats s) (hp s) (max_hp s) (ac s) (gold s)
     (inventory s) (equipped_weapon s) (ability_uses s) (ability_max_uses s)
     (sneak_attack_available s) (location s) (visited_locations s)
     (world_flags s) (quests s) (active_quest s) (in_combat s)
     v (turn_count s) (story_summary s) (story_log s)
     (game_started s) (game_over s) (ending s).

(** [self.stats.get(stat, {}).get("modifier", 0)] *)
Definition get_modifier (self : t) (stat : string) : Z :=
  default 0 (default ∅ (stats self !! stat) !! "modifier").

(** [self.stats.get(stat, {}).get("score", 10)] *)
Definition get_score (self : t) (stat : string) : Z :=
  default 10 (default ∅ (stats self !! stat) !! "score").

(** [heal] returns the amount healed and the updated state. *)
Definition heal (self : t) (amount : Z) : Z * t :=
  let actual := Z.min amount (max_hp self - hp self) in
  (actual, set_hp self (hp self + actual)).

Definition take_damage (self : t) (amount : Z) : Z * t :=
  let actual := Z.min amount (hp self) in
  (actual, set_hp self (hp self - actual)).

Definition is_dead (self : t) : bool := hp self <=? 0.

Definition get_equipped_weapon_data (self : t) : Weapon.t :=
  match WEAPONS !! equipped_weapon self with
  | Some w => w
  | None => fists
  end.

(** [CLASSES.get(self.player_class, CLASSES["fighter"])] *)
Definition get_class_data (self : t) : ClassData.t :=
  default fighter (CLASSES !! player_class self).

Definition get_ability_info (self : t) : Ability.t :=
  ClassData.ability (get_class_data self).

Definition use_ability (self : t) : bool * t :=
  if 0 <? ability_uses self
  then (true, set_ability_uses self (ability_uses self - 1))
  else (false, self).

(** Truth value of [state.current_enemy]: [None] and the empty dictionary
    are false. *)
Definition has_enemy (self : t) : bool :=
  match current_enemy self with
  | None => false
  | Some data => negb (bool_decide (size data = 0%nat))
  end.

(** Assignments to the other attributes the engine writes. *)
Definition set_gold (s : t) (v : Z) : t :=
  mk (name s) (player_class s) (stats s) (hp s) (max_hp s) (ac s) v
     (inventory s) (equipped_weapon s) (ability_uses s) (ability_max_uses s)
     (sneak_attack_available s) (location s) (visited_locations s)
     (world_flags s) (quests s) (active_quest s) (in_combat s)
     (current_enemy s) (turn_count s) (story_summary s) (story_log s)
     (game_started s) (game_over s) (ending s).

Definition set_inventory (s : t) (v : list string) : t :=
  mk (name s) (player_class s) (stats s) (hp s) (max_hp s) (ac s) (gold s)
     v (equipped_weapon s) (ability_uses s) (ability_max_uses s)
     (sneak_attack_available s) (location s) (visited_locations s)
     (world_flags s) (quests s) (active_quest s) (in_combat s)
     (current_enemy s) (turn_count s) (story_summary s) (story_log s)
     (game_started s) (game_over s) (ending s).

Definition set_world_flags (s : t) (v : dict) : t :=
  mk (name s) (player_class s) (stats s) (hp s) (max_hp s) (ac s) (gold s)
     (inventory s) (equipped_weapon s) (ability_uses s) (ability_max_uses s)
     (sneak_attack_available s) (location s) (visited_locations s)
     v (quests s) (active_quest s) (in_combat s)
     (current_enemy s) (turn_count s) (story_summary s) (story_log s)
     (game_started s) (game_over s) (ending s).

Definition set_quests (s : t) (v : gmap string dict) : t :=
  mk (name s) (player_class s) (stats s) (hp s) (max_hp s) (ac s) (gold s)
     (inventory s) (equipped_weapon s) (ability_uses s) (ability_max_uses s)
     (sneak_attack_available s) (location s) (visited_locations s)
     (world_flags s) v (active_quest s) (in_combat s)
     (current_enemy s) (turn_count s) (story_summary s) (story_log s)
     (game_started s) (game_over s) (ending s).

Definition set_active_quest (s : t) (v : option string) : t :=
  mk (name s) (player_class s) (stats s) (hp s) (max_hp s) (ac s) (gold s)
     (inventory s) (equipped_weapon s) (ability_uses s) (ability_max_uses s)
     (sneak_attack_available s) (location s) (visited_locations s)
     (world_flags s) (quests s) v (in_combat s)
     (current_enemy s) (turn_count s) (story_summary s) (story_log s)
     (game_started s) (game_over s) (ending s).

Definition set_story_log (s : t) (v : list string) : t :=
  mk (name s) (player_class s) (stats s) (hp s) (max_hp s) (ac s) (gold s)
     (inventory s) (equipped_weapon s) (ability_uses s) (ability_max_uses s)
     (sneak_attack_available s) (location s) (visited_locations s)
     (world_flags s) (quests s) (active_quest s) (in_combat s)
     (current_enemy s) (turn_count s) (story_summary s) v
     (game_started s) (game_over s) (ending s).

Definition set_equipped_weapon (s : t) (v : string) : t :=
  mk (name s) (player_class s) (stats s) (hp s) (max_hp s) (ac s) (gold s)
     (inventory s) v (ability_uses s) (ability_max_uses s)
     (sneak_attack_available s) (location s) (visited_locations s)
     (world_flags s) (quests s) (active_quest s) (in_combat s)
     (current_enemy s) (turn_count s) (story_summary s) (story_log s)
     (game_started s) (game_over s) (ending s).

Definition set_ac (s : t) (v : Z) : t :=
  mk (name s) (player_class s) (stats s) (hp s) (max_hp s) v (gold s)
     (inventory s) (equipped_weapon s) (ability_uses s) (ability_max_uses s)
     (sneak_attack_available s) (location s) (visited_locations s)
     (world_flags s) (quests s) (active_quest s) (in_combat s)
     (current_enemy s) (turn_count s) (story_summary s) (story_log s)
     (game_started s) (game_over s) (ending s).

(** One turn of the loop of [get_ac]: the bonus of an armor of the table
    replaces a smaller one. *)
Definition armor_step (armor_bonus : Z) (item : string) : Z :=
  match ITEMS !! item with
  | Some data =>
      if String.eqb (Item.type data) "armor"
      then Z.max armor_bonus (default 0 (Item.ac_bonus data))
      else armor_bonus
  | None => armor_bonus
  end.

Definition get_ac (self : t) : Z :=
  let base_ac := 10 + get_modifier self "DEX" in
  let armor_bonus := foldl armor_step 0 (inventory self) in
  base_ac + armor_bonus.

Definition add_to_inventory (self : t) (item : string) : t :=
  set_inventory self (inventory self ++ [item])%list.

(** [list.remove(x)]: without the first element equal to [x]. *)
Fixpoint list_remove (x : string) (l : list string) : list string :=
  match l with
  | [] => []
  | y :: l' => if String.eqb y x then l' else y :: list_remove x l'
  end.

Definition has_item (self : t) (item : string) : bool :=
  existsb (String.eqb item) (inventory self).

Definition remove_from_inventory (self : t) (item : string) : bool * t :=
  if has_item self item
  then (true, set_inventory self (list_remove item (inventory self)))
  else (false, self).

Definition add_gold (self : t) (amount : Z) : t :=
  set_gold self (Z.max 0 (gold self + amount)).

Definition set_flag (self : t) (flag : string) (value : pyval) : t :=
  set_world_flags self (<[flag := value]> (world_flags self)).

Definition get_flag (self : t) (flag : string) (dflt : pyval) : pyval :=
  dict_get (world_flags self) flag dflt.

Definition add_quest (self : t) (quest_id : string) (quest_data : dict) : t :=
  let self := set_quests self (<[quest_id := quest_data]> (quests self)) in
  match active_quest self with
  | None => set_active_quest self (Some quest_id)
  | Some _ => self
  end.

Definition complete_quest (self : t) (quest_id : string) : t :=
  match quests self !! quest_id with
  | Some quest =>
      let self :=
        set_quests self
          (<[quest_id := <["status" := PStr "complete"]> quest]> (quests self)) in
      if option_eqb (active_quest self) quest_id
      then set_active_quest self None
      else self
  | None => self
  end.

(** [log_event]: the log keeps its last ten entries. *)
Definition log_event (self : t) (event : string) : t :=
  let log := (story_log self ++ [event])%list in
  if (10 <? length log)%nat
  then set_story_log self (drop (length log - 10) log)
  else set_story_log self log.

Definition restore_ability_use (self : t) (amount : Z) : t :=
  set_ability_uses self
    (Z.min (ability_max_uses self) (ability_uses self + amount)).

Definition rest (self : t) : t :=
  let self := set_hp self (max_hp self) in
  if String.eqb (Ability.cooldown_type (get_ability_info self)) "rest"
  then set_ability_uses self (ability_max_uses self)
  else self.

End GameState.

(** ** Combat *)

Record CombatResult : Type := mkCombatResult {
  success : bool;
  message : string;
  damage : Z;
  roll_display : string;
  critical : bool
}.

(** [CombatResult(success, message, damage, roll_display)]: [critical]
    keeps its default, no call of the engine passes it. *)
Definition CombatResult_init (success : bool) (message : string) (damage : Z)
    (roll_display : string) : CombatResult :=
  mkCombatResult success message damage roll_display false.

Definition newline : string := String "010"%char EmptyString.

Section Combat.
Context {G : Type} `{RandomGen G}.

Definition player_attack (state : GameState.t) (use_sneak_attack : bool)
    (dice : DiceRoller G)
  : result (CombatResult * GameState.t * DiceRoller G) :=
  match GameState.current_enemy state with
  | Some data0 =>
    if GameState.has_enemy state then
      '(data, enemy) ← Enemy.from_dict data0;
      (* [from_dict] has written into [state.current_enemy] itself *)
      let state := GameState.set_current_enemy state (Some data) in
      let weapon := GameState.get_equipped_weapon_data state in
      let stat_name := Weapon.stat weapon in
      let modifier := GameState.get_modifier state stat_name in
      '(raw, total, roll_display, dice) ←
        roll_d20 dice modifier stat_name false false;
      let critical := raw =? 20 in
      let critical_miss := raw =? 1 in
      if critical_miss then
        Ok (CombatResult_init false "Critical miss! Your attack goes wide."
              0 roll_display, state, dice)
      else
        reached ← py_int_ge total (Enemy.ac enemy);
        if (reached : bool) || critical then
          let '(num_dice, die_size) := Weapon.damage_dice weapon in
          let num_dice := if critical then num_dice * 2 else num_dice in
          '(damage, dmg_display, dice) ←
            roll_damage dice num_dice die_size modifier stat_name;
          '(damage, dmg_display, state, dice) ←
            (if use_sneak_attack
                && String.eqb (GameState.player_class state) "rogue"
                && GameState.sneak_attack_available state
             then
               '(sneak_rolls, sneak_total, dice) ← roll dice 2 6;
               Ok (damage + sneak_total,
                   dmg_display +:+ " + Sneak(" +:+ pretty sneak_total +:+ ")",
                   GameState.set_sneak_attack_available state false,
                   dice)
             else Ok (damage, dmg_display, state, dice));
          hp ← py_sub_int (Enemy.hp enemy) damage;
          let enemy := Enemy.set_hp enemy hp in
          data ← Enemy.to_dict enemy;
          let state := GameState.set_current_enemy state (Some data) in
          let crit_text := if critical then " CRITICAL HIT!" else "" in
          Ok (CombatResult_init true ("Hit!" +:+ crit_text) damage
                ("[Attack] " +:+ roll_display +:+ " vs AC "
                   +:+ py_str_num (Enemy.ac enemy) +:+ newline
                   +:+ "[Damage] " +:+ dmg_display),
              state, dice)
        else
          Ok (CombatResult_init false
                ("Miss! AC " +:+ py_str_num (Enemy.ac enemy) +:+ " needed.")
                0
                ("[Attack] " +:+ roll_display +:+ " vs AC "
                   +:+ py_str_num (Enemy.ac enemy)),
              state, dice)
    else Ok (CombatResult_init false "No enemy to attack!" 0 "", state, dice)
  | None => Ok (CombatResult_init false "No enemy to attack!" 0 "", state, dice)
  end.

(** The Fireball branch of [use_class_ability] on the current enemy. *)
Definition damage_current_enemy (state : GameState.t) (damage : Z)
  : result GameState.t :=
  match GameState.current_enemy state with
  | Some data0 =>
    if GameState.has_enemy state then
      '(data, enemy) ← Enemy.from_dict data0;
      hp ← py_sub_int (Enemy.hp enemy) damage;
      let enemy := Enemy.set_hp enemy hp in
      data ← Enemy.to_dict enemy;
      Ok (GameState.set_current_enemy state (Some data))
    else Ok state
  | None => Ok state
  end.

Definition use_class_ability (state : GameState.t) (dice : DiceRoller G)
  : result (bool * string * Z * GameState.t * DiceRoller G) :=
  if GameState.ability_uses state <=? 0 then
    Ok (false, "No ability uses remaining!", 0, state, dice)
  else
    let ability := GameState.get_ability_info state in
    let '(_, state) := GameState.use_ability state in
    if String.eqb (Ability.effect ability) "heal" then
      '(_, heal_amount, dice) ← roll dice 1 10;
      let heal_amount := heal_amount + 2 in
      let '(actual, state) := GameState.heal state heal_amount in
      Ok (true, "Second Wind! Healed " +:+ pretty actual +:+ " HP.", actual,
          state, dice)
    else if String.eqb (Ability.effect ability) "direct_damage" then
      '(_, damage, dice) ← roll dice 3 6;
      state ← damage_current_enemy state damage;
      Ok (true, "Fireball! Dealt " +:+ pretty damage +:+ " fire damage!",
          damage, state, dice)
    else if String.eqb (Ability.effect ability) "damage_boost" then
      let state := GameState.set_sneak_attack_available state true in
      let state :=
        GameState.set_ability_uses state (GameState.ability_uses state + 1) in
      Ok (true, "Sneak Attack ready! Use Attack to deal bonus damage.", 0,
          state, dice)
    else Ok (false, "Unknown ability!", 0, state, dice).

Definition attempt_flee (state : GameState.t) (dice : DiceRoller G)
  : result (bool * string * GameState.t * DiceRoller G) :=
  let dex_mod := GameState.get_modifier state "DEX" in
  '(raw, total, roll_display, dice) ← roll_d20 dice dex_mod "DEX" false false;
  if 12 <=? total then
    let state := GameState.set_in_combat state false in
    let state := GameState.set_current_enemy state None in
    let state := GameState.set_sneak_attack_available state true in
    Ok (true, "[Flee] " +:+ roll_display +:+ " vs DC 12 - Escaped!",
        state, dice)
  else
    Ok (false, "[Flee] " +:+ roll_display +:+ " vs DC 12 - Failed to escape!",
        state, dice).

End Combat.

(** ** Save and load *)

Definition SAVE_VERSION : string := "1.0".
Definition SAVE_DIR : string := "saves".
Definition DEFAULT_SAVE : string := "save.json".

(** What [json.dump] followed by [json.load] makes of a value: a tuple
    comes back as a list. *)
Fixpoint json_value (v : pyval) : pyval :=
  match v with
  | PList l | PTuple l => PList (map json_value l)
  | PDict d => PDict (map (fun kv => (fst kv, json_value (snd kv))) d)
  | _ => v
  end.

Definition json_dict (d : dict) : dict := json_value <$> d.

(** [asdict(state)] written as JSON and read back. *)
Definition json_state (s : GameState.t) : GameState.t :=
  GameState.mk (GameState.name s) (GameState.player_class s)
    (GameState.stats s) (GameState.hp s) (GameState.max_hp s)
    (GameState.ac s) (GameState.gold s) (GameState.inventory s)
    (GameState.equipped_weapon s) (GameState.ability_uses s)
    (GameState.ability_max_uses s) (GameState.sneak_attack_available s)
    (GameState.location s) (GameState.visited_locations s)
    (json_dict (GameState.world_flags s))
    (json_dict <$> GameState.quests s)
    (GameState.active_quest s) (GameState.in_combat s)
    (json_dict <$> GameState.current_enemy s)
    (GameState.turn_count s) (GameState.story_summary s)
    (GameState.story_log s) (GameState.game_started s)
    (GameState.game_over s) (GameState.ending s).

(** A save file, as the JSON document it holds. *)
Module SaveData.
Record t : Type := mk {
  version : string;
  timestamp : string;
  game_state : GameState.t;
  rng_seed : option Z
}.
End SaveData.

Section Persistence.
Context {G : Type} `{RandomGen G}.

(** The module-level state save and load work on: the global roller
    [dice], the generator behind the functions of the [random] module, and
    the save files by path.  Failures of the file system are not
    modelled. *)
Record World : Type := mkWorld {
  dice : DiceRoller G;
  pyrandom : G;
  files : gmap string SaveData.t
}.

(** [os.path.join(SAVE_DIR, filename)] for the name of a file of the save
    directory itself, one without [/]: with such a name the path is the
    directory, a [/] and the name, and two names give the same file only
    when they are equal. *)
Definition save_path (filename : string) : string :=
  SAVE_DIR +:+ "/" +:+ filename.

(** [save_game] on a file system that lets the file be written; [now] is
    [datetime.now().isoformat()].  The [except] branch, which reports a
    write that failed, is not modelled. *)
Definition save_game (state : GameState.t) (filename : string) (now : string)
    (w : World) : bool * string * World :=
  let filepath := save_path filename in
  let '(rng_seed, pyrandom') := get_seed (dice w) (pyrandom w) in
  let save_data :=
    SaveData.mk SAVE_VERSION now (json_state state) (Some rng_seed) in
  (true, "Game saved to " +:+ filepath,
   mkWorld (dice w) pyrandom' (<[filepath := save_data]> (files w))).

Definition load_game (filename : string) (w : World)
  : option GameState.t * string * World :=
  let filepath := save_path filename in
  match files w !! filepath with
  | None => (None, "Save file not found: " +:+ filepath, w)
  | Some save_data =>
    if negb (String.eqb (SaveData.version save_data) SAVE_VERSION) then
      (None, "Incompatible save version", w)
    else
      let w :=
        match SaveData.rng_seed save_data with
        | Some s => mkWorld (set_dice_seed s) (pyrandom w) (files w)
        | None => w
        end in
      (Some (SaveData.game_state save_data),
       "Game loaded from " +:+ filepath, w)
  end.

End Persistence.

Arguments World G : clear implicits.

(** ** Character creation *)

(** [(score - 10) // 2]: the quotient rounds down. *)
Definition calculate_modifier (score : Z) : Z := (score - 10) / 2.

(** [str.lower()] on the letters A to Z.  A class name with a character
    outside ASCII is in [CLASSES] neither before nor after Python lowers
    it (the one such character that lowers into ASCII gives [k], which no
    class name contains), so [create_character] takes the same branch. *)
Definition lower_ascii (c : ascii) : ascii :=
  let n := nat_of_ascii c in
  if ((65 <=? n) && (n <=? 90))%nat then ascii_of_nat (n + 32) else c.

Fixpoint lower (s : string) : string :=
  match s with
  | EmptyString => EmptyString
  | String c s' => String (lower_ascii c) (lower s')
  end.

(** [for item in state.inventory: if item in WEAPONS: ...; break] *)
Fixpoint first_weapon (inventory : list string) : option string :=
  match inventory with
  | [] => None
  | item :: rest =>
      match WEAPONS !! item with
      | Some _ => Some item
      | None => first_weapon rest
      end
  end.

Section Character.
Context {G : Type} `{RandomGen G}.

(** One turn of the loop of [generate_stats]: four d6, sorted, the lowest
    dropped, two more for the primary stat up to 18. *)
Definition generate_stat (primary stat : string) (g : G)
  : result (gmap string Z * G) :=
  '(rolls, g) ← roll_each 4 6 g;
  let rolls := merge_sort Z.le rolls in
  let score := sum (tail rolls) in
  let score :=
    if String.eqb stat primary then Z.min 18 (score + 2) else score in
  Ok (list_to_map [("score", score); ("modifier", calculate_modifier score)],
      g).

Fixpoint generate_stats_loop (primary : string) (names : list string)
    (stats : gmap string (gmap string Z)) (g : G)
  : result (gmap string (gmap string Z) * G) :=
  match names with
  | [] => Ok (stats, g)
  | stat :: names' =>
      '(entry, g) ← generate_stat primary stat g;
      generate_stats_loop primary names' (<[stat := entry]> stats) g
  end.

Definition generate_stats (player_class : string) (dice : DiceRoller G)
  : result (gmap string (gmap string Z) * DiceRoller G) :=
  let class_data := default fighter (CLASSES !! player_class) in
  let primary := ClassData.primary_stat class_data in
  '(stats, g) ←
    generate_stats_loop primary ["STR"; "DEX"; "INT"; "CHA"] ∅ (rng dice);
  Ok (stats, with_rng dice g).

Definition create_character (name player_class : string) (dice : DiceRoller G)
  : result (GameState.t * DiceRoller G) :=
  let player_class := lower player_class in
  let player_class :=
    match CLASSES !! player_class with
    | Some _ => player_class
    | None => "fighter"
    end in
  let class_data := default fighter (CLASSES !! player_class) in
  '(stats, dice) ← generate_stats player_class dice;
  let uses := Ability.uses (ClassData.ability class_data) in
  let state :=
    GameState.mk name player_class stats
      (ClassData.base_hp class_data) (ClassData.base_hp class_data) 10
      (ClassData.starting_gold class_data)
      (ClassData.starting_items class_data) "Fists"
      uses uses true "tavern" [] ∅ ∅ None false None 0 "" []
      true false None in
  let state :=
    match first_weapon (GameState.inventory state) with
    | Some item => GameState.set_equipped_weapon state item
    | None => state
    end in
  let state := GameState.set_ac state (GameState.get_ac state) in
  Ok (state, dice).

End Character.

(** ** Skill checks *)

(** One turn of the loop of [skill_check] over the inventory: a tool of
    the table for this stat adds its bonus and its mention. *)
Definition tool_step (stat : string) (acc : Z * string) (item : string)
  : Z * string :=
  let '(total, roll_display) := acc in
  match ITEMS !! item with
  | Some item_data =>
      if option_eqb (Item.effect item_data) "skill_bonus"
         && option_eqb (Item.skill item_data) stat
      then (total + default 0 (Item.bonus item_data),
            roll_display +:+ " + " +:+ item +:+ "(+"
              +:+ pretty (default 0 (Item.bonus item_data)) +:+ ")")
      else acc
  | None => acc
  end.

Section SkillCheck.
Context {G : Type} `{RandomGen G}.

Definition skill_check (state : GameState.t) (stat : string) (dc bonus : Z)
    (description : string) (dice : DiceRoller G)
  : result (bool * string * DiceRoller G) :=
  let modifier := GameState.get_modifier state stat + bonus in
  '(raw, total, roll_display, dice) ← roll_d20 dice modifier stat false false;
  let '(total, roll_display) :=
    foldl (tool_step stat) (total, roll_display) (GameState.inventory state) in
  let success := dc <=? total in
  let result := if success then "SUCCESS!" else "FAILED" in
  let desc := if nonempty description then "[" +:+ description +:+ "] " else "" in
  let display :=
    desc +:+ roll_display +:+ " vs DC " +:+ pretty dc +:+ " - " +:+ result in
  Ok (success, display, dice).

End SkillCheck.

(** ** Item usage *)

(** The string operations [use_item] parses a dice expression with.  They
    are modelled on ASCII: the white space of [split] is the space, the
    characters 9 to 13 and 28 to 31; the digits of [int] are 0 to 9. *)
Definition is_space (c : ascii) : bool :=
  let n := nat_of_ascii c in
  ((n =? 32) || ((9 <=? n) && (n <=? 13)) || ((28 <=? n) && (n <=? 31)))%nat.

Definition is_digit (c : ascii) : bool :=
  let n := nat_of_ascii c in ((48 <=? n) && (n <=? 57))%nat.

(** [s.replace(c, by)] for a one-character [c]. *)
Fixpoint replace_char (c : ascii) (by_ : string) (s : string) : string :=
  match s with
  | EmptyString => EmptyString
  | String x s' =>
      if Ascii.eqb x c then by_ +:+ replace_char c by_ s'
      else String x (replace_char c by_ s')
  end.

(** [c in s] for a one-character [c]. *)
Fixpoint contains_char (c : ascii) (s : string) : bool :=
  match s with
  | EmptyString => false
  | String x s' => Ascii.eqb x c || contains_char c s'
  end.

(** [s.split()]: the words between runs of white space. *)
Fixpoint split_words (s : string) (word : string) : list string :=
  match s with
  | EmptyString => if nonempty word then [word] else []
  | String x s' =>
      if is_space x
      then (if nonempty word then word :: split_words s' "" else split_words s' "")
      else split_words s' (word +:+ String x EmptyString)
  end.

(** [s.split(c)] for a one-character [c]: the pieces between its
    occurrences, empty ones included. *)
Fixpoint split_at (c : ascii) (s : string) (piece : string) : list string :=
  match s with
  | EmptyString => [piece]
  | String x s' =>
      if Ascii.eqb x c then piece :: split_at c s' ""
      else split_at c s' (piece +:+ String x EmptyString)
  end.

Fixpoint lstrip (s : string) : string :=
  match s with
  | String x s' => if is_space x then lstrip s' else s
  | EmptyString => EmptyString
  end.

Fixpoint rstrip (s : string) : string :=
  match s with
  | String x s' =>
      match rstrip s' with
      | EmptyString => if is_space x then EmptyString else String x EmptyString
      | rest => String x rest
      end
  | EmptyString => EmptyString
  end.

(** The digits of a decimal literal: digits, with single underscores
    between two of them. *)
Fixpoint digits_value (acc : Z) (after_digit : bool) (s : string) : option Z :=
  match s with
  | EmptyString => if after_digit then Some acc else None
  | String x s' =>
      if is_digit x
      then digits_value (acc * 10 + Z.of_nat (nat_of_ascii x - 48)) true s'
      else if Ascii.eqb x "_" && after_digit then digits_value acc false s'
      else None
  end.

(** [int(s)] for a string: white space around, a sign, the digits. *)
Definition int_of_string (s : string) : result Z :=
  let s := rstrip (lstrip s) in
  let '(negative, s) :=
    match s with
    | String "-" s' => (true, s')
    | String "+" s' => (false, s')
    | _ => (false, s)
    end in
  match digits_value 0 false s with
  | Some z => Ok (if negative then - z else z)
  | None => Raise ValueError
  end.

(** [int(v)] *)
Definition py_int (v : pyval) : result Z :=
  match v with
  | PInt z => Ok z
  | PBool b => Ok (if b then 1 else 0)
  | PStr s => int_of_string s
  | PNone | PList _ | PTuple _ | PDict _ => Raise TypeError
  end.

(** A number, or [TypeError]: what arithmetic with an [int] asks of its
    other operand. *)
Definition int_operand (v : pyval) : result Z :=
  match as_int v with
  | Some z => Ok z
  | None => Raise TypeError
  end.

Section ItemUse.
Context {G : Type} `{RandomGen G}.

(** One turn of the loop over the parts of a dice expression. *)
Definition heal_part (part : string) (acc : Z * DiceRoller G)
  : result (Z * DiceRoller G) :=
  let '(total, dice) := acc in
  if contains_char "d" part then
    match split_at "d" part "" with
    | [num; die] =>
        num ← (if nonempty num then int_of_string num else Ok 1);
        die ← int_of_string die;
        '(_, roll_total, dice) ← roll dice num die;
        Ok (total + roll_total, dice)
    | _ => Raise ValueError
    end
  else
    n ← int_of_string part;
    Ok (total + n, dice).

Fixpoint heal_parts (parts : list string) (acc : Z * DiceRoller G)
  : result (Z * DiceRoller G) :=
  match parts with
  | [] => Ok acc
  | part :: parts' => acc ← heal_part part acc; heal_parts parts' acc
  end.

(** The amount a heal item restores, from its [value]. *)
Definition heal_total (value : pyval) (dice : DiceRoller G)
  : result (Z * DiceRoller G) :=
  match value with
  | PStr s =>
      if contains_char "d" s then
        let parts :=
          split_words (replace_char "-" " -" (replace_char "+" " " s)) "" in
        heal_parts parts (0, dice)
      else
        total ← py_int value; Ok (total, dice)
  | _ => total ← py_int value; Ok (total, dice)
  end.

(** [item[k]] for a key the entry may not have. *)
Definition item_key {A : Type} (field : option A) : result A :=
  match field with
  | Some a => Ok a
  | None => Raise KeyError
  end.

Definition use_item (state : GameState.t) (item_name : string)
    (dice : DiceRoller G)
  : result (bool * string * GameState.t * DiceRoller G) :=
  if negb (GameState.has_item state item_name) then
    Ok (false, "You don't have " +:+ item_name +:+ "!", state, dice)
  else
    match ITEMS !! item_name with
    | None => Ok (false, item_name +:+ " cannot be used.", state, dice)
    | Some item =>
      if negb (String.eqb (Item.type item) "consumable") then
        Ok (false, item_name +:+ " is not consumable.", state, dice)
      else
        effect ← item_key (Item.effect item);
        if String.eqb effect "heal" then
          value ← item_key (Item.value item);
          '(total, dice) ← heal_total value dice;
          let '(actual, state) := GameState.heal state total in
          let '(_, state) := GameState.remove_from_inventory state item_name in
          Ok (true,
              "Used " +:+ item_name +:+ "! Restored " +:+ pretty actual
                +:+ " HP.",
              state, dice)
        else if String.eqb effect "restore_ability" then
          value ← item_key (Item.value item);
          amount ← int_operand value;
          let state := GameState.restore_ability_use state amount in
          let '(_, state) := GameState.remove_from_inventory state item_name in
          let ability_name := Ability.name (GameState.get_ability_info state) in
          Ok (true,
              "Used " +:+ item_name +:+ "! Restored " +:+ ability_name
                +:+ " use.",
              state, dice)
        else
          Ok (false, "Don't know how to use " +:+ item_name +:+ ".",
              state, dice)
    end.

End ItemUse.

(** ** Enemy attack *)

(** [str(v)], as an f-string prints a value.  The engine prints fields of
    the enemy it has not checked; of Python's rendering only that of
    integers and strings is fixed here. *)
Class PyStr : Type := {
  py_str : pyval -> string;
  py_str_int : forall z, py_str (PInt z) = pretty z;
  py_str_str : forall s, py_str (PStr s) = s
}.

(** A rendering to run examples with: scalars as Python prints them, a
    placeholder for containers. *)
Definition sample_str (v : pyval) : string :=
  match v with
  | PNone => "None"
  | PBool true => "True"
  | PBool false => "False"
  | PInt z => pretty z
  | PStr s => s
  | PList _ => "[...]"
  | PTuple _ => "(...)"
  | PDict _ => "{...}"
  end.

(** [a, b = v]: [v] must yield exactly two elements. *)
Definition unpack_pair (v : pyval) : result (pyval * pyval) :=
  l ← py_iter v;
  match l with
  | [a; b] => Ok (a, b)
  | _ => Raise ValueError
  end.

(** [v * 2] *)
Definition py_double (v : pyval) : result pyval :=
  match v with
  | PInt z => Ok (PInt (z * 2))
  | PBool b => Ok (PInt ((if b then 1 else 0) * 2))
  | PStr s => Ok (PStr (s +:+ s))
  | PList l => Ok (PList (l ++ l)%list)
  | PTuple l => Ok (PTuple (l ++ l)%list)
  | PNone | PDict _ => Raise TypeError
  end.

Section EnemyAttack.
Context {G : Type} `{RandomGen G} `{PyStr}.

(** [roll_d20] as it runs on a modifier that is any value: the sum with
    the die asks for a number, the display prints the value itself. *)
Definition roll_d20_dyn (self : DiceRoller G) (modifier : pyval)
    (stat_name : string) (advantage disadvantage : bool)
  : result (Z * Z * string * DiceRoller G) :=
  '(raw, adv_str, g) ←
    (if advantage && negb disadvantage then
       '(roll1, g1) ← randint (rng self) 1 20;
       '(roll2, g2) ← randint g1 1 20;
       Ok (Z.max roll1 roll2,
           " (ADV: " +:+ pretty roll1 +:+ ", " +:+ pretty roll2 +:+ ")", g2)
     else if disadvantage && negb advantage then
       '(roll1, g1) ← randint (rng self) 1 20;
       '(roll2, g2) ← randint g1 1 20;
       Ok (Z.min roll1 roll2,
           " (DIS: " +:+ pretty roll1 +:+ ", " +:+ pretty roll2 +:+ ")", g2)
     else
       '(raw, g1) ← randint (rng self) 1 20;
       Ok (raw, "", g1));
  m ← int_operand modifier;
  let total := raw + m in
  let display :=
    if nonempty stat_name && negb (m =? 0) then
      "d20: " +:+ pretty raw +:+ adv_str +:+ " " +:+ sign_str m +:+ " "
        +:+ stat_name +:+ "(" +:+ py_str modifier +:+ ") = " +:+ pretty total
    else if negb (m =? 0) then
      "d20: " +:+ pretty raw +:+ adv_str +:+ " " +:+ sign_str m
        +:+ py_str modifier +:+ " = " +:+ pretty total
    else
      "d20: " +:+ pretty raw +:+ adv_str in
  Ok (raw, total, display, with_rng self g).

(** [roll] on values: [range(num_dice)] asks for a number, and each die
    thrown asks one of [die_size]. *)
Definition roll_dyn (self : DiceRoller G) (num_dice die_size : pyval)
  : result (list Z * Z * DiceRoller G) :=
  n ← int_operand num_dice;
  '(rolls, g) ←
    match Z.to_nat n with
    | O => Ok ([], rng self)
    | S _ => d ← int_operand die_size; roll_each (Z.to_nat n) d (rng self)
    end;
  let total := sum rolls in
  Ok (rolls, total, with_rng self g).

Definition roll_damage_dyn (self : DiceRoller G)
    (num_dice die_size modifier : pyval) (stat_name : string)
  : result (Z * string * DiceRoller G) :=
  '(rolls, dice_total, self') ← roll_dyn self num_dice die_size;
  m ← int_operand modifier;
  let total := dice_total + m in
  let rolls_str :=
    match rolls with
    | [r] => pretty r
    | _ => "(" +:+ String.concat "+" (map pretty rolls) +:+ ")"
    end in
  let head :=
    py_str num_dice +:+ "d" +:+ py_str die_size +:+ ": " +:+ rolls_str in
  let display :=
    if nonempty stat_name && negb (m =? 0) then
      head +:+ " " +:+ sign_str m +:+ " " +:+ stat_name
        +:+ "(" +:+ py_str modifier +:+ ") = " +:+ pretty total
    else if negb (m =? 0) then
      head +:+ " " +:+ sign_str m +:+ py_str modifier
        +:+ " = " +:+ pretty total
    else
      head +:+ " = " +:+ pretty total in
  Ok (Z.max 1 total, display, self').

Definition enemy_attack (state : GameState.t) (dice : DiceRoller G)
  : result (CombatResult * GameState.t * DiceRoller G) :=
  match GameState.current_enemy state with
  | Some data0 =>
    if GameState.has_enemy state then
      '(data, enemy) ← Enemy.from_dict data0;
      let state := GameState.set_current_enemy state (Some data) in
      let player_ac := GameState.get_ac state in
      '(raw, total, roll_display, dice) ←
        roll_d20_dyn dice (Enemy.attack_bonus enemy) "ATK" false false;
      let critical := raw =? 20 in
      let critical_miss := raw =? 1 in
      if critical_miss then
        Ok (CombatResult_init false
              ("The " +:+ py_str (Enemy.name enemy)
                 +:+ "'s attack misses wildly!")
              0 roll_display, state, dice)
      else if (player_ac <=? total) || critical then
        '(num_dice, die_size) ← unpack_pair (Enemy.damage_dice enemy);
        num_dice ← (if critical then py_double num_dice else Ok num_dice);
        '(damage, dmg_display, dice) ←
          roll_damage_dyn dice num_dice die_size (Enemy.damage_bonus enemy) "";
        let '(_, state) := GameState.take_damage state damage in
        let crit_text := if critical then " CRITICAL!" else "" in
        Ok (CombatResult_init true
              ("The " +:+ py_str (Enemy.name enemy) +:+ " hits you!"
                 +:+ crit_text)
              damage
              ("[Enemy Attack] " +:+ roll_display +:+ newline
                 +:+ "[Damage] " +:+ dmg_display),
            state, dice)
      else
        Ok (CombatResult_init false
              ("The " +:+ py_str (Enemy.name enemy) +:+ "'s attack misses.")
              0
              ("[Enemy Attack] " +:+ roll_display +:+ " vs AC "
                 +:+ pretty player_ac),
            state, dice)
    else Ok (CombatResult_init false "No enemy!" 0 "", state, dice)
  | None => Ok (CombatResult_init false "No enemy!" 0 "", state, dice)
  end.

End EnemyAttack.

(** ** The callers' combat steps *)


Section CombatSteps.
Context {G : Type} `{RandomGen G}.


End CombatSteps.

(** ** Vocabulary of the statements *)

(** [v] is a number of [[lo, hi]]. *)
Definition in_range (v : pyval) (lo hi : Z) : Prop :=
  exists z, as_int v = Some z /\ lo <= z <= hi.

(** The order the specification asks of the stored [gold_drop]. *)
Definition gold_drop_ordered (e : Enemy.t) : Prop :=
  exists low high l h,
    Enemy.gold_drop e = PTuple [low; high]
    /\ as_int low = Some l /\ as_int high = Some h
    /\ 0 <= l <= h.

(** The damage of a hit: [count] weapon dice of [die_size] sides rolled
    from the generator [g1], their sum with the modifier floored at 1,
    then, when [sneak] holds, two six-sided dice more, added as they fall.
    [g3] is the generator the rolls leave. *)
Definition hit_damage {G : Type} `{RandomGen G} (g1 : G)
    (count die_size modifier : Z) (sneak : bool) (dmg : Z) (g3 : G) : Prop :=
  exists rolls g2 sneak_rolls,
    roll_each (Z.to_nat count) die_size g1 = Ok (rolls, g2)
    /\ length rolls = Z.to_nat count
    /\ (if sneak
        then roll_each 2 6 g2 = Ok (sneak_rolls, g3)
             /\ length sneak_rolls = 2%nat
        else sneak_rolls = [] /\ g3 = g2)
    /\ dmg = Z.max 1 (sum rolls + modifier) + sum sneak_rolls.

(** What the engine keeps true of the player: hit points between 0 and
    the maximum, gold not negative, ability uses between 0 and the
    maximum. *)
Definition player_invariant (s : GameState.t) : Prop :=
  0 <= GameState.hp s <= GameState.max_hp s
  /\ 0 <= GameState.gold s
  /\ 0 <= GameState.ability_uses s <= GameState.ability_max_uses s.

(** The armor bonus the table gives an item name. *)
Definition armor_of (item : string) : Z :=
  if String.eqb item "Chain Mail" then 3
  else if String.eqb item "Leather Armor" then 2
  else if String.eqb item "Robes" then 1
  else 0.

(** What the tools carried add to a skill check: 2 for each Lockpicks on
    a DEX check, nothing otherwise. *)
Definition tool_bonus (stat : string) (inventory : list string) : Z :=
  if String.eqb stat "DEX"
  then 2 * Z.of_nat (count_occ String.string_dec inventory "Lockpicks")
  else 0.

(** The entry of a stat in the dictionary [generate_stats] returns. *)
Definition stat_entry_ok (primary stat : string) (entry : gmap string Z) : Prop :=
  exists score,
    entry !! "score" = Some score
    /\ entry !! "modifier" = Some (calculate_modifier score)
    /\ 3 <= score <= 18
    /\ (stat = primary -> 5 <= score)
    /\ -4 <= calculate_modifier score <= 4.

(** The state holds a current enemy the combat functions can work on:
    its dictionary is one [from_dict] accepts, giving [enemy], whose hit
    points, armor class, attack bonus and damage bonus are numbers and
    whose damage dice are a pair of numbers, the die with at least one
    side. *)
Definition combat_ready (state : GameState.t) (enemy : Enemy.t) : Prop :=
  (exists data0 data,
     GameState.current_enemy state = Some data0
     /\ Enemy.from_dict data0 = Ok (data, enemy))
  /\ is_Some (as_int (Enemy.hp enemy))
  /\ is_Some (as_int (Enemy.ac enemy))
  /\ is_Some (as_int (Enemy.attack_bonus enemy))
  /\ is_Some (as_int (Enemy.damage_bonus enemy))
  /\ exists n s dn ds,
       Enemy.damage_dice enemy = PTuple [n; s]
       /\ as_int n = Some dn /\ as_int s = Some ds /\ 1 <= ds.


(** The fields of [Enemy] without a default. *)
Definition required_fields : list string :=
  ["name"; "hp"; "max_hp"; "ac"; "attack_bonus"; "damage_dice";
   "damage_bonus"; "xp"; "gold_drop"; "behavior"].

(** The entry [k] of [data] is there and can be iterated over. *)
Definition iterable_entry (data : dict) (k : string) : Prop :=
  exists v l, data !! k = Some v /\ py_iter v = Ok l.

(** The dictionaries [from_dict] turns into an enemy. *)
Definition from_dict_accepts (data : dict) : Prop :=
  iterable_entry data "damage_dice"
  /\ iterable_entry data "gold_drop"
  /\ dom data ⊆ list_to_set Enemy.field_names
  /\ Forall (fun k => is_Some (data !! k)) required_fields.

(** The entry [k] of [data] is a number when it is there: an [int] or a
    [bool], the numbers of the model. *)
Definition number_or_absent (data : dict) (k : string) : Prop :=
  match data !! k with
  | Some v => is_Some (as_int v)
  | None => True
  end.

(** A list of two holds two numbers; any other value passes. *)
Definition pair_of_numbers (v : pyval) : Prop :=
  match v with
  | PList [a; b] => is_Some (as_int a) /\ is_Some (as_int b)
  | _ => True
  end.

(** The entry [k] of [data] holds two numbers when it is a list of two. *)
Definition numbers_if_pair (data : dict) (k : string) : Prop :=
  match data !! k with
  | Some v => pair_of_numbers v
  | None => True
  end.

(** The dictionaries [create_enemy_from_llm] turns into an enemy. *)
Definition llm_enemy_accepts (data : dict) : Prop :=
  number_or_absent data "hp"
  /\ number_or_absent data "ac"
  /\ number_or_absent data "attack_bonus"
  /\ numbers_if_pair data "damage_dice"
  /\ number_or_absent data "damage_bonus"
  /\ number_or_absent data "xp"
  /\ numbers_if_pair data "gold_drop".




Section CombatRuns.
Context {G : Type} `{RandomGen G} `{PyStr}.


End CombatRuns.

(** ** Sample data

    Inputs to run the engine on: a rogue as [create_character] equips
    one, a goblin as the narrative layer sends one, and the dictionary of
    the goblin before and after [from_dict] has gone over it. *)

Definition sample_stats (dex_modifier : Z) : gmap string (gmap string Z) :=
  list_to_map
    [("STR", list_to_map [("score", 10); ("modifier", 0)]);
     ("DEX", list_to_map [("score", 16); ("modifier", dex_modifier)]);
     ("INT", list_to_map [("score", 12); ("modifier", 1)]);
     ("CHA", list_to_map [("score", 8); ("modifier", -1)])].

Definition sample_rogue (dex_modifier hp ability_uses : Z) (sneak : bool)
    (enemy : option dict) : GameState.t :=
  GameState.mk "Vex" "rogue" (sample_stats dex_modifier) hp 12 15 15
    ["Dagger"; "Leather Armor"; "Lockpicks"; "Health Potion"] "Dagger"
    ability_uses 1 sneak "tavern" [] ∅ ∅ None
    (match enemy with Some _ => true | None => false end) enemy
    0 "" [] true false None.

Definition goblin (ac : Z) : Enemy.t :=
  Enemy.mk (PStr "Goblin") (PInt 7) (PInt 7) (PInt ac) (PInt 3)
    (PTuple [PInt 1; PInt 6]) (PInt 1) (PInt 25)
    (PTuple [PInt 2; PInt 8]) (PStr "aggressive") (PStr "A sneak.")
    (PList [PStr "Rusty Key"]).

Definition goblin_entry (ac : Z) : dict :=
  list_to_map
    [("name", PStr "Goblin"); ("hp", PInt 7); ("max_hp", PInt 7);
     ("ac", PInt ac); ("attack_bonus", PInt 3);
     ("damage_dice", PList [PInt 1; PInt 6]); ("damage_bonus", PInt 1);
     ("xp", PInt 25); ("gold_drop", PList [PInt 2; PInt 8]);
     ("behavior", PStr "aggressive"); ("description", PStr "A sneak.");
     ("loot", PList [PStr "Rusty Key"])].

Definition goblin_current (ac : Z) : dict :=
  <["gold_drop" := PTuple [PInt 2; PInt 8]]>
    (<["damage_dice" := PTuple [PInt 1; PInt 6]]> (goblin_entry ac)).

(** The sample rogue with another inventory and no ability use left. *)
Definition with_items (items : list string) : GameState.t :=
  GameState.set_inventory (sample_rogue 3 7 0 true None) items.


(** A player of the given class, with 12 hit points at most and two
    ability uses at most. *)
Definition sample_player (player_class : string) (hp ability_uses : Z)
    (enemy : option dict) : GameState.t :=
  GameState.mk "Vex" player_class (sample_stats 3) hp 12 15 15
    ["Dagger"; "Leather Armor"] "Dagger"
    ability_uses 2 false "tavern" [] ∅ ∅ None
    (match enemy with Some _ => true | None => false end) enemy
    0 "" [] true false None.

(** A [str] for the examples. *)
#[global] Instance sample_PyStr : PyStr := {|
  py_str := sample_str;
  py_str_int := fun _ => eq_refl;
  py_str_str := fun _ => eq_refl
|}.

(** * Properties *)

Lemma bind_Ok {A B : Type} (a : A) (k : A -> result B) :
  (Ok a ≫= k) = k a.
Proof. reflexivity. Qed.

Lemma bind_Raise {A B : Type} (e : pyerr) (k : A -> result B) :
  (Raise e ≫= k) = Raise e.
Proof. reflexivity. Qed.

Lemma bind_Ok_inv {A B : Type} (m : result A) (k : A -> result B) (b : B) :
  (m ≫= k) = Ok b -> exists a, m = Ok a /\ k a = Ok b.
Proof. destruct m as [a|e]; [eauto | discriminate]. Qed.

(** Splits a hypothesis [m ≫= k = Ok b] into [m = Ok a] and [k a = Ok b]. *)
Ltac bind_inv H :=
  let a := fresh "a" in
  let Ha := fresh "Ha" in
  apply bind_Ok_inv in H; destruct H as (a & Ha & H).

(** The linear congruential generator implements the interface. *)
Lemma lcg_randint_range (g a b : Z) :
  a <= b -> a <= fst (lcg_randint g a b) <= b.
Proof.
  intros Hab. unfold lcg_randint. simpl.
  pose proof (Z.mod_pos_bound (lcg_next g) (b - a + 1)). lia.
Qed.

#[global] Instance lcg_RandomGen : RandomGen Z := {|
  Random := lcg_seed;
  randint_draw := lcg_randint;
  randint_draw_range := lcg_randint_range
|}.

Section DiceFacts.
Context {G : Type} `{RandomGen G}.

Lemma randint_Ok (g : G) (a b : Z) :
  a <= b -> randint g a b = Ok (randint_draw g a b).
Proof.
  intros Hab. unfold randint.
  destruct (b <? a) eqn:E; [apply Z.ltb_lt in E; lia | reflexivity].
Qed.

(** With a die of at least one side the rolls never raise: there are as
    many as asked, each on the die. *)
Lemma roll_each_Ok (n : nat) (die_size : Z) (g : G) :
  1 <= die_size ->
  exists rolls g',
    roll_each n die_size g = Ok (rolls, g')
    /\ length rolls = n
    /\ Forall (fun r => 1 <= r <= die_size) rolls.
Proof.
  intros Hd. revert g. induction n as [|n IH]; intros g.
  - exists [], g. repeat split; constructor.
  - simpl. rewrite (randint_Ok g 1 die_size Hd), bind_Ok.
    pose proof (randint_draw_range g 1 die_size Hd) as Hr.
    destruct (randint_draw g 1 die_size) as [r g1]. simpl in Hr.
    destruct (IH g1) as (rs & g2 & -> & Hlen & Hall).
    exists (r :: rs), g2. rewrite bind_Ok. simpl.
    repeat split; [congruence | constructor; assumption].
Qed.

Lemma roll_Ok (dice : DiceRoller G) (num_dice die_size : Z) :
  1 <= die_size ->
  exists rolls g',
    roll_each (Z.to_nat num_dice) die_size (rng dice) = Ok (rolls, g')
    /\ roll dice num_dice die_size = Ok (rolls, sum rolls, with_rng dice g')
    /\ length rolls = Z.to_nat num_dice
    /\ Forall (fun r => 1 <= r <= die_size) rolls.
Proof.
  intros Hd. unfold roll.
  destruct (roll_each_Ok (Z.to_nat num_dice) die_size (rng dice) Hd)
    as (rolls & g' & -> & Hlen & Hall).
  exists rolls, g'. rewrite bind_Ok. auto.
Qed.

(** A plain d20 (no advantage, no disadvantage) is one draw of [[1, 20]]
    plus the modifier, and never raises. *)
Lemma roll_d20_plain (dice : DiceRoller G) (modifier : Z) (stat_name : string) :
  exists display,
    roll_d20 dice modifier stat_name false false
    = Ok (fst (randint_draw (rng dice) 1 20),
          fst (randint_draw (rng dice) 1 20) + modifier,
          display,
          with_rng dice (snd (randint_draw (rng dice) 1 20))).
Proof.
  unfold roll_d20. cbn [andb negb]. rewrite randint_Ok by lia.
  rewrite bind_Ok. destruct (randint_draw (rng dice) 1 20) as [raw g1].
  rewrite bind_Ok. cbn [fst snd]. eexists. reflexivity.
Qed.

Lemma roll_damage_Ok (dice : DiceRoller G) (num_dice die_size modifier : Z)
    (stat_name : string) :
  1 <= die_size ->
  exists rolls display g',
    roll_each (Z.to_nat num_dice) die_size (rng dice) = Ok (rolls, g')
    /\ roll_damage dice num_dice die_size modifier stat_name
       = Ok (Z.max 1 (sum rolls + modifier), display, with_rng dice g')
    /\ length rolls = Z.to_nat num_dice
    /\ Forall (fun r => 1 <= r <= die_size) rolls.
Proof.
  intros Hd. unfold roll_damage.
  destruct (roll_Ok dice num_dice die_size Hd)
    as (rolls & g' & Heach & Hroll & Hlen & Hall).
  rewrite Hroll, bind_Ok. simpl.
  exists rolls. eexists. exists g'. split; [exact Heach |].
  split; [reflexivity | auto].
Qed.

(** ** C8 *)

(** C8: for a dice count of at least 1, a die of at least 1 side and any
    modifier, [roll_damage] returns (it does not raise) and the total it
    returns is at least 1. *)
Theorem roll_damage_at_least_one (dice : DiceRoller G)
    (num_dice die_size modifier : Z) (stat_name : string) :
  1 <= num_dice -> 1 <= die_size ->
  exists total display dice',
    roll_damage dice num_dice die_size modifier stat_name
    = Ok (total, display, dice')
    /\ 1 <= total.
Proof.
  intros _ Hd.
  destruct (roll_damage_Ok dice num_dice die_size modifier stat_name Hd)
    as (rolls & display & g' & _ & Heq & _).
  exists (Z.max 1 (sum rolls + modifier)), display, (with_rng dice g').
  split; [exact Heq | lia].
Qed.

End DiceFacts.

Lemma roll_damage_at_least_one_witness :
  exists total display dice',
    roll_damage (DiceRoller_init (Some 7)) 2 6 (-99) "STR"
    = Ok (total, display, dice')
    /\ 1 <= total.
Proof.
  apply (roll_damage_at_least_one (G := Z) (DiceRoller_init (Some 7)) 2 6 (-99) "STR");
    lia.
Defined.

(** ** C4 *)

(** C4: from a state with [0 <= hp <= max_hp] and for a non-negative
    amount, [heal] and [take_damage] keep [0 <= hp <= max_hp] (neither
    touches [max_hp]); [heal] returns [min(amount, max_hp - hp)] and adds
    exactly that, [take_damage] returns [min(amount, hp)] and subtracts
    exactly that. *)
Theorem heal_take_damage_clamped (state : GameState.t) (amount : Z) :
  0 <= GameState.hp state <= GameState.max_hp state ->
  0 <= amount ->
  let healed := GameState.heal state amount in
  let hurt := GameState.take_damage state amount in
  (fst healed = Z.min amount (GameState.max_hp state - GameState.hp state)
   /\ GameState.hp (snd healed) = GameState.hp state + fst healed
   /\ GameState.max_hp (snd healed) = GameState.max_hp state
   /\ 0 <= GameState.hp (snd healed) <= GameState.max_hp (snd healed))
  /\
  (fst hurt = Z.min amount (GameState.hp state)
   /\ GameState.hp (snd hurt) = GameState.hp state - fst hurt
   /\ GameState.max_hp (snd hurt) = GameState.max_hp state
   /\ 0 <= GameState.hp (snd hurt) <= GameState.max_hp (snd hurt)).
Proof.
  intros Hhp Hamount. unfold GameState.heal, GameState.take_damage.
  cbn [fst snd GameState.set_hp GameState.hp GameState.max_hp].
  repeat split; lia.
Qed.

Lemma heal_take_damage_clamped_witness :
  let state := sample_rogue 3 7 1 true None in
  let healed := GameState.heal state 9 in
  let hurt := GameState.take_damage state 9 in
  (fst healed = Z.min 9 (GameState.max_hp state - GameState.hp state)
   /\ GameState.hp (snd healed) = GameState.hp state + fst healed
   /\ GameState.max_hp (snd healed) = GameState.max_hp state
   /\ 0 <= GameState.hp (snd healed) <= GameState.max_hp (snd healed))
  /\
  (fst hurt = Z.min 9 (GameState.hp state)
   /\ GameState.hp (snd hurt) = GameState.hp state - fst hurt
   /\ GameState.max_hp (snd hurt) = GameState.max_hp state
   /\ 0 <= GameState.hp (snd hurt) <= GameState.max_hp (snd hurt)).
Proof.
  apply (heal_take_damage_clamped (sample_rogue 3 7 1 true None) 9);
    simpl; lia.
Defined.

Section AbilityFacts.
Context {G : Type} `{RandomGen G}.

(** ** C7 *)

(** C7: with no ability use left, [use_class_ability] returns the failure
    triple [(False, "No ability uses remaining!", 0)]; it does not raise,
    and neither the game state nor the dice roller changes. *)
Theorem use_class_ability_exhausted (state : GameState.t) (dice : DiceRoller G) :
  GameState.ability_uses state <= 0 ->
  use_class_ability state dice
  = Ok (false, "No ability uses remaining!", 0, state, dice).
Proof.
  intros Huses. unfold use_class_ability.
  destruct (GameState.ability_uses state <=? 0) eqn:E; [reflexivity |].
  apply Z.leb_gt in E. lia.
Qed.

(** ** C6 *)

(** Writing back the value an attribute already has changes nothing. *)
Lemma set_ability_uses_refund (state : GameState.t) :
  GameState.set_ability_uses
    (GameState.set_sneak_attack_available
       (GameState.set_ability_uses state (GameState.ability_uses state - 1))
       true)
    (GameState.ability_uses state - 1 + 1)
  = GameState.set_sneak_attack_available state true.
Proof.
  destruct state. unfold GameState.set_ability_uses,
    GameState.set_sneak_attack_available. simpl.
  f_equal. lia.
Qed.

(** C6: when the class ability has the [damage_boost] effect and a use is
    left, [use_class_ability] succeeds, the only attribute it changes is
    [sneak_attack_available], now true, and [ability_uses] is what it was:
    the use taken by [use_ability] is given back. *)
Theorem use_class_ability_damage_boost (state : GameState.t) (dice : DiceRoller G) :
  Ability.effect (GameState.get_ability_info state) = "damage_boost" ->
  0 < GameState.ability_uses state ->
  exists state',
    use_class_ability state dice
    = Ok (true, "Sneak Attack ready! Use Attack to deal bonus damage.", 0,
          state', dice)
    /\ state' = GameState.set_sneak_attack_available state true
    /\ GameState.sneak_attack_available state' = true
    /\ GameState.ability_uses state' = GameState.ability_uses state.
Proof.
  intros Heffect Huses.
  exists (GameState.set_sneak_attack_available state true).
  split; [| split; [reflexivity | split; reflexivity]].
  unfold use_class_ability.
  destruct (GameState.ability_uses state <=? 0) eqn:E;
    [apply Z.leb_le in E; lia |].
  unfold GameState.use_ability.
  destruct (0 <? GameState.ability_uses state) eqn:E';
    [| apply Z.ltb_ge in E'; lia].
  rewrite Heffect. cbn [String.eqb Ascii.eqb Bool.eqb].
  cbn [GameState.ability_uses GameState.set_sneak_attack_available
       GameState.set_ability_uses].
  rewrite set_ability_uses_refund. reflexivity.
Qed.

End AbilityFacts.

(** The class whose ability has the [damage_boost] effect is the rogue. *)
Lemma damage_boost_is_rogue (state : GameState.t) :
  Ability.effect (GameState.get_ability_info state) = "damage_boost"
  <-> GameState.player_class state = "rogue".
Proof.
  unfold GameState.get_ability_info, GameState.get_class_data. split.
  - destruct (CLASSES !! GameState.player_class state) as [c|] eqn:E;
      [| discriminate].
    simpl. intros Heff.
    apply elem_of_list_to_map_2 in E.
    repeat (apply elem_of_cons in E as [E|E];
            [injection E as Hk Hc; subst c; try discriminate Heff; auto |]).
    inversion E.
  - intros ->. reflexivity.
Qed.

Lemma use_class_ability_exhausted_witness :
  use_class_ability (G := Z) (sample_rogue 3 7 0 false None) (DiceRoller_init (Some 7))
  = Ok (false, "No ability uses remaining!", 0,
        sample_rogue 3 7 0 false None, DiceRoller_init (Some 7)).
Proof.
  apply (use_class_ability_exhausted (sample_rogue 3 7 0 false None)
           (DiceRoller_init (Some 7))).
  simpl. lia.
Defined.

Lemma use_class_ability_damage_boost_witness :
  exists state',
    use_class_ability (G := Z) (sample_rogue 3 7 1 false None) (DiceRoller_init (Some 7))
    = Ok (true, "Sneak Attack ready! Use Attack to deal bonus damage.", 0,
          state', DiceRoller_init (Some 7))
    /\ state' = GameState.set_sneak_attack_available (sample_rogue 3 7 1 false None) true
    /\ GameState.sneak_attack_available state' = true
    /\ GameState.ability_uses state' = GameState.ability_uses (sample_rogue 3 7 1 false None).
Proof.
  apply (use_class_ability_damage_boost (sample_rogue 3 7 1 false None)
           (DiceRoller_init (Some 7))).
  - reflexivity.
  - simpl. lia.
Defined.

(** ** C5 *)

Section FleeFacts.
Context {G : Type} `{RandomGen G}.

(** C5: [attempt_flee] always returns (it never raises, whatever the
    combat attributes hold).  With [raw] the d20 drawn and [total] its sum
    with the DEX modifier, it reports an escape exactly when
    [total >= 12].  On an escape [in_combat] is false, [current_enemy] is
    [None] and [sneak_attack_available] is true, and nothing else changed;
    otherwise the state is the one it was given.  So [in_combat] and
    [current_enemy] are either both cleared or both left as they were. *)
Theorem attempt_flee_outcome (state : GameState.t) (dice : DiceRoller G) :
  let raw := fst (randint_draw (rng dice) 1 20) in
  let total := raw + GameState.get_modifier state "DEX" in
  exists escaped msg state',
    attempt_flee state dice
    = Ok (escaped, msg, state',
          with_rng dice (snd (randint_draw (rng dice) 1 20)))
    /\ (escaped = true <-> 12 <= total)
    /\ (escaped = true ->
        GameState.in_combat state' = false
        /\ GameState.current_enemy state' = None
        /\ GameState.sneak_attack_available state' = true
        /\ state' =
           GameState.set_sneak_attack_available
             (GameState.set_current_enemy
                (GameState.set_in_combat state false) None) true)
    /\ (escaped = false -> state' = state)
    /\ ((GameState.in_combat state' = false
         /\ GameState.current_enemy state' = None)
        \/ (GameState.in_combat state' = GameState.in_combat state
            /\ GameState.current_enemy state' = GameState.current_enemy state)).
Proof.
  intros raw total. unfold attempt_flee.
  destruct (roll_d20_plain dice (GameState.get_modifier state "DEX") "DEX")
    as [display ->].
  rewrite bind_Ok. fold raw. fold total.
  destruct (12 <=? total) eqn:E.
  - apply Z.leb_le in E.
    eexists true, _, _. split; [reflexivity |].
    repeat split; auto; discriminate.
  - apply Z.leb_gt in E.
    eexists false, _, _. split; [reflexivity |].
    repeat split; try discriminate; try lia; auto.
Qed.

End FleeFacts.

(** ** The clamping constructor (C1) *)

Lemma py_min_as_int (a b m : pyval) :
  py_min a b = Ok m ->
  exists x y, as_int a = Some x /\ as_int b = Some y
              /\ as_int m = Some (Z.min x y).
Proof.
  unfold py_min, py_lt.
  destruct (as_int b) as [y|] eqn:Eb; [| discriminate].
  destruct (as_int a) as [x|] eqn:Ea; [| discriminate].
  rewrite bind_Ok. intros [= <-]. exists x, y.
  destruct (y <? x) eqn:E.
  - apply Z.ltb_lt in E. rewrite Eb. repeat split; f_equal; lia.
  - apply Z.ltb_ge in E. rewrite Ea. repeat split; f_equal; lia.
Qed.

Lemma py_max_as_int (a b m : pyval) :
  py_max a b = Ok m ->
  exists x y, as_int a = Some x /\ as_int b = Some y
              /\ as_int m = Some (Z.max x y).
Proof.
  unfold py_max, py_lt.
  destruct (as_int a) as [x|] eqn:Ea; [| discriminate].
  destruct (as_int b) as [y|] eqn:Eb; [| discriminate].
  rewrite bind_Ok. intros [= <-]. exists x, y.
  destruct (x <? y) eqn:E.
  - apply Z.ltb_lt in E. rewrite Eb. repeat split; f_equal; lia.
  - apply Z.ltb_ge in E. rewrite Ea. repeat split; f_equal; lia.
Qed.

(** [max(lo, min(hi, x))] is a number of [[lo, hi]] whenever it returns. *)
Lemma clamp_in_range (lo hi : Z) (x m v : pyval) :
  lo <= hi ->
  py_min (PInt hi) x = Ok m -> py_max (PInt lo) m = Ok v ->
  in_range v lo hi.
Proof.
  intros Hlh Hmin Hmax.
  apply py_min_as_int in Hmin as (h & z & [= <-] & _ & Hm).
  apply py_max_as_int in Hmax as (l & z' & [= <-] & Hm' & Hv).
  rewrite Hm in Hm'. injection Hm' as <-.
  exists (Z.max lo (Z.min hi z)). split; [exact Hv | lia].
Qed.

(** What [create_enemy_from_llm] guarantees of every enemy it returns.
    The lower end of [gold_drop] is not negative, and the upper end is the
    larger of the two numbers received: it is at least the lower end as
    soon as one of them is not negative, and the pair is the default
    [(1, 5)] when the entry is not a list of two. *)
Lemma create_enemy_from_llm_bounds (enemy_data : dict) (e : Enemy.t) :
  create_enemy_from_llm enemy_data = Ok e ->
  in_range (Enemy.hp e) 1 100
  /\ Enemy.max_hp e = Enemy.hp e
  /\ in_range (Enemy.ac e) 8 20
  /\ in_range (Enemy.attack_bonus e) (-2) 8
  /\ (exists n s, Enemy.damage_dice e = PTuple [n; s]
                  /\ in_range n 1 4 /\ in_range s 4 12)
  /\ in_range (Enemy.damage_bonus e) 0 5
  /\ in_range (Enemy.xp e) 10 500
  /\ (exists low high l h,
        Enemy.gold_drop e = PTuple [low; high]
        /\ as_int low = Some l /\ as_int high = Some h
        /\ 0 <= l
        /\ ((l = 1 /\ h = 5)
            \/ exists g0 g1 x0 x1,
                 enemy_data !! "gold_drop" = Some (PList [g0; g1])
                 /\ as_int g0 = Some x0 /\ as_int g1 = Some x1
                 /\ l = Z.max 0 x0 /\ h = Z.max x0 x1)).
Proof.
  unfold create_enemy_from_llm. intros Hrun.
  bind_inv Hrun. rename a into m1, Ha into Hm1.
  bind_inv Hrun. rename a into hp, Ha into Hhp.
  bind_inv Hrun. rename a into m2, Ha into Hm2.
  bind_inv Hrun. rename a into ac, Ha into Hac.
  bind_inv Hrun. rename a into m3, Ha into Hm3.
  bind_inv Hrun. rename a into ab, Ha into Hab.
  bind_inv Hrun. rename a into dd, Ha into Hdd.
  bind_inv Hrun. rename a into m4, Ha into Hm4.
  bind_inv Hrun. rename a into db, Ha into Hdb.
  bind_inv Hrun. rename a into m5, Ha into Hm5.
  bind_inv Hrun. rename a into xp, Ha into Hxp.
  bind_inv Hrun. rename a into gd, Ha into Hgd.
  injection Hrun as <-. cbn [Enemy.hp Enemy.max_hp Enemy.ac Enemy.attack_bonus
    Enemy.damage_dice Enemy.damage_bonus Enemy.xp Enemy.gold_drop].
  split; [eapply clamp_in_range; eauto; lia |].
  split; [reflexivity |].
  split; [eapply clamp_in_range; eauto; lia |].
  split; [eapply clamp_in_range; eauto; lia |].
  split.
  { assert (Hdefault : in_range (PInt 1) 1 4 /\ in_range (PInt 6) 4 12)
      by (split; eexists; (split; [reflexivity | lia])).
    destruct (dict_get enemy_data "damage_dice" _) as [| | | |l|l|d];
      try (injection Hdd as <-; eexists _, _; split; [reflexivity | exact Hdefault]).
    destruct l as [|d0 [|d1 [|d2 l]]];
      try (injection Hdd as <-; eexists _, _; split; [reflexivity | exact Hdefault]).
    bind_inv Hdd. rename a into n1, Ha into Hn1.
    bind_inv Hdd. rename a into n, Ha into Hn.
    bind_inv Hdd. rename a into s1, Ha into Hs1.
    bind_inv Hdd. rename a into s, Ha into Hs.
    injection Hdd as <-. exists n, s.
    split; [reflexivity |].
    split; eapply clamp_in_range; eauto; lia. }
  split; [eapply clamp_in_range; eauto; lia |].
  split; [eapply clamp_in_range; eauto; lia |].
  unfold dict_get in Hgd.
  destruct (enemy_data !! "gold_drop") as [v|] eqn:Elook; cbn [default] in Hgd.
  2: { injection Hgd as <-. exists (PInt 1), (PInt 5), 1, 5.
       repeat split; auto; lia. }
  assert (Hdefault : Ok (PTuple [PInt 1; PInt 5]) = Ok gd ->
    exists low high l h,
      gd = PTuple [low; high] /\ as_int low = Some l /\ as_int high = Some h
      /\ 0 <= l
      /\ ((l = 1 /\ h = 5)
          \/ exists g0 g1 x0 x1,
               Some v = Some (PList [g0; g1])
               /\ as_int g0 = Some x0 /\ as_int g1 = Some x1
               /\ l = Z.max 0 x0 /\ h = Z.max x0 x1)).
  { intros [= <-]. exists (PInt 1), (PInt 5), 1, 5. repeat split; auto; lia. }
  destruct v as [| | | |l|l|d]; try (exact (Hdefault Hgd)).
  destruct l as [|g0 [|g1 [|g2 l]]]; try (exact (Hdefault Hgd)).
  clear Hdefault.
  bind_inv Hgd. rename a into low, Ha into Hlow.
  bind_inv Hgd. rename a into high, Ha into Hhigh.
  injection Hgd as <-.
  apply py_max_as_int in Hlow as (z0 & x0 & [= <-] & Hg0 & Hlow).
  apply py_max_as_int in Hhigh as (x0' & x1 & Hg0' & Hg1 & Hhigh).
  rewrite Hg0 in Hg0'. injection Hg0' as <-.
  exists low, high, (Z.max 0 x0), (Z.max x0 x1).
  split; [reflexivity |]. split; [exact Hlow |]. split; [exact Hhigh |].
  split; [lia |]. right. exists g0, g1, x0, x1. auto.
Qed.

(** The three instances the specification lists. *)
Example create_enemy_hp_9999 :
  Enemy.hp <$> create_enemy_from_llm {[ "hp" := PInt 9999 ]}
  = Ok (PInt 100).
Proof. vm_compute. reflexivity. Qed.

Example create_enemy_attack_bonus_minus_50 :
  Enemy.attack_bonus <$> create_enemy_from_llm {[ "attack_bonus" := PInt (-50) ]}
  = Ok (PInt (-2)).
Proof. vm_compute. reflexivity. Qed.

Example create_enemy_gold_drop_5_2 :
  Enemy.gold_drop <$> create_enemy_from_llm {[ "gold_drop" := PList [PInt 5; PInt 2] ]}
  = Ok (PTuple [PInt 5; PInt 5]).
Proof. vm_compute. reflexivity. Qed.

(** The order holds unless both numbers received are negative. *)
Lemma create_enemy_from_llm_gold_drop_ordered (enemy_data : dict) (e : Enemy.t) :
  create_enemy_from_llm enemy_data = Ok e ->
  (forall g0 g1 x0 x1,
     enemy_data !! "gold_drop" = Some (PList [g0; g1]) ->
     as_int g0 = Some x0 -> as_int g1 = Some x1 -> 0 <= x0 \/ 0 <= x1) ->
  gold_drop_ordered e.
Proof.
  intros Hrun Hsign.
  destruct (create_enemy_from_llm_bounds enemy_data e Hrun)
    as (_ & _ & _ & _ & _ & _ & _ & low & high & l & h & Hgd & Hl & Hh & Hpos & Hcase).
  exists low, high, l, h. repeat split; auto.
  destruct Hcase as [[-> ->] | (g0 & g1 & x0 & x1 & Hin & Hg0 & Hg1 & -> & ->)];
    [lia |].
  destruct (Hsign g0 g1 x0 x1 Hin Hg0 Hg1); lia.
Qed.

(** ** C1 *)

(** C1, at the input [{"gold_drop": [-5, -3]}]: the enemy is built, its
    [gold_drop] is [(0, -3)], and so the upper end is below the lower end.
    The lower end is [max(0, gold_drop[0])], but the upper end is
    [max(gold_drop[0], gold_drop[1])], taken against the number as
    received and not against the lower end. *)
Theorem create_enemy_gold_drop_negative_pair :
  exists e,
    create_enemy_from_llm {[ "gold_drop" := PList [PInt (-5); PInt (-3)] ]}
    = Ok e
    /\ Enemy.gold_drop e = PTuple [PInt 0; PInt (-3)]
    /\ ~ gold_drop_ordered e.
Proof.
  eexists. split; [vm_compute; reflexivity |].
  split; [reflexivity |].
  intros (low & high & l & h & Hgd & Hl & Hh & Hord).
  cbn [Enemy.gold_drop] in Hgd. injection Hgd as <- <-.
  cbn in Hl, Hh. injection Hl as <-. injection Hh as <-. lia.
Qed.

(** ** C9 *)

(** [from_dict] undoes [to_dict] on an enemy whose two tuple fields are
    tuples. *)
Lemma to_dict_from_dict (e : Enemy.t) (l1 l2 : list pyval) :
  Enemy.damage_dice e = PTuple l1 ->
  Enemy.gold_drop e = PTuple l2 ->
  exists d d',
    Enemy.to_dict e = Ok d /\ Enemy.from_dict d = Ok (d', e).
Proof.
  destruct e as [n hp mhp ac ab dd db xp gd bh ds lt].
  cbn [Enemy.damage_dice Enemy.gold_drop]. intros -> ->.
  eexists _, _. split; [reflexivity |].
  vm_compute. reflexivity.
Qed.

(** C9: for every enemy whose [damage_dice] and [gold_drop] are tuples,
    whatever they and the other ten fields hold, [to_dict] returns a
    dictionary and [from_dict] of that dictionary returns the same enemy,
    field for field. *)
Theorem enemy_dict_round_trip (e : Enemy.t) (dice_spec gold_spec : list pyval) :
  Enemy.damage_dice e = PTuple dice_spec ->
  Enemy.gold_drop e = PTuple gold_spec ->
  exists d d',
    Enemy.to_dict e = Ok d /\ Enemy.from_dict d = Ok (d', e).
Proof. exact (to_dict_from_dict e dice_spec gold_spec). Qed.

Lemma enemy_dict_round_trip_witness :
  (Enemy.damage_dice (goblin 13) = PTuple [PInt 1; PInt 6]
   /\ Enemy.gold_drop (goblin 13) = PTuple [PInt 2; PInt 8])
  /\ exists d d',
       Enemy.to_dict (goblin 13) = Ok d
       /\ Enemy.from_dict d = Ok (d', goblin 13).
Proof.
  split; [split; reflexivity |].
  apply (enemy_dict_round_trip (goblin 13) [PInt 1; PInt 6] [PInt 2; PInt 8]);
    reflexivity.
Defined.

(** The two fields have to be tuples for that: [to_dict] lists them and
    [from_dict] makes tuples of the lists, so a list in [damage_dice]
    comes back as a tuple. *)
Example enemy_dict_round_trip_list :
  (Enemy.to_dict
     (Enemy.mk (PStr "Goblin") (PInt 7) (PInt 7) (PInt 13) (PInt 3)
        (PList [PInt 1; PInt 6]) (PInt 1) (PInt 25)
        (PTuple [PInt 2; PInt 8]) (PStr "aggressive") (PStr "") (PList []))
   ≫= Enemy.from_dict) ≫= (fun r => Ok (Enemy.damage_dice (snd r)))
  = Ok (PTuple [PInt 1; PInt 6]).
Proof. vm_compute. reflexivity. Qed.


(** ** Player attack (C3, C10) *)

(** The enemy [from_dict] returns has tuples in its two tuple fields. *)
Lemma from_dict_tuples (data0 data : dict) (e : Enemy.t) :
  Enemy.from_dict data0 = Ok (data, e) ->
  exists l1 l2,
    Enemy.damage_dice e = PTuple l1 /\ Enemy.gold_drop e = PTuple l2.
Proof.
  unfold Enemy.from_dict. intros Hrun.
  bind_inv Hrun. rename a into dd0, Ha into Hdd0.
  bind_inv Hrun. rename a into dd, Ha into Hdd.
  bind_inv Hrun. rename a into gd0, Ha into Hgd0.
  bind_inv Hrun. rename a into gd, Ha into Hgd.
  bind_inv Hrun. rename a into self, Ha into Hinit.
  injection Hrun as <- <-.
  unfold py_tuple in Hdd, Hgd.
  bind_inv Hdd. rename a into l1. injection Hdd as <-.
  bind_inv Hgd. rename a into l2. injection Hgd as <-.
  exists l1, l2.
  unfold Enemy.init in Hinit.
  destruct (bool_decide _); [| discriminate].
  repeat (let a := fresh "v" in
          apply bind_Ok_inv in Hinit; destruct Hinit as (a & ? & Hinit)).
  injection Hinit as <-. cbn [Enemy.damage_dice Enemy.gold_drop].
  unfold Enemy.required in *.
  repeat match goal with
  | Hx : context [ <[ ?k := _ ]> _ !! ?k ] |- _ =>
      rewrite lookup_insert_eq in Hx
  | Hx : context [ <[ "gold_drop" := _ ]> _ !! "damage_dice" ] |- _ =>
      rewrite lookup_insert_ne in Hx by discriminate
  end.
  split; congruence.
Qed.

Lemma to_dict_set_hp_Ok (e : Enemy.t) (v : pyval) (l1 l2 : list pyval) :
  Enemy.damage_dice e = PTuple l1 -> Enemy.gold_drop e = PTuple l2 ->
  exists d, Enemy.to_dict (Enemy.set_hp e v) = Ok d.
Proof.
  intros Hdd Hgd. unfold Enemy.to_dict.
  cbn [Enemy.set_hp Enemy.damage_dice Enemy.gold_drop].
  rewrite Hdd, Hgd. eexists. reflexivity.
Qed.

(** A dictionary [from_dict] accepts is not empty. *)
Lemma from_dict_has_enemy (state : GameState.t) (data0 : dict)
    (r : dict * Enemy.t) :
  GameState.current_enemy state = Some data0 ->
  Enemy.from_dict data0 = Ok r ->
  GameState.has_enemy state = true.
Proof.
  intros Hcur Hrun. unfold GameState.has_enemy. rewrite Hcur.
  unfold Enemy.from_dict in Hrun. bind_inv Hrun.
  unfold getitem in Ha.
  destruct (data0 !! "damage_dice") as [v|] eqn:E; [| discriminate].
  rewrite bool_decide_eq_false_2; [reflexivity |].
  intros Hsize. apply map_size_empty_iff in Hsize. subst data0.
  rewrite lookup_empty in E. discriminate.
Qed.

(** Every weapon profile, the bare fists included, is one die with at
    least two sides. *)
Lemma weapon_dice_valid (state : GameState.t) :
  exists die_size,
    Weapon.damage_dice (GameState.get_equipped_weapon_data state) = (1, die_size)
    /\ 2 <= die_size.
Proof.
  unfold GameState.get_equipped_weapon_data.
  destruct (WEAPONS !! GameState.equipped_weapon state) as [w|] eqn:E.
  - apply elem_of_list_to_map_2 in E.
    repeat (apply elem_of_cons in E as [E|E];
            [injection E as _ ->; eexists; split; [reflexivity | lia] |]).
    inversion E.
  - exists 2. split; [reflexivity | lia].
Qed.

Section PlayerAttackFacts.
Context {G : Type} `{RandomGen G}.
Variables (state : GameState.t) (use_sneak_attack : bool) (dice : DiceRoller G).
Variables (data0 data : dict) (enemy : Enemy.t) (ac hp : Z).

(** The attack is against a current enemy: a dictionary [from_dict]
    accepts, with a number for armor class and for hit points. *)
Hypothesis Hcurrent : GameState.current_enemy state = Some data0.
Hypothesis Hfrom : Enemy.from_dict data0 = Ok (data, enemy).
Hypothesis Hac : as_int (Enemy.ac enemy) = Some ac.
Hypothesis Hhp : as_int (Enemy.hp enemy) = Some hp.

Let weapon : Weapon.t := GameState.get_equipped_weapon_data state.
Let stat_name : string := Weapon.stat weapon.
Let num_dice : Z := fst (Weapon.damage_dice weapon).
Let die_size : Z := snd (Weapon.damage_dice weapon).
Let modifier : Z := GameState.get_modifier state stat_name.
Let raw : Z := fst (randint_draw (rng dice) 1 20).
Let g1 : G := snd (randint_draw (rng dice) 1 20).
Let total : Z := raw + modifier.
(* the state once [from_dict] has rewritten the enemy dictionary *)
Let state1 : GameState.t := GameState.set_current_enemy state (Some data).
(* whether the sneak attack bonus applies to a hit *)
Let sneak : bool :=
  use_sneak_attack
  && String.eqb (GameState.player_class state) "rogue"
  && GameState.sneak_attack_available state.

(** Runs [player_attack] up to the attack roll. *)
Ltac attack_roll :=
  unfold player_attack; rewrite Hcurrent;
  rewrite (from_dict_has_enemy state data0 _ Hcurrent Hfrom);
  rewrite Hfrom, bind_Ok; cbv beta iota zeta;
  change (GameState.get_equipped_weapon_data
            (GameState.set_current_enemy state (Some data))) with weapon;
  change (Weapon.stat weapon) with stat_name;
  change (GameState.get_modifier
            (GameState.set_current_enemy state (Some data)) stat_name)
    with modifier;
  let display := fresh "display" in
  let Hd20 := fresh "Hd20" in
  destruct (roll_d20_plain dice modifier stat_name) as [display Hd20];
  rewrite Hd20, bind_Ok; cbv beta iota zeta;
  change (randint_draw (rng dice) 1 20).1 with raw;
  change (randint_draw (rng dice) 1 20).2 with g1;
  change (raw + modifier) with total.

Lemma player_attack_critical_miss :
  raw = 1 ->
  exists roll_display,
    player_attack state use_sneak_attack dice
    = Ok (CombatResult_init false "Critical miss! Your attack goes wide." 0
            roll_display,
          state1, with_rng dice g1).
Proof.
  intros Hraw. attack_roll.
  rewrite Hraw. eexists. reflexivity.
Qed.

Lemma player_attack_miss :
  raw <> 1 -> raw <> 20 -> total < ac ->
  exists msg roll_display,
    player_attack state use_sneak_attack dice
    = Ok (CombatResult_init false msg 0 roll_display, state1, with_rng dice g1).
Proof.
  intros Hraw1 Hraw20 Hlt. attack_roll.
  rewrite (proj2 (Z.eqb_neq raw 1) Hraw1), (proj2 (Z.eqb_neq raw 20) Hraw20).
  unfold py_int_ge. rewrite Hac, bind_Ok.
  rewrite (proj2 (Z.leb_gt ac total) Hlt). cbn [orb].
  eexists _, _. reflexivity.
Qed.

(** A hit rolls the weapon dice, twice as many on a raw 20, and the sneak
    attack dice when the bonus applies, which it then uses up; the enemy
    is stored back with the damage taken off its hit points. *)
Lemma player_attack_hit :
  raw <> 1 -> raw = 20 \/ ac <= total ->
  let count := if raw =? 20 then num_dice * 2 else num_dice in
  exists dmg g3 msg display d,
    hit_damage g1 count die_size modifier sneak dmg g3
    /\ Enemy.to_dict (Enemy.set_hp enemy (PInt (hp - dmg))) = Ok d
    /\ player_attack state use_sneak_attack dice
       = Ok (CombatResult_init true msg dmg display,
             GameState.set_current_enemy
               (if sneak
                then GameState.set_sneak_attack_available state1 false
                else state1)
               (Some d),
             with_rng dice g3).
Proof.
  intros Hraw1 Hhit count. attack_roll.
  rewrite (proj2 (Z.eqb_neq raw 1) Hraw1).
  unfold py_int_ge. rewrite Hac, bind_Ok.
  assert (Hcond : (ac <=? total) || (raw =? 20) = true).
  { destruct Hhit as [-> | Hle]; [apply orb_true_r |].
    rewrite (proj2 (Z.leb_le ac total) Hle). reflexivity. }
  rewrite Hcond.
  destruct (weapon_dice_valid state) as (ds & Hdice & Hds).
  fold weapon in Hdice.
  assert (Hnum : num_dice = 1) by (unfold num_dice; rewrite Hdice; reflexivity).
  assert (Hdie : die_size = ds) by (unfold die_size; rewrite Hdice; reflexivity).
  rewrite Hdice. cbv beta iota zeta.
  change (if raw =? 20 then 1 * 2 else 1) with
    (if raw =? 20 then 1 * 2 else 1).
  assert (Hcount : count = if raw =? 20 then 1 * 2 else 1)
    by (unfold count; rewrite Hnum; reflexivity).
  rewrite <- Hcount, <- Hdie.
  destruct (roll_damage_Ok (with_rng dice g1) count die_size modifier stat_name)
    as (rolls & dmg_display & g2 & Heach & Hdamage & Hlen & _); [lia |].
  rewrite Hdamage, bind_Ok. cbv beta iota zeta.
  cbn [rng with_rng] in Heach.
  destruct (from_dict_tuples _ _ _ Hfrom) as (l1 & l2 & Hdd & Hgd).
  change (use_sneak_attack
          && String.eqb (GameState.player_class
                           (GameState.set_current_enemy state (Some data))) "rogue"
          && GameState.sneak_attack_available
               (GameState.set_current_enemy state (Some data))) with sneak.
  destruct sneak eqn:Esneak.
  - destruct (roll_Ok (with_rng (with_rng dice g1) g2) 2 6)
      as (srolls & g3 & Hseach & Hsroll & Hslen & _); [lia |].
    rewrite Hsroll, bind_Ok. cbv beta iota zeta. rewrite bind_Ok.
    cbv beta iota zeta.
    unfold py_sub_int. rewrite Hhp, bind_Ok.
    destruct (to_dict_set_hp_Ok enemy
                (PInt (hp - (Z.max 1 (sum rolls + modifier) + sum srolls)))
                l1 l2 Hdd Hgd) as [d Hd].
    rewrite Hd, bind_Ok.
    exists (Z.max 1 (sum rolls + modifier) + sum srolls), g3.
    eexists _, _, d.
    split; [exists rolls, g2, srolls; auto |].
    split; [exact Hd | reflexivity].
  - rewrite bind_Ok. cbv beta iota zeta.
    unfold py_sub_int. rewrite Hhp, bind_Ok.
    assert (Hplain : Z.max 1 (sum rolls + modifier) + sum []
                     = Z.max 1 (sum rolls + modifier))
      by (unfold sum; simpl; lia).
    destruct (to_dict_set_hp_Ok enemy
                (PInt (hp - Z.max 1 (sum rolls + modifier)))
                l1 l2 Hdd Hgd) as [d Hd].
    rewrite Hd, bind_Ok.
    exists (Z.max 1 (sum rolls + modifier)), g2.
    eexists _, _, d.
    split; [exists rolls, g2, []; auto |].
    split; [exact Hd | reflexivity].
Qed.

(** The three outcomes of an attack against a current enemy. *)
Lemma player_attack_outcome :
  exists r state' dice',
    player_attack state use_sneak_attack dice = Ok (r, state', dice')
    /\ ((raw = 1 \/ (raw <> 20 /\ total < ac))
         /\ success r = false /\ damage r = 0
         /\ state' = state1 /\ dice' = with_rng dice g1
        \/
        (raw <> 1 /\ (raw = 20 \/ ac <= total))
         /\ success r = true
         /\ hit_damage g1 (if raw =? 20 then num_dice * 2 else num_dice)
              die_size modifier sneak (damage r) (rng dice')
         /\ GameState.sneak_attack_available state'
            = (if sneak then false
               else GameState.sneak_attack_available state)).
Proof.
  destruct (Z.eq_dec raw 1) as [Hraw1 | Hraw1].
  { destruct (player_attack_critical_miss Hraw1) as [display Hrun].
    eexists _, _, _. split; [exact Hrun |]. left. auto. }
  destruct (Z.eq_dec raw 20) as [Hraw20 | Hraw20].
  { destruct (player_attack_hit Hraw1 (or_introl Hraw20))
      as (dmg & g3 & msg & display & d & Hdmg & _ & Hrun).
    eexists _, _, _. split; [exact Hrun |]. right.
    split; [auto |]. split; [reflexivity |]. split; [exact Hdmg |].
    destruct sneak; reflexivity. }
  destruct (Z.lt_ge_cases total ac) as [Hlt | Hge].
  - destruct (player_attack_miss Hraw1 Hraw20 Hlt) as (msg & display & Hrun).
    eexists _, _, _. split; [exact Hrun |]. left. auto.
  - destruct (player_attack_hit Hraw1 (or_intror Hge))
      as (dmg & g3 & msg & display & d & Hdmg & _ & Hrun).
    eexists _, _, _. split; [exact Hrun |]. right.
    split; [auto |]. split; [reflexivity |]. split; [exact Hdmg |].
    destruct sneak; reflexivity.
Qed.

(** ** C3 *)

(** C3: an attack against a current enemy returns (it does not raise).
    On a raw 1 it misses, whatever the total.  On a raw 20 it hits,
    whatever the armor class, and rolls twice the weapon's dice.  On any
    other raw value it hits exactly when [total >= ac], and then rolls the
    weapon's dice once. *)
Theorem player_attack_hit_rule :
  exists r state' dice',
    player_attack state use_sneak_attack dice = Ok (r, state', dice')
    /\ (raw = 1 -> success r = false)
    /\ (raw = 20 ->
        success r = true
        /\ hit_damage g1 (num_dice * 2) die_size modifier sneak
             (damage r) (rng dice'))
    /\ (raw <> 1 -> raw <> 20 ->
        (success r = true <-> ac <= total)
        /\ (success r = true ->
            hit_damage g1 num_dice die_size modifier sneak
              (damage r) (rng dice'))).
Proof.
  destruct player_attack_outcome as (r & state' & dice' & Hrun & Hcase).
  exists r, state', dice'. split; [exact Hrun |].
  destruct Hcase as [(Hraw & Hs & _) | ((Hraw1 & Hraw) & Hs & Hdmg & _)].
  - split; [auto |]. split; [intros ->; lia |].
    intros Hraw1 Hraw20. rewrite Hs.
    split; [split; [discriminate | lia] | discriminate].
  - split; [intros ->; lia |]. split.
    + intros Hraw20. rewrite Hraw20 in Hdmg. auto.
    + intros _ Hraw20.
      rewrite (proj2 (Z.eqb_neq raw 20) Hraw20) in Hdmg.
      split; [split; [lia | auto] | auto].
Qed.

(** ** C10 *)

(** C10: the attack returns.  When the die shows 1, or shows less than 20
    with a total below the armor class, it misses: no damage is dealt and
    [sneak_attack_available] is what it was, also when the sneak attack
    was requested.  Otherwise it hits: the damage is the weapon roll, with
    twice the dice on a raw 20 and the stat modifier added once, plus,
    exactly when the sneak attack is requested by a rogue who has it
    available, one roll of two six-sided dice, the same two on a raw 20;
    [sneak_attack_available] is then false, and is otherwise what it
    was. *)
Theorem player_attack_sneak_bonus :
  exists r state' dice',
    player_attack state use_sneak_attack dice = Ok (r, state', dice')
    /\ (raw = 1 \/ (raw <> 20 /\ total < ac) ->
        success r = false
        /\ damage r = 0
        /\ GameState.sneak_attack_available state'
           = GameState.sneak_attack_available state)
    /\ (raw <> 1 /\ (raw = 20 \/ ac <= total) ->
        success r = true
        /\ hit_damage g1 (if raw =? 20 then num_dice * 2 else num_dice)
             die_size modifier sneak (damage r) (rng dice')
        /\ GameState.sneak_attack_available state'
           = (if sneak then false else GameState.sneak_attack_available state)).
Proof.
  destruct player_attack_outcome as (r & state' & dice' & Hrun & Hcase).
  exists r, state', dice'. split; [exact Hrun |].
  destruct Hcase as [(Hcond & Hs & Hd & -> & _) | (Hcond & Hs & Hdmg & Hflag)].
  - split; [intros _; auto |]. intros Hhit. exfalso. lia.
  - split; [intros Hmiss; exfalso; lia |]. intros _. auto.
Qed.

End PlayerAttackFacts.

Lemma player_attack_hit_rule_witness :
  let state := sample_rogue 3 7 1 true (Some (goblin_entry 13)) in
  let dice := DiceRoller_init (G := Z) (Some 7) in
  let raw := fst (randint_draw (rng dice) 1 20) in
  let g1 := snd (randint_draw (rng dice) 1 20) in
  (GameState.current_enemy state = Some (goblin_entry 13)
   /\ Enemy.from_dict (goblin_entry 13) = Ok (goblin_current 13, goblin 13)
   /\ as_int (Enemy.ac (goblin 13)) = Some 13
   /\ as_int (Enemy.hp (goblin 13)) = Some 7)
  /\ exists r state' dice',
       player_attack state true dice = Ok (r, state', dice')
       /\ (raw = 1 -> success r = false)
       /\ (raw = 20 ->
           success r = true
           /\ hit_damage g1 (1 * 2) 4 3 true (damage r) (rng dice'))
       /\ (raw <> 1 -> raw <> 20 ->
           (success r = true <-> 13 <= raw + 3)
           /\ (success r = true ->
               hit_damage g1 1 4 3 true (damage r) (rng dice'))).
Proof.
  intros state dice raw g1.
  split; [repeat split; vm_compute; reflexivity |].
  apply (player_attack_hit_rule state true dice
           (goblin_entry 13) (goblin_current 13) (goblin 13) 13 7);
    vm_compute; reflexivity.
Defined.

Lemma player_attack_sneak_bonus_witness :
  let state := sample_rogue 3 7 1 true (Some (goblin_entry 13)) in
  let dice := DiceRoller_init (G := Z) (Some 7) in
  let raw := fst (randint_draw (rng dice) 1 20) in
  let g1 := snd (randint_draw (rng dice) 1 20) in
  (GameState.current_enemy state = Some (goblin_entry 13)
   /\ Enemy.from_dict (goblin_entry 13) = Ok (goblin_current 13, goblin 13)
   /\ as_int (Enemy.ac (goblin 13)) = Some 13
   /\ as_int (Enemy.hp (goblin 13)) = Some 7)
  /\ exists r state' dice',
       player_attack state true dice = Ok (r, state', dice')
       /\ (raw = 1 \/ (raw <> 20 /\ raw + 3 < 13) ->
           success r = false
           /\ damage r = 0
           /\ GameState.sneak_attack_available state' = true)
       /\ (raw <> 1 /\ (raw = 20 \/ 13 <= raw + 3) ->
           success r = true
           /\ hit_damage g1 (if raw =? 20 then 1 * 2 else 1) 4 3 true
                (damage r) (rng dice')
           /\ GameState.sneak_attack_available state' = false).
Proof.
  intros state dice raw g1.
  split; [repeat split; vm_compute; reflexivity |].
  apply (player_attack_sneak_bonus state true dice
           (goblin_entry 13) (goblin_current 13) (goblin 13) 13 7);
    vm_compute; reflexivity.
Defined.

(** The cases the specification names, run with the sample generator:
    seed 14 draws a raw 20 and seed 11 a raw 1. *)
Example critical_hit_against_ac_20 :
  match player_attack (G := Z) (sample_rogue (-5) 7 1 true (Some (goblin_entry 20)))
          true (DiceRoller_init (Some 14)) with
  | Ok (r, state', _) =>
      Some (success r, message r, damage r, roll_display r, critical r,
            GameState.sneak_attack_available state')
  | Raise _ => None
  end
  = Some (true, "Hit! CRITICAL HIT!", 10,
          "[Attack] d20: 20  DEX(-5) = 15 vs AC 20" +:+ newline
            +:+ "[Damage] 2d4: (1+2)  DEX(-5) = -2 + Sneak(9)",
          false, false).
Proof. vm_compute. reflexivity. Qed.

Example critical_miss_against_ac_8 :
  match player_attack (G := Z) (sample_rogue 10 7 1 true (Some (goblin_entry 8)))
          true (DiceRoller_init (Some 11)) with
  | Ok (r, state', _) =>
      Some (success r, message r, damage r, roll_display r,
            GameState.sneak_attack_available state')
  | Raise _ => None
  end
  = Some (false, "Critical miss! Your attack goes wide.", 0,
          "d20: 1 + DEX(10) = 11", true).
Proof. vm_compute. reflexivity. Qed.

(** ** Save and load (C2) *)

Section PersistenceFacts.
Context {G : Type} `{RandomGen G}.

(** A roller built with a seed other than 0 reports it, and leaves the
    module-level generator alone. *)
Lemma get_seed_nonzero (s : Z) (pyrandom : G) :
  s <> 0 -> get_seed (DiceRoller_init (Some s)) pyrandom = (s, pyrandom).
Proof.
  intros Hs. unfold get_seed. cbn [seed DiceRoller_init].
  rewrite (proj2 (Z.eqb_neq s 0) Hs). reflexivity.
Qed.

(** Rolling does not change what the roller reports. *)
Lemma get_seed_with_rng (dice : DiceRoller G) (g pyrandom : G) :
  get_seed (with_rng dice g) pyrandom = get_seed dice pyrandom.
Proof. reflexivity. Qed.

(** The roller the module starts with has no seed: what is saved is a
    number drawn for the occasion. *)
Lemma get_seed_unseeded (pyrandom : G) :
  get_seed (DiceRoller_init None) pyrandom = randint_draw pyrandom 0 999999.
Proof. reflexivity. Qed.

(** With a seed other than 0, [save_game] stores that seed, and
    [load_game] of the file returns the state saved and installs a roller
    freshly built from the seed. *)
Lemma save_then_load (state : GameState.t) (filename now : string)
    (w : World G) (s : Z) :
  seed (dice w) = Some s -> s <> 0 ->
  exists msg1 msg2 w1 w2,
    save_game state filename now w = (true, msg1, w1)
    /\ SaveData.rng_seed <$> files w1 !! save_path filename = Some (Some s)
    /\ load_game filename w1 = (Some (json_state state), msg2, w2)
    /\ dice w2 = DiceRoller_init (Some s)
    /\ rng (dice w2) = Random (Some s).
Proof.
  intros Hseed Hs. unfold save_game, get_seed. rewrite Hseed.
  rewrite (proj2 (Z.eqb_neq s 0) Hs).
  eexists _, _, _, _. split; [reflexivity |].
  cbn [files]. rewrite lookup_insert_eq. split; [reflexivity |].
  unfold load_game. cbn [files]. rewrite lookup_insert_eq.
  cbn [SaveData.version SaveData.rng_seed SaveData.game_state].
  split; [reflexivity |]. split; reflexivity.
Qed.

End PersistenceFacts.

(** ** C2 *)

(** C2, at the seed 0: whatever the generator, a roller built with seed 0
    does not report 0 but a number drawn from the module-level generator
    of [random]; 0 is false in [self.seed if self.seed else ...], as
    [None] is.  With the sample generator in state 1 the number is
    527590, and that is the seed [save_game] stores and [load_game]
    installs. *)
Theorem get_seed_of_seed_zero :
  (forall (G : Type) (RG : RandomGen G) (pyrandom : G),
     get_seed (DiceRoller_init (Some 0)) pyrandom
     = randint_draw pyrandom 0 999999)
  /\ fst (get_seed (G := Z) (DiceRoller_init (Some 0)) 1) = 527590
  /\ (let w := mkWorld (DiceRoller_init (G := Z) (Some 0)) 1 ∅ in
      let w1 := snd (save_game (sample_rogue 3 7 1 true None) "save.json" "" w) in
      SaveData.rng_seed <$> files w1 !! save_path "save.json"
      = Some (Some 527590)
      /\ seed (dice (snd (load_game "save.json" w1))) = Some 527590).
Proof.
  split; [reflexivity |]. split; vm_compute; auto.
Qed.

(** * Further properties of the engine *)

#[local] Open Scope list_scope.

(** ** Player state *)

Lemma String_eqb_false (a b : string) : a <> b -> String.eqb a b = false.
Proof. intros Hne. apply String.eqb_neq. exact Hne. Qed.

(** The table gives an armor bonus to the three armors and to nothing
    else. *)
Lemma armor_step_armor_of (a : Z) (item : string) :
  0 <= a -> GameState.armor_step a item = Z.max a (armor_of item).
Proof.
  intros Ha. unfold GameState.armor_step, armor_of.
  destruct (String.eqb item "Chain Mail") eqn:E1;
    [apply String.eqb_eq in E1; subst item; reflexivity |].
  destruct (String.eqb item "Leather Armor") eqn:E2;
    [apply String.eqb_eq in E2; subst item; reflexivity |].
  destruct (String.eqb item "Robes") eqn:E3;
    [apply String.eqb_eq in E3; subst item; reflexivity |].
  apply String.eqb_neq in E1, E2, E3.
  destruct (ITEMS !! item) as [data|] eqn:E; [| lia].
  apply elem_of_list_to_map_2 in E.
  repeat (apply elem_of_cons in E as [E|E];
          [injection E as -> ->; try congruence; cbn; lia |]).
  inversion E.
Qed.

Lemma foldl_armor_step (l : list string) (a : Z) :
  0 <= a ->
  foldl GameState.armor_step a l = Z.max a (foldr (fun i b => Z.max (armor_of i) b) 0 l).
Proof.
  revert a. induction l as [|item l IH]; intros a Ha; cbn [foldl foldr].
  - lia.
  - rewrite armor_step_armor_of by exact Ha.
    rewrite IH by lia. lia.
Qed.

Lemma armor_of_cases (item : string) :
  (item = "Chain Mail" /\ armor_of item = 3)
  \/ (item = "Leather Armor" /\ armor_of item = 2)
  \/ (item = "Robes" /\ armor_of item = 1)
  \/ (item <> "Chain Mail" /\ item <> "Leather Armor" /\ item <> "Robes"
      /\ armor_of item = 0).
Proof.
  unfold armor_of.
  destruct (String.eqb item "Chain Mail") eqn:E1;
    [apply String.eqb_eq in E1; auto |].
  destruct (String.eqb item "Leather Armor") eqn:E2;
    [apply String.eqb_eq in E2; auto |].
  destruct (String.eqb item "Robes") eqn:E3;
    [apply String.eqb_eq in E3; auto 6 |].
  apply String.eqb_neq in E1, E2, E3. auto 10.
Qed.

Lemma best_armor_membership (l : list string) :
  foldr (fun i b => Z.max (armor_of i) b) 0 l
  = if existsb (String.eqb "Chain Mail") l then 3
    else if existsb (String.eqb "Leather Armor") l then 2
    else if existsb (String.eqb "Robes") l then 1
    else 0.
Proof.
  induction l as [|item l IH]; [reflexivity |].
  cbn [foldr existsb]. rewrite IH. clear IH.
  destruct (armor_of_cases item)
    as [[-> ->] | [[-> ->] | [[-> ->] | (H1 & H2 & H3 & ->)]]].
  - cbn. repeat destruct (existsb _ l); lia.
  - cbn. repeat destruct (existsb _ l); lia.
  - cbn. repeat destruct (existsb _ l); lia.
  - rewrite !String_eqb_false by congruence. cbn [orb].
    repeat destruct (existsb _ l); lia.
Qed.

(** X1: the armor class is 10 plus the DEX modifier plus the bonus of the
    best armor carried: 3 with a Chain Mail, else 2 with a Leather Armor,
    else 1 with Robes, else 0.  Bonuses do not add up, and neither the
    order of the inventory nor copies of an armor matter. *)
Theorem get_ac_best_armor (state : GameState.t) :
  GameState.get_ac state
  = 10 + GameState.get_modifier state "DEX"
    + (if GameState.has_item state "Chain Mail" then 3
       else if GameState.has_item state "Leather Armor" then 2
       else if GameState.has_item state "Robes" then 1
       else 0).
Proof.
  unfold GameState.get_ac, GameState.has_item.
  rewrite foldl_armor_step by lia.
  rewrite best_armor_membership.
  repeat destruct (existsb _ _); lia.
Qed.

Lemma has_item_elem_of (state : GameState.t) (item : string) :
  GameState.has_item state item = true <-> item ∈ GameState.inventory state.
Proof.
  unfold GameState.has_item. rewrite existsb_exists. split.
  - intros (x & Hin & Heq). apply String.eqb_eq in Heq. subst x.
    apply list_elem_of_In. exact Hin.
  - intros Hin. exists item. split;
      [apply list_elem_of_In; exact Hin | apply String.eqb_refl].
Qed.

Lemma list_remove_first (item : string) (before after : list string) :
  item ∉ before ->
  GameState.list_remove item (before ++ item :: after) = before ++ after.
Proof.
  induction before as [|y before IH]; intros Hnotin; cbn.
  - rewrite String.eqb_refl. reflexivity.
  - apply not_elem_of_cons in Hnotin as [Hne Hnotin].
    rewrite String_eqb_false by congruence.
    rewrite IH by exact Hnotin. reflexivity.
Qed.

(** X2: [remove_from_inventory] takes out the first copy of the item and
    only that: what comes before it and after it stays, in order; it
    reports success. *)
Theorem remove_from_inventory_first (state : GameState.t) (item : string)
    (before after : list string) :
  GameState.inventory state = before ++ item :: after ->
  item ∉ before ->
  GameState.remove_from_inventory state item
  = (true, GameState.set_inventory state (before ++ after)).
Proof.
  intros Hinv Hnotin. unfold GameState.remove_from_inventory.
  assert (Hhas : GameState.has_item state item = true).
  { apply has_item_elem_of. rewrite Hinv. set_solver. }
  rewrite Hhas, Hinv, list_remove_first by exact Hnotin. reflexivity.
Qed.

Lemma remove_from_inventory_first_witness :
  (GameState.inventory (sample_rogue 3 7 1 true None)
   = ["Dagger"; "Leather Armor"] ++ "Lockpicks" :: ["Health Potion"]
   /\ "Lockpicks" ∉ ["Dagger"; "Leather Armor"])
  /\ GameState.remove_from_inventory (sample_rogue 3 7 1 true None) "Lockpicks"
     = (true,
        GameState.set_inventory (sample_rogue 3 7 1 true None)
          (["Dagger"; "Leather Armor"] ++ ["Health Potion"])).
Proof.
  assert (Hnotin : "Lockpicks" ∉ ["Dagger"; "Leather Armor"]).
  { intros Hin. apply elem_of_cons in Hin as [Hin | Hin]; [discriminate |].
    apply elem_of_cons in Hin as [Hin | Hin]; [discriminate | inversion Hin]. }
  split; [split; [reflexivity | exact Hnotin] |].
  apply (remove_from_inventory_first (sample_rogue 3 7 1 true None) "Lockpicks"
           ["Dagger"; "Leather Armor"] ["Health Potion"]);
    [reflexivity | exact Hnotin].
Defined.

(** X3: removing an item that is not in the inventory reports failure and
    changes nothing, and adding such an item and removing it again gives
    back the state as it was.  When the item is carried already, adding
    another and removing one takes out the first copy and leaves the new
    one at the end of the inventory. *)
Theorem remove_from_inventory_absent (state : GameState.t) (item : string) :
  (GameState.has_item state item = false ->
   GameState.remove_from_inventory state item = (false, state)
   /\ GameState.remove_from_inventory (GameState.add_to_inventory state item)
        item
      = (true, state))
  /\ (forall before after : list string,
        GameState.inventory state = before ++ item :: after ->
        item ∉ before ->
        GameState.remove_from_inventory (GameState.add_to_inventory state item)
          item
        = (true, GameState.set_inventory state (before ++ after ++ [item]))).
Proof.
  assert (Hadded : GameState.has_item (GameState.add_to_inventory state item)
                     item = true).
  { apply has_item_elem_of. cbn. set_solver. }
  split.
  - intros Hhas. split.
    + unfold GameState.remove_from_inventory. rewrite Hhas. reflexivity.
    + assert (Hnotin : item ∉ GameState.inventory state).
      { intros Hin. apply has_item_elem_of in Hin. congruence. }
      unfold GameState.remove_from_inventory. rewrite Hadded.
      change (GameState.inventory (GameState.add_to_inventory state item))
        with (GameState.inventory state ++ [item]).
      rewrite (list_remove_first item (GameState.inventory state) [] Hnotin).
      rewrite app_nil_r. destruct state. reflexivity.
  - intros before after Hinv Hnotin.
    unfold GameState.remove_from_inventory. rewrite Hadded.
    change (GameState.inventory (GameState.add_to_inventory state item))
      with (GameState.inventory state ++ [item]).
    rewrite Hinv, <- app_assoc. cbn [app].
    rewrite (list_remove_first item before (after ++ [item]) Hnotin).
    destruct state. reflexivity.
Qed.

Lemma remove_from_inventory_absent_witness :
  let absent := sample_rogue 3 7 1 true None in
  let carried := with_items ["Torch"; "Dagger"] in
  (GameState.has_item absent "Torch" = false
   /\ GameState.inventory carried = [] ++ "Torch" :: ["Dagger"]
   /\ "Torch" ∉ @nil string)
  /\ GameState.remove_from_inventory absent "Torch" = (false, absent)
  /\ GameState.remove_from_inventory
       (GameState.add_to_inventory absent "Torch") "Torch"
     = (true, absent)
  /\ GameState.remove_from_inventory
       (GameState.add_to_inventory carried "Torch") "Torch"
     = (true, with_items ["Dagger"; "Torch"]).
Proof.
  intros absent carried.
  assert (Hnotin : "Torch" ∉ @nil string) by (intros Hin; inversion Hin).
  split; [split; [reflexivity | split; [reflexivity | exact Hnotin]] |].
  destruct (proj1 (remove_from_inventory_absent absent "Torch") eq_refl)
    as [Hfail Hback].
  split; [exact Hfail |]. split; [exact Hback |].
  exact (proj2 (remove_from_inventory_absent carried "Torch")
           [] ["Dagger"] eq_refl Hnotin).
Defined.

(** X4: after [log_event] the log ends with the event, holds the last
    entries of the old log before it, and has one entry more than before
    but never more than ten. *)
Theorem log_event_last_ten (state : GameState.t) (event : string) :
  let log := GameState.story_log (GameState.log_event state event) in
  length log = Nat.min (length (GameState.story_log state) + 1) 10
  /\ log `suffix_of` (GameState.story_log state ++ [event])
  /\ last log = Some event.
Proof.
  unfold GameState.log_event. cbv zeta.
  set (old := GameState.story_log state).
  destruct (10 <? length (old ++ [event]))%nat eqn:E;
    cbn [GameState.story_log GameState.set_story_log].
  - apply Nat.ltb_lt in E. rewrite length_app in *. cbn [length] in *.
    split; [rewrite length_drop, length_app; cbn [length]; lia |].
    split; [apply suffix_drop |].
    rewrite drop_app_le by lia. apply last_snoc.
  - apply Nat.ltb_ge in E. rewrite length_app in *. cbn [length] in *.
    split; [lia |]. split; [reflexivity | apply last_snoc].
Qed.

(** X5: a quest added when no quest is active becomes the active one, and
    completing it stores it with the status [complete], clears the
    active quest and leaves every other quest as it was. *)
Theorem add_then_complete_quest (state : GameState.t) (quest_id : string)
    (quest_data : dict) :
  GameState.active_quest state = None ->
  let added := GameState.add_quest state quest_id quest_data in
  let done := GameState.complete_quest added quest_id in
  GameState.active_quest added = Some quest_id
  /\ GameState.active_quest done = None
  /\ GameState.quests done !! quest_id
     = Some (<["status" := PStr "complete"]> quest_data)
  /\ (forall other, other <> quest_id ->
        GameState.quests done !! other = GameState.quests state !! other).
Proof.
  intros Hnone added done.
  unfold done, added, GameState.complete_quest, GameState.add_quest.
  cbn [GameState.active_quest GameState.set_quests]. rewrite Hnone.
  cbn [GameState.quests GameState.set_quests GameState.set_active_quest
       GameState.active_quest].
  rewrite lookup_insert_eq.
  cbn [GameState.quests GameState.set_quests GameState.set_active_quest
       GameState.active_quest option_eqb].
  rewrite String.eqb_refl.
  cbn [GameState.quests GameState.set_quests GameState.set_active_quest
       GameState.active_quest].
  split; [reflexivity |]. split; [reflexivity |].
  split; [apply lookup_insert_eq |].
  intros other Hne. rewrite !lookup_insert_ne by congruence. reflexivity.
Qed.

Lemma add_then_complete_quest_witness :
  let state := sample_rogue 3 7 1 true None in
  let quest := {[ "name" := PStr "The Dragon's Shadow" ]} : dict in
  let added := GameState.add_quest state "main" quest in
  let done := GameState.complete_quest added "main" in
  GameState.active_quest state = None
  /\ GameState.active_quest added = Some "main"
  /\ GameState.active_quest done = None
  /\ GameState.quests done !! "main"
     = Some (<["status" := PStr "complete"]> quest)
  /\ (forall other, other <> "main" ->
        GameState.quests done !! other = GameState.quests state !! other).
Proof.
  intros state quest added done. split; [reflexivity |].
  apply (add_then_complete_quest state "main" quest). reflexivity.
Defined.



(** The cooldown of the class ability is [rest] for every class but the
    rogue and the mage: a class name that is not in the table gets the
    fighter's entry. *)
Lemma cooldown_rest_classes (state : GameState.t) :
  String.eqb (Ability.cooldown_type (GameState.get_ability_info state)) "rest"
  = negb (String.eqb (GameState.player_class state) "rogue"
          || String.eqb (GameState.player_class state) "mage").
Proof.
  unfold GameState.get_ability_info, GameState.get_class_data.
  destruct (String.eqb (GameState.player_class state) "rogue") eqn:E1;
    [apply String.eqb_eq in E1; rewrite E1; reflexivity |].
  destruct (String.eqb (GameState.player_class state) "mage") eqn:E2;
    [apply String.eqb_eq in E2; rewrite E2; reflexivity |].
  apply String.eqb_neq in E1, E2.
  destruct (CLASSES !! GameState.player_class state) as [c|] eqn:E;
    [| reflexivity].
  apply elem_of_list_to_map_2 in E.
  repeat (apply elem_of_cons in E as [E|E];
          [injection E as Hk ->; try congruence; reflexivity |]).
  inversion E.
Qed.

(** X7: [rest] brings the hit points to the maximum; it brings the
    ability uses to the maximum for every class but the rogue and the
    mage, whose uses it leaves as they are; nothing else changes. *)
Theorem rest_effect (state : GameState.t) :
  let restored :=
    if String.eqb (GameState.player_class state) "rogue"
       || String.eqb (GameState.player_class state) "mage"
    then GameState.ability_uses state
    else GameState.ability_max_uses state in
  GameState.rest state
  = GameState.set_ability_uses
      (GameState.set_hp state (GameState.max_hp state)) restored.
Proof.
  unfold GameState.rest. cbv zeta.
  change (GameState.get_ability_info
            (GameState.set_hp state (GameState.max_hp state)))
    with (GameState.get_ability_info state).
  rewrite cooldown_rest_classes.
  destruct (String.eqb (GameState.player_class state) "rogue"
            || String.eqb (GameState.player_class state) "mage");
    cbn [negb]; destruct state; reflexivity.
Qed.

(** X8: [add_gold] (whatever the amount, a debt included), [use_ability]
    and [rest] keep the player invariant.  [restore_ability_use] keeps it
    exactly when the amount does not take the ability uses below zero: for
    every amount that is not negative, and not for a negative amount
    larger than the uses left. *)
Theorem state_methods_keep_invariant (state : GameState.t) (delta amount : Z) :
  player_invariant state ->
  player_invariant (GameState.add_gold state delta)
  /\ player_invariant (snd (GameState.use_ability state))
  /\ player_invariant (GameState.rest state)
  /\ (player_invariant (GameState.restore_ability_use state amount)
      <-> 0 <= GameState.ability_uses state + amount).
Proof.
  intros (Hhp & Hgold & Huses). unfold player_invariant.
  split; [| split; [| split]].
  - unfold GameState.add_gold.
    cbn [GameState.set_gold GameState.hp GameState.max_hp GameState.gold
         GameState.ability_uses GameState.ability_max_uses]. lia.
  - unfold GameState.use_ability.
    destruct (0 <? GameState.ability_uses state) eqn:E; cbn [snd];
      [apply Z.ltb_lt in E | lia].
    cbn [GameState.set_ability_uses GameState.hp GameState.max_hp
         GameState.gold GameState.ability_uses GameState.ability_max_uses].
    lia.
  - unfold GameState.rest. cbv zeta.
    destruct (String.eqb _ "rest");
      cbn [GameState.set_ability_uses GameState.set_hp GameState.hp
           GameState.max_hp GameState.gold GameState.ability_uses
           GameState.ability_max_uses];
      lia.
  - unfold GameState.restore_ability_use.
    cbn [GameState.set_ability_uses GameState.hp GameState.max_hp
         GameState.gold GameState.ability_uses GameState.ability_max_uses].
    lia.
Qed.

Lemma state_methods_keep_invariant_witness :
  let state := sample_rogue 3 7 0 true None in
  player_invariant state
  /\ player_invariant (GameState.add_gold state (-40))
  /\ player_invariant (snd (GameState.use_ability state))
  /\ player_invariant (GameState.rest state)
  /\ (player_invariant (GameState.restore_ability_use state (-1))
      <-> 0 <= GameState.ability_uses state + -1).
Proof.
  intros state.
  assert (Hinv : player_invariant state)
    by (unfold player_invariant; simpl; lia).
  split; [exact Hinv |].
  apply (state_methods_keep_invariant state (-40) (-1)). exact Hinv.
Defined.

(** ** Dice *)

Section MoreDiceFacts.
Context {G : Type} `{RandomGen G}.

Lemma sum_bounds (lo hi : Z) (l : list Z) :
  Forall (fun r => lo <= r <= hi) l ->
  lo * Z.of_nat (length l) <= sum l <= hi * Z.of_nat (length l).
Proof.
  induction 1 as [|r l Hr _ IH]; unfold sum in *; cbn [foldr length]; lia.
Qed.

Lemma with_rng_same (dice : DiceRoller G) : with_rng dice (rng dice) = dice.
Proof. destruct dice. reflexivity. Qed.

(** X9: with a die of at least one side [roll] returns as many rolls as
    asked (none for a count of zero or less), each between 1 and the die
    size, and their sum, which lies between the count and the count times
    the die size; the seed of the roller stays. *)
Theorem roll_bounds (dice : DiceRoller G) (num_dice die_size : Z) :
  1 <= die_size ->
  exists rolls dice',
    roll dice num_dice die_size = Ok (rolls, sum rolls, dice')
    /\ length rolls = Z.to_nat num_dice
    /\ Forall (fun r => 1 <= r <= die_size) rolls
    /\ Z.max 0 num_dice <= sum rolls <= Z.max 0 num_dice * die_size
    /\ seed dice' = seed dice.
Proof.
  intros Hd.
  destruct (roll_Ok dice num_dice die_size Hd)
    as (rolls & g' & _ & Hroll & Hlen & Hall).
  exists rolls, (with_rng dice g'). split; [exact Hroll |].
  split; [exact Hlen |]. split; [exact Hall |].
  split; [| reflexivity].
  pose proof (sum_bounds 1 die_size rolls Hall) as Hsum.
  rewrite Hlen in Hsum. nia.
Qed.

(** X10: with a die size below 1, [roll] raises [ValueError] as soon as
    one die is to be thrown, and returns no rolls, the sum 0 and the
    roller untouched when the count is zero or less. *)
Theorem roll_empty_die (dice : DiceRoller G) (num_dice die_size : Z) :
  die_size < 1 ->
  roll dice num_dice die_size
  = if 1 <=? num_dice then Raise ValueError else Ok ([], 0, dice).
Proof.
  intros Hd. unfold roll.
  destruct (1 <=? num_dice) eqn:E.
  - apply Z.leb_le in E.
    destruct (Z.to_nat num_dice) as [|n] eqn:En; [lia |].
    cbn [roll_each]. unfold randint.
    rewrite (proj2 (Z.ltb_lt die_size 1) Hd). reflexivity.
  - apply Z.leb_gt in E.
    replace (Z.to_nat num_dice) with 0%nat by lia.
    cbn [roll_each]. rewrite bind_Ok. cbv beta iota zeta.
    rewrite with_rng_same. reflexivity.
Qed.

(** X11: [roll_d20] returns in every mode.  With advantage alone the raw
    value is the larger of two successive draws of [[1, 20]], with
    disadvantage alone the smaller, and otherwise (neither, or both at
    once) the first draw, the only one made.  The raw value is in
    [[1, 20]] and the total is the raw value plus the modifier. *)
Theorem roll_d20_modes (dice : DiceRoller G) (modifier : Z) (stat_name : string)
    (advantage disadvantage : bool) :
  let first := randint_draw (rng dice) 1 20 in
  let second := randint_draw (snd first) 1 20 in
  let raw :=
    if advantage && negb disadvantage then Z.max (fst first) (fst second)
    else if disadvantage && negb advantage then Z.min (fst first) (fst second)
    else fst first in
  let g :=
    if xorb advantage disadvantage then snd second else snd first in
  1 <= raw <= 20
  /\ exists display,
       roll_d20 dice modifier stat_name advantage disadvantage
       = Ok (raw, raw + modifier, display, with_rng dice g).
Proof.
  intros first second raw g.
  pose proof (randint_draw_range (rng dice) 1 20 ltac:(lia)) as H1.
  pose proof (randint_draw_range (snd first) 1 20 ltac:(lia)) as H2.
  fold first in H1. fold second in H2.
  split; [unfold raw; destruct advantage, disadvantage; cbn [andb negb]; lia |].
  unfold roll_d20.
  rewrite !(randint_Ok (rng dice) 1 20) by lia. fold first.
  destruct first as [r1 g1] eqn:E1. cbn [fst snd] in *.
  unfold raw, g.
  destruct advantage, disadvantage; cbn [andb negb xorb];
    rewrite ?bind_Ok; cbv beta iota;
    rewrite ?(randint_Ok g1 1 20) by lia; rewrite ?bind_Ok;
    fold second; destruct second as [r2 g2]; cbv beta iota;
    rewrite ?bind_Ok; cbv beta iota zeta; cbn [fst snd];
    eexists; reflexivity.
Qed.

(** X12: for a die of at least one side, the total of [roll_damage] lies
    between [max(1, n + modifier)] and [max(1, n * die_size + modifier)],
    where [n] is the number of dice thrown. *)
Theorem roll_damage_bounds (dice : DiceRoller G)
    (num_dice die_size modifier : Z) (stat_name : string) :
  1 <= die_size ->
  exists total display dice',
    roll_damage dice num_dice die_size modifier stat_name
    = Ok (total, display, dice')
    /\ Z.max 1 (Z.max 0 num_dice + modifier) <= total
    /\ total <= Z.max 1 (Z.max 0 num_dice * die_size + modifier).
Proof.
  intros Hd.
  destruct (roll_damage_Ok dice num_dice die_size modifier stat_name Hd)
    as (rolls & display & g' & _ & Hrun & Hlen & Hall).
  eexists _, _, _. split; [exact Hrun |].
  pose proof (sum_bounds 1 die_size rolls Hall) as Hsum.
  rewrite Hlen in Hsum. nia.
Qed.

End MoreDiceFacts.

Lemma roll_bounds_witness :
  1 <= 6
  /\ exists rolls dice',
       roll (DiceRoller_init (G := Z) (Some 7)) 3 6 = Ok (rolls, sum rolls, dice')
       /\ length rolls = Z.to_nat 3
       /\ Forall (fun r => 1 <= r <= 6) rolls
       /\ Z.max 0 3 <= sum rolls <= Z.max 0 3 * 6
       /\ seed dice' = seed (DiceRoller_init (G := Z) (Some 7)).
Proof.
  split; [lia |].
  apply (roll_bounds (G := Z) (DiceRoller_init (Some 7)) 3 6). lia.
Defined.

Lemma roll_empty_die_witness :
  0 < 1
  /\ roll (DiceRoller_init (G := Z) (Some 7)) 2 0
     = (if 1 <=? 2 then Raise ValueError
        else Ok ([], 0, DiceRoller_init (G := Z) (Some 7))).
Proof.
  split; [lia |].
  apply (roll_empty_die (G := Z) (DiceRoller_init (Some 7)) 2 0). lia.
Defined.

Lemma roll_damage_bounds_witness :
  1 <= 6
  /\ exists total display dice',
       roll_damage (DiceRoller_init (G := Z) (Some 7)) 2 6 3 "STR"
       = Ok (total, display, dice')
       /\ Z.max 1 (Z.max 0 2 + 3) <= total
       /\ total <= Z.max 1 (Z.max 0 2 * 6 + 3).
Proof.
  split; [lia |].
  apply (roll_damage_bounds (G := Z) (DiceRoller_init (Some 7)) 2 6 3 "STR").
  lia.
Defined.

(** ** Character creation *)

Lemma sum_Permutation (l1 l2 : list Z) : l1 ≡ₚ l2 -> sum l1 = sum l2.
Proof.
  induction 1 as [| x l1 l2 _ IH | x y l | l1 l2 l3 _ IH1 _ IH2];
    unfold sum in *; cbn [foldr]; lia.
Qed.

Lemma calculate_modifier_floor (score : Z) :
  2 * calculate_modifier score <= score - 10 < 2 * calculate_modifier score + 2.
Proof. unfold calculate_modifier. Z.div_mod_to_equations. lia. Qed.

Section CharacterFacts.
Context {G : Type} `{RandomGen G}.

(** One stat: the four rolls, the lowest of them left out of the sum. *)
Lemma generate_stat_Ok (primary stat : string) (g : G) :
  exists rolls g' lowest base,
    roll_each 4 6 g = Ok (rolls, g')
    /\ lowest ∈ rolls
    /\ Forall (fun r => lowest <= r) rolls
    /\ base = sum rolls - lowest
    /\ 3 <= base <= 18
    /\ generate_stat primary stat g
       = Ok (let score :=
               if String.eqb stat primary then Z.min 18 (base + 2) else base in
             list_to_map
               [("score", score); ("modifier", calculate_modifier score)],
             g').
Proof.
  destruct (roll_each_Ok 4 6 g ltac:(lia)) as (rolls & g' & Hrun & Hlen & Hall).
  unfold generate_stat. rewrite Hrun, bind_Ok. cbv beta iota zeta.
  pose proof (merge_sort_Permutation Z.le rolls) as Hperm.
  pose proof (StronglySorted_merge_sort Z.le rolls) as Hsorted.
  assert (Hlen' : length (merge_sort Z.le rolls) = 4%nat)
    by (rewrite Hperm; exact Hlen).
  assert (Hall' : Forall (fun r => 1 <= r <= 6) (merge_sort Z.le rolls))
    by (rewrite Hperm; exact Hall).
  pose proof (sum_Permutation _ _ Hperm) as Hsum.
  destruct (merge_sort Z.le rolls) as [|a [|b [|c [|d [|x l]]]]];
    try discriminate Hlen'.
  exists rolls, g', a, (sum rolls - a).
  split; [reflexivity |].
  split; [rewrite <- Hperm; set_solver |].
  split.
  { rewrite <- Hperm. apply StronglySorted_inv in Hsorted as [_ Hle].
    constructor; [lia | exact Hle]. }
  split; [reflexivity |].
  repeat match goal with
         | Hx : Forall _ (_ :: _) |- _ => apply Forall_cons in Hx as [? Hx]
         end.
  rewrite <- Hsum.
  assert (Htail : sum (tail [a; b; c; d]) = sum [a; b; c; d] - a)
    by (unfold sum; cbn; lia).
  split; [unfold sum; cbn; lia |].
  rewrite Htail. reflexivity.
Qed.

(** X13: a stat is rolled with four six-sided dice of which the lowest
    does not count: its score is the sum of the four minus the smallest,
    with 2 more, up to 18, for the primary stat of the class. *)
Theorem generate_stat_drops_lowest (primary stat : string) (g : G) :
  exists rolls g' lowest entry,
    roll_each 4 6 g = Ok (rolls, g')
    /\ generate_stat primary stat g = Ok (entry, g')
    /\ lowest ∈ rolls
    /\ Forall (fun r => lowest <= r) rolls
    /\ entry !! "score"
       = Some (if String.eqb stat primary
               then Z.min 18 (sum rolls - lowest + 2)
               else sum rolls - lowest).
Proof.
  destruct (generate_stat_Ok primary stat g)
    as (rolls & g' & lowest & base & Hrolls & Hin & Hlow & -> & _ & Hrun).
  exists rolls, g', lowest. eexists.
  split; [exact Hrolls |]. split; [exact Hrun |].
  split; [exact Hin |]. split; [exact Hlow |].
  cbv zeta. cbn [list_to_map foldr uncurry fst snd].
  rewrite lookup_insert_eq. reflexivity.
Qed.

Lemma generate_stat_entry (primary stat : string) (g : G) :
  exists entry g',
    generate_stat primary stat g = Ok (entry, g')
    /\ stat_entry_ok primary stat entry.
Proof.
  destruct (generate_stat_Ok primary stat g)
    as (rolls & g' & lowest & base & _ & _ & _ & _ & Hbase & Hrun).
  eexists _, g'. split; [exact Hrun |].
  cbv zeta.
  set (score := if String.eqb stat primary then Z.min 18 (base + 2) else base).
  exists score.
  cbn [list_to_map foldr uncurry fst snd].
  split; [apply lookup_insert_eq |].
  split; [rewrite lookup_insert_ne by discriminate; apply lookup_insert_eq |].
  pose proof (calculate_modifier_floor score) as Hfloor.
  assert (Hscore : 3 <= score <= 18)
    by (unfold score; destruct (String.eqb stat primary); lia).
  split; [exact Hscore |].
  split; [| lia].
  intros ->. unfold score. rewrite String.eqb_refl. lia.
Qed.

Lemma generate_stats_Ok (player_class : string) (dice : DiceRoller G) :
  exists stats dice', generate_stats player_class dice = Ok (stats, dice').
Proof.
  unfold generate_stats. cbn [generate_stats_loop].
  set (primary := ClassData.primary_stat _).
  destruct (generate_stat_entry primary "STR" (rng dice)) as (e1 & g1 & -> & _).
  rewrite bind_Ok. cbv beta iota.
  destruct (generate_stat_entry primary "DEX" g1) as (e2 & g2 & -> & _).
  rewrite bind_Ok. cbv beta iota.
  destruct (generate_stat_entry primary "INT" g2) as (e3 & g3 & -> & _).
  rewrite bind_Ok. cbv beta iota.
  destruct (generate_stat_entry primary "CHA" g3) as (e4 & g4 & -> & _).
  rewrite !bind_Ok. cbv beta iota. eauto.
Qed.

(** X14: [generate_stats] returns for every class name, known or not.
    The dictionary has an entry for STR, DEX, INT and CHA and for nothing
    else; each score is between 3 and 18 (at least 5 for the primary stat
    of the class) and comes with its modifier, [(score - 10) // 2],
    between -4 and 4.  The seed of the roller stays. *)
Theorem generate_stats_ranges (player_class : string) (dice : DiceRoller G) :
  let primary :=
    ClassData.primary_stat (default fighter (CLASSES !! player_class)) in
  exists stats dice',
    generate_stats player_class dice = Ok (stats, dice')
    /\ seed dice' = seed dice
    /\ (forall stat,
          stat ∈ ["STR"; "DEX"; "INT"; "CHA"] ->
          exists entry,
            stats !! stat = Some entry /\ stat_entry_ok primary stat entry)
    /\ (forall stat,
          stat ∉ ["STR"; "DEX"; "INT"; "CHA"] -> stats !! stat = None).
Proof.
  intros primary. unfold generate_stats. fold primary.
  cbn [generate_stats_loop].
  destruct (generate_stat_entry primary "STR" (rng dice)) as (e1 & g1 & -> & He1).
  rewrite bind_Ok. cbv beta iota.
  destruct (generate_stat_entry primary "DEX" g1) as (e2 & g2 & -> & He2).
  rewrite bind_Ok. cbv beta iota.
  destruct (generate_stat_entry primary "INT" g2) as (e3 & g3 & -> & He3).
  rewrite bind_Ok. cbv beta iota.
  destruct (generate_stat_entry primary "CHA" g3) as (e4 & g4 & -> & He4).
  rewrite !bind_Ok. cbv beta iota.
  eexists _, _. split; [reflexivity |]. split; [reflexivity |]. split.
  - intros stat Hin.
    repeat (apply elem_of_cons in Hin as [-> | Hin];
            [eexists; split;
             [rewrite ?lookup_insert_ne by discriminate;
              apply lookup_insert_eq | assumption] |]).
    inversion Hin.
  - intros stat Hnotin.
    rewrite !lookup_insert_ne by (intros <-; apply Hnotin; set_solver).
    apply lookup_empty.
Qed.

Lemma first_weapon_elem (inventory : list string) (item : string) :
  first_weapon inventory = Some item ->
  item ∈ inventory /\ is_Some (WEAPONS !! item).
Proof.
  induction inventory as [|x l IH]; [discriminate |]. cbn [first_weapon].
  destruct (WEAPONS !! x) as [w|] eqn:E.
  - intros [= <-]. split; [set_solver | rewrite E; eauto].
  - intros Hfound. destruct (IH Hfound). split; [set_solver | assumption].
Qed.

(** X15: [create_character] returns for every name and class name.  The
    class stored is the lower-cased name when that is a class of the
    table and [fighter] otherwise; the hit points are at the maximum, the
    base of the class; the ability uses are at their maximum; the weapon
    equipped is a weapon of the table taken from the starting items; the
    armor class stored is the one [get_ac] computes; the character is
    not in combat; the player invariant holds. *)
Theorem create_character_result (name player_class : string)
    (dice : DiceRoller G) :
  exists state dice',
    create_character name player_class dice = Ok (state, dice')
    /\ GameState.name state = name
    /\ (match CLASSES !! lower player_class with
        | Some _ => GameState.player_class state = lower player_class
        | None => GameState.player_class state = "fighter"
        end)
    /\ is_Some (CLASSES !! GameState.player_class state)
    /\ GameState.hp state = GameState.max_hp state
    /\ GameState.max_hp state
       = ClassData.base_hp (GameState.get_class_data state)
    /\ GameState.ability_uses state = GameState.ability_max_uses state
    /\ GameState.equipped_weapon state ∈ GameState.inventory state
    /\ is_Some (WEAPONS !! GameState.equipped_weapon state)
    /\ GameState.ac state = GameState.get_ac state
    /\ GameState.in_combat state = false
    /\ GameState.current_enemy state = None
    /\ player_invariant state.
Proof.
  unfold create_character. cbv zeta.
  set (pc := match CLASSES !! lower player_class with
             | Some _ => lower player_class
             | None => "fighter"
             end).
  assert (Hpc : pc = "fighter" \/ pc = "rogue" \/ pc = "mage").
  { unfold pc. destruct (CLASSES !! lower player_class) as [c|] eqn:E; [| auto].
    apply elem_of_list_to_map_2 in E.
    repeat (apply elem_of_cons in E as [E|E]; [injection E as -> _; auto |]).
    inversion E. }
  assert (Hclass : match CLASSES !! lower player_class with
                   | Some _ => pc = lower player_class
                   | None => pc = "fighter"
                   end)
    by (unfold pc; destruct (CLASSES !! lower player_class); reflexivity).
  clearbody pc.
  destruct (generate_stats_Ok pc dice) as (stats & dice' & ->).
  rewrite bind_Ok. cbv beta iota.
  eexists _, _. split; [reflexivity |].
  destruct Hpc as [-> | [-> | ->]].
  - change (CLASSES !! "fighter") with (Some fighter).
    change (first_weapon _) with (Some "Longsword").
    split; [reflexivity |]. split; [exact Hclass |].
    unfold player_invariant, GameState.get_class_data.
    cbn [default GameState.player_class GameState.set_ac
         GameState.set_equipped_weapon].
    change (CLASSES !! "fighter") with (Some fighter).
    repeat split; try reflexivity; try (simpl; lia); eauto.
    simpl. set_solver.
  - change (CLASSES !! "rogue") with (Some rogue).
    change (first_weapon _) with (Some "Dagger").
    split; [reflexivity |]. split; [exact Hclass |].
    unfold player_invariant, GameState.get_class_data.
    cbn [default GameState.player_class GameState.set_ac
         GameState.set_equipped_weapon].
    change (CLASSES !! "rogue") with (Some rogue).
    repeat split; try reflexivity; try (simpl; lia); eauto.
    simpl. set_solver.
  - change (CLASSES !! "mage") with (Some mage).
    change (first_weapon _) with (Some "Staff").
    split; [reflexivity |]. split; [exact Hclass |].
    unfold player_invariant, GameState.get_class_data.
    cbn [default GameState.player_class GameState.set_ac
         GameState.set_equipped_weapon].
    change (CLASSES !! "mage") with (Some mage).
    repeat split; try reflexivity; try (simpl; lia); eauto.
    simpl. set_solver.
Qed.

End CharacterFacts.

(** ** Skill checks *)

Lemma tool_step_fst (stat : string) (acc : Z * string) (item : string) :
  fst (tool_step stat acc item)
  = fst acc
    + (if String.eqb item "Lockpicks" && String.eqb stat "DEX" then 2 else 0).
Proof.
  destruct acc as [total display]. unfold tool_step.
  destruct (String.eqb item "Lockpicks") eqn:E1.
  - apply String.eqb_eq in E1. subst item.
    change (ITEMS !! "Lockpicks")
      with (Some (Item.mk "tool" (Some "skill_bonus") None (Some "DEX")
                    (Some 2) None "Grants +2 to lockpicking attempts")).
    cbn [Item.effect Item.skill Item.bonus option_eqb default andb].
    change (String.eqb "skill_bonus" "skill_bonus") with true. cbn [andb].
    rewrite (String.eqb_sym "DEX" stat).
    destruct (String.eqb stat "DEX"); cbn [fst id]; lia.
  - apply String.eqb_neq in E1. cbn [andb fst].
    destruct (ITEMS !! item) as [data|] eqn:E; [| cbn [fst]; lia].
    apply elem_of_list_to_map_2 in E.
    repeat (apply elem_of_cons in E as [E|E];
            [injection E as -> ->; try congruence; cbn; lia |]).
    inversion E.
Qed.

Lemma foldl_tool_step_fst (stat : string) (l : list string) (acc : Z * string) :
  fst (foldl (tool_step stat) acc l) = fst acc + tool_bonus stat l.
Proof.
  revert acc. unfold tool_bonus.
  induction l as [|item l IH]; intros acc; cbn [foldl count_occ].
  - destruct (String.eqb stat "DEX"); lia.
  - rewrite IH, tool_step_fst.
    destruct (String.string_dec item "Lockpicks") as [-> | Hne].
    + change (String.eqb "Lockpicks" "Lockpicks") with true. cbn [andb].
      destruct (String.eqb stat "DEX"); lia.
    + rewrite String_eqb_false by exact Hne. cbn [andb].
      destruct (String.eqb stat "DEX"); lia.
Qed.

Section SkillCheckFacts.
Context {G : Type} `{RandomGen G}.

(** X16: [skill_check] always returns.  It throws one d20 and succeeds
    exactly when the die plus the stat modifier, the bonus given and 2
    for every Lockpicks carried, if the check is on DEX, reaches the
    difficulty; the Lockpicks add nothing to a check on another stat. *)
Theorem skill_check_rule (state : GameState.t) (stat : string) (dc bonus : Z)
    (description : string) (dice : DiceRoller G) :
  let raw := fst (randint_draw (rng dice) 1 20) in
  let total :=
    raw + (GameState.get_modifier state stat + bonus)
    + tool_bonus stat (GameState.inventory state) in
  exists display,
    skill_check state stat dc bonus description dice
    = Ok (dc <=? total, display,
          with_rng dice (snd (randint_draw (rng dice) 1 20))).
Proof.
  intros raw total. unfold skill_check.
  destruct (roll_d20_plain dice (GameState.get_modifier state stat + bonus) stat)
    as [display ->].
  rewrite bind_Ok. cbv beta iota zeta. fold raw.
  pose proof (foldl_tool_step_fst stat (GameState.inventory state)
                (raw + (GameState.get_modifier state stat + bonus), display))
    as Hfold.
  destruct (foldl _ _ _) as [total' display']. cbn [fst] in Hfold.
  subst total'. fold total. eexists. reflexivity.
Qed.

End SkillCheckFacts.

(** ** Item usage *)

Section ItemUseFacts.
Context {G : Type} `{RandomGen G}.

(** X17: [use_item] refuses, without raising and without touching the
    state or the dice, an item that is not in the inventory and every
    item that is neither the Health Potion nor the Mana Potion. *)
Theorem use_item_refused (state : GameState.t) (item_name : string)
    (dice : DiceRoller G) :
  GameState.has_item state item_name = false
  \/ (item_name <> "Health Potion" /\ item_name <> "Mana Potion") ->
  exists msg, use_item state item_name dice = Ok (false, msg, state, dice).
Proof.
  intros Hcase. unfold use_item.
  destruct (GameState.has_item state item_name) eqn:Hhas; cbn [negb];
    [| eexists; reflexivity].
  destruct Hcase as [Hno | [Hhp Hmp]]; [discriminate |].
  destruct (ITEMS !! item_name) as [item|] eqn:E; [| eexists; reflexivity].
  apply elem_of_list_to_map_2 in E.
  repeat (apply elem_of_cons in E as [E|E];
          [injection E as -> ->; try congruence; eexists; reflexivity |]).
  inversion E.
Qed.

(** The value of the Health Potion, ["2d4+2"], parses into the dice
    [2d4] and the flat 2. *)
Lemma heal_total_parts (dice : DiceRoller G) :
  heal_total (PStr "2d4+2") dice = heal_parts ["2d4"; "2"] (0, dice).
Proof. reflexivity. Qed.

Lemma heal_part_dice (total : Z) (dice : DiceRoller G) :
  heal_part "2d4" (total, dice)
  = ('(_, roll_total, dice) ← roll dice 2 4; Ok (total + roll_total, dice)).
Proof. reflexivity. Qed.

Lemma heal_part_flat (total : Z) (dice : DiceRoller G) :
  heal_part "2" (total, dice) = Ok (total + 2, dice).
Proof. reflexivity. Qed.

Lemma heal_total_potion (dice : DiceRoller G) :
  exists rolls g',
    roll_each 2 4 (rng dice) = Ok (rolls, g')
    /\ heal_total (PStr "2d4+2") dice = Ok (sum rolls + 2, with_rng dice g')
    /\ 2 <= sum rolls <= 8.
Proof.
  destruct (roll_Ok dice 2 4 ltac:(lia))
    as (rolls' & g' & Heach & Hroll' & Hlen & Hall).
  pose proof (sum_bounds 1 4 rolls' Hall) as Hsum. rewrite Hlen in Hsum.
  exists rolls', g'. split; [exact Heach |]. split; [| lia].
  rewrite heal_total_parts. cbn [heal_parts].
  rewrite heal_part_dice, Hroll', bind_Ok. cbv beta iota.
  rewrite bind_Ok, heal_part_flat, !bind_Ok, Z.add_0_l. reflexivity.
Qed.

(** X18: using a Health Potion that is in the inventory succeeds: two
    four-sided dice are thrown, the hit points go up by their sum plus 2
    but not beyond the maximum, and the first Health Potion leaves the
    inventory; nothing else changes. *)
Theorem use_item_health_potion (state : GameState.t) (dice : DiceRoller G) :
  GameState.has_item state "Health Potion" = true ->
  exists rolls g' msg,
    roll_each 2 4 (rng dice) = Ok (rolls, g')
    /\ 4 <= sum rolls + 2 <= 10
    /\ let actual :=
         Z.min (sum rolls + 2) (GameState.max_hp state - GameState.hp state) in
       use_item state "Health Potion" dice
       = Ok (true, msg,
             GameState.set_inventory
               (GameState.set_hp state (GameState.hp state + actual))
               (GameState.list_remove "Health Potion"
                  (GameState.inventory state)),
             with_rng dice g').
Proof.
  intros Hhas.
  destruct (heal_total_potion dice) as (rolls & g' & Heach & Hheal & Hsum).
  exists rolls, g'. eexists. split; [exact Heach |]. split; [lia |].
  cbv zeta. unfold use_item. rewrite Hhas. cbn [negb].
  change (ITEMS !! "Health Potion")
    with (Some (Item.mk "consumable" (Some "heal") (Some (PStr "2d4+2"))
                  None None None "Restores health when consumed")).
  cbn [Item.type Item.effect Item.value item_key].
  change (String.eqb "consumable" "consumable") with true. cbn [negb].
  rewrite bind_Ok.
  change (String.eqb "heal" "heal") with true. cbv iota.
  rewrite bind_Ok, Hheal, bind_Ok. cbv beta iota zeta.
  unfold GameState.heal, GameState.remove_from_inventory.
  change (GameState.has_item (GameState.set_hp state _) "Health Potion")
    with (GameState.has_item state "Health Potion").
  rewrite Hhas. reflexivity.
Qed.

(** X19: using a Mana Potion that is in the inventory succeeds without a
    roll: the ability uses go up by one but not beyond the maximum, and
    the first Mana Potion leaves the inventory; nothing else changes. *)
Theorem use_item_mana_potion (state : GameState.t) (dice : DiceRoller G) :
  GameState.has_item state "Mana Potion" = true ->
  exists msg,
    use_item state "Mana Potion" dice
    = Ok (true, msg,
          GameState.set_inventory
            (GameState.set_ability_uses state
               (Z.min (GameState.ability_max_uses state)
                  (GameState.ability_uses state + 1)))
            (GameState.list_remove "Mana Potion" (GameState.inventory state)),
          dice).
Proof.
  intros Hhas. eexists. unfold use_item. rewrite Hhas. cbn [negb].
  change (ITEMS !! "Mana Potion")
    with (Some (Item.mk "consumable" (Some "restore_ability") (Some (PInt 1))
                  None None None "Restores one ability use")).
  cbn [Item.type Item.effect Item.value item_key].
  change (String.eqb "consumable" "consumable") with true. cbn [negb].
  rewrite bind_Ok.
  change (String.eqb "restore_ability" "heal") with false. cbv iota.
  change (String.eqb "restore_ability" "restore_ability") with true. cbv iota.
  rewrite bind_Ok. cbn [int_operand as_int]. rewrite bind_Ok.
  cbv beta iota zeta.
  unfold GameState.restore_ability_use, GameState.remove_from_inventory.
  change (GameState.has_item (GameState.set_ability_uses state _) "Mana Potion")
    with (GameState.has_item state "Mana Potion").
  rewrite Hhas. reflexivity.
Qed.

End ItemUseFacts.

Lemma use_item_refused_witness :
  (GameState.has_item (with_items ["Dagger"; "Lockpicks"]) "Lockpicks" = false
   \/ ("Lockpicks" <> "Health Potion" /\ "Lockpicks" <> "Mana Potion"))
  /\ exists msg,
       use_item (G := Z) (with_items ["Dagger"; "Lockpicks"]) "Lockpicks"
         (DiceRoller_init (Some 7))
       = Ok (false, msg, with_items ["Dagger"; "Lockpicks"],
             DiceRoller_init (Some 7)).
Proof.
  assert (Hne : "Lockpicks" <> "Health Potion" /\ "Lockpicks" <> "Mana Potion")
    by (split; discriminate).
  split; [right; exact Hne |].
  apply (use_item_refused (G := Z) (with_items ["Dagger"; "Lockpicks"])
           "Lockpicks" (DiceRoller_init (Some 7))).
  right. exact Hne.
Defined.

Lemma use_item_health_potion_witness :
  let state := with_items ["Dagger"; "Health Potion"; "Health Potion"] in
  let dice := DiceRoller_init (G := Z) (Some 7) in
  GameState.has_item state "Health Potion" = true
  /\ exists rolls g' msg,
       roll_each 2 4 (rng dice) = Ok (rolls, g')
       /\ 4 <= sum rolls + 2 <= 10
       /\ let actual :=
            Z.min (sum rolls + 2) (GameState.max_hp state - GameState.hp state) in
          use_item state "Health Potion" dice
          = Ok (true, msg,
                GameState.set_inventory
                  (GameState.set_hp state (GameState.hp state + actual))
                  (GameState.list_remove "Health Potion"
                     (GameState.inventory state)),
                with_rng dice g').
Proof.
  intros state dice. split; [reflexivity |].
  apply (use_item_health_potion (G := Z) state dice). reflexivity.
Defined.

Lemma use_item_mana_potion_witness :
  let state := with_items ["Staff"; "Mana Potion"] in
  let dice := DiceRoller_init (G := Z) (Some 7) in
  GameState.has_item state "Mana Potion" = true
  /\ exists msg,
       use_item state "Mana Potion" dice
       = Ok (true, msg,
             GameState.set_inventory
               (GameState.set_ability_uses state
                  (Z.min (GameState.ability_max_uses state)
                     (GameState.ability_uses state + 1)))
               (GameState.list_remove "Mana Potion" (GameState.inventory state)),
             dice).
Proof.
  intros state dice. split; [reflexivity |].
  apply (use_item_mana_potion (G := Z) state dice). reflexivity.
Defined.

(** ** Combat: entering a fight, attacking *)

(** [from_dict] leaves the dictionary in a form it maps to the same enemy
    without changing it further. *)
Lemma from_dict_again (data0 data : dict) (e : Enemy.t) :
  Enemy.from_dict data0 = Ok (data, e) -> Enemy.from_dict data = Ok (data, e).
Proof.
  unfold Enemy.from_dict. intros Hrun.
  bind_inv Hrun. rename a into dd0, Ha into Hdd0.
  bind_inv Hrun. rename a into dd, Ha into Hdd.
  bind_inv Hrun. rename a into gd0, Ha into Hgd0.
  bind_inv Hrun. rename a into gd, Ha into Hgd.
  bind_inv Hrun. rename a into self, Ha into Hinit.
  injection Hrun as <- <-.
  unfold py_tuple in Hdd, Hgd.
  bind_inv Hdd. rename a into l1. injection Hdd as <-.
  bind_inv Hgd. rename a into l2. injection Hgd as <-.
  set (data := <["gold_drop" := PTuple l2]> (<["damage_dice" := PTuple l1]> data0))
    in *.
  assert (Hdd : data !! "damage_dice" = Some (PTuple l1)).
  { unfold data. rewrite lookup_insert_ne by discriminate.
    apply lookup_insert_eq. }
  assert (Hgd : data !! "gold_drop" = Some (PTuple l2))
    by (unfold data; apply lookup_insert_eq).
  unfold getitem. rewrite Hdd, bind_Ok.
  change (py_tuple (PTuple l1)) with (Ok (PTuple l1)).
  rewrite bind_Ok, (insert_id data "damage_dice" _ Hdd).
  rewrite Hgd, bind_Ok.
  change (py_tuple (PTuple l2)) with (Ok (PTuple l2)).
  rewrite bind_Ok, (insert_id data "gold_drop" _ Hgd).
  rewrite Hinit, bind_Ok. reflexivity.
Qed.

(** Storing an enemy with other hit points gives a dictionary from which
    [from_dict] reads that enemy. *)
Lemma stored_enemy_read_back (data0 data d : dict) (e : Enemy.t) (v : pyval) :
  Enemy.from_dict data0 = Ok (data, e) ->
  Enemy.to_dict (Enemy.set_hp e v) = Ok d ->
  exists d', Enemy.from_dict d = Ok (d', Enemy.set_hp e v).
Proof.
  intros Hfrom Hto.
  destruct (from_dict_tuples _ _ _ Hfrom) as (l1 & l2 & Hdd & Hgd).
  destruct (to_dict_from_dict (Enemy.set_hp e v) l1 l2 Hdd Hgd)
    as (d0 & d' & Hto' & Hback).
  rewrite Hto in Hto'. injection Hto' as <-. eauto.
Qed.

Lemma combat_ready_set_hp (state state' : GameState.t) (e : Enemy.t)
    (data0 data d : dict) (z : Z) :
  combat_ready state e ->
  Enemy.from_dict data0 = Ok (data, e) ->
  Enemy.to_dict (Enemy.set_hp e (PInt z)) = Ok d ->
  GameState.current_enemy state' = Some d ->
  combat_ready state' (Enemy.set_hp e (PInt z)).
Proof.
  intros (_ & _ & Hac & Hab & Hdb & Hdice) Hfrom Hto Hcur.
  destruct (stored_enemy_read_back _ _ _ _ _ Hfrom Hto) as [d' Hback].
  split; [exists d, d'; auto |].
  split; [cbn; eauto |]. auto.
Qed.

Lemma combat_ready_rewritten (state state' : GameState.t) (e : Enemy.t)
    (data0 data : dict) :
  combat_ready state e ->
  Enemy.from_dict data0 = Ok (data, e) ->
  GameState.current_enemy state' = Some data ->
  combat_ready state' e.
Proof.
  intros (_ & Hrest) Hfrom Hcur.
  split; [exists data, data; split; [exact Hcur |] |  exact Hrest].
  exact (from_dict_again _ _ _ Hfrom).
Qed.


Section CombatInvariant.
Context {G : Type} `{RandomGen G}.

(** One attack on a state ready for combat. *)
Lemma player_attack_step (state : GameState.t) (e : Enemy.t)
    (use_sneak_attack : bool) (dice : DiceRoller G) :
  combat_ready state e ->
  exists r state' dice' hp,
    player_attack state use_sneak_attack dice = Ok (r, state', dice')
    /\ as_int (Enemy.hp e) = Some hp
    /\ combat_ready state'
         (if success r then Enemy.set_hp e (PInt (hp - damage r)) else e)
    /\ (success r = false -> damage r = 0)
    /\ (success r = true -> 1 <= damage r)
    /\ GameState.hp state' = GameState.hp state
    /\ GameState.max_hp state' = GameState.max_hp state
    /\ GameState.gold state' = GameState.gold state
    /\ GameState.inventory state' = GameState.inventory state
    /\ GameState.ability_uses state' = GameState.ability_uses state.
Proof.
  intros Hready.
  pose proof Hready as ((data0 & data & Hcur & Hfrom) & [hp Hhp] & [ac Hac] & _).
  set (raw := fst (randint_draw (rng dice) 1 20)).
  set (total :=
         raw + GameState.get_modifier state
                 (Weapon.stat (GameState.get_equipped_weapon_data state))).
  destruct (Z.eq_dec raw 1) as [Hraw1 | Hraw1].
  { destruct (player_attack_critical_miss state use_sneak_attack dice
                data0 data e Hcur Hfrom Hraw1) as [display Hrun].
    eexists _, _, _, hp. split; [exact Hrun |]. split; [exact Hhp |].
    cbn [success damage CombatResult_init].
    split; [eapply combat_ready_rewritten; eauto |].
    repeat split; auto; discriminate. }
  assert (Hcases : (raw <> 20 /\ total < ac) \/ (raw = 20 \/ ac <= total))
    by lia.
  destruct Hcases as [[Hraw20 Hlt] | Hhit].
  { destruct (player_attack_miss state use_sneak_attack dice
                data0 data e ac Hcur Hfrom Hac Hraw1 Hraw20 Hlt)
      as (msg & display & Hrun).
    eexists _, _, _, hp. split; [exact Hrun |]. split; [exact Hhp |].
    cbn [success damage CombatResult_init].
    split; [eapply combat_ready_rewritten; eauto |].
    repeat split; auto; discriminate. }
  destruct (player_attack_hit state use_sneak_attack dice
              data0 data e ac hp Hcur Hfrom Hac Hhp Hraw1 Hhit)
    as (dmg & g3 & msg & display & d & Hdmg & Hto & Hrun).
  eexists _, _, _, hp. split; [exact Hrun |]. split; [exact Hhp |].
  cbn [success damage CombatResult_init].
  split; [eapply combat_ready_set_hp; eauto |].
  split; [discriminate |].
  split.
  - intros _. destruct Hdmg as (rolls & g2 & srolls & _ & _ & Hsn & ->).
    destruct (_ && _ && _).
    + destruct Hsn as [Hsn _].
      destruct (roll_each_Ok 2 6 g2 ltac:(lia))
        as (srolls' & g' & Hsn' & Hlen & Hall).
      rewrite Hsn in Hsn'. injection Hsn' as <- <-.
      pose proof (sum_bounds 1 6 srolls Hall). lia.
    + destruct Hsn as [-> _]. unfold sum. simpl. lia.
  - destruct (_ && _ && _); repeat split; reflexivity.
Qed.

(** X21: on a state ready for combat [player_attack] never raises, and
    the state it leaves is ready again: the enemy is the same after a
    miss and has the damage taken off its hit points after a hit (they
    may go below zero).  The attack leaves the player's hit points, gold,
    inventory and ability uses alone. *)
Theorem player_attack_keeps_ready (state : GameState.t) (e : Enemy.t)
    (use_sneak_attack : bool) (dice : DiceRoller G) :
  combat_ready state e ->
  exists r state' dice' hp,
    player_attack state use_sneak_attack dice = Ok (r, state', dice')
    /\ as_int (Enemy.hp e) = Some hp
    /\ combat_ready state'
         (if success r then Enemy.set_hp e (PInt (hp - damage r)) else e)
    /\ (success r = false -> damage r = 0)
    /\ (success r = true -> 1 <= damage r)
    /\ GameState.hp state' = GameState.hp state
    /\ GameState.max_hp state' = GameState.max_hp state
    /\ GameState.gold state' = GameState.gold state
    /\ GameState.inventory state' = GameState.inventory state
    /\ GameState.ability_uses state' = GameState.ability_uses state.
Proof. exact (player_attack_step state e use_sneak_attack dice). Qed.


End CombatInvariant.

Lemma goblin_ready (ac : Z) (state : GameState.t) :
  GameState.current_enemy state = Some (goblin_entry ac) ->
  combat_ready state (goblin ac).
Proof.
  intros Hcur.
  split; [exists (goblin_entry ac), (goblin_current ac);
          split; [exact Hcur | vm_compute; reflexivity] |].
  cbn [goblin Enemy.hp Enemy.ac Enemy.attack_bonus Enemy.damage_bonus
       Enemy.damage_dice as_int].
  repeat split; eauto.
  exists (PInt 1), (PInt 6), 1, 6. repeat split; lia.
Qed.

Lemma player_attack_keeps_ready_witness :
  let state := sample_rogue 3 7 1 true (Some (goblin_entry 13)) in
  let dice := DiceRoller_init (G := Z) (Some 7) in
  combat_ready state (goblin 13)
  /\ exists r state' dice' hp,
       player_attack state true dice = Ok (r, state', dice')
       /\ as_int (Enemy.hp (goblin 13)) = Some hp
       /\ combat_ready state'
            (if success r
             then Enemy.set_hp (goblin 13) (PInt (hp - damage r))
             else goblin 13)
       /\ (success r = false -> damage r = 0)
       /\ (success r = true -> 1 <= damage r)
       /\ GameState.hp state' = GameState.hp state
       /\ GameState.max_hp state' = GameState.max_hp state
       /\ GameState.gold state' = GameState.gold state
       /\ GameState.inventory state' = GameState.inventory state
       /\ GameState.ability_uses state' = GameState.ability_uses state.
Proof.
  intros state dice.
  assert (Hready : combat_ready state (goblin 13))
    by (apply goblin_ready; reflexivity).
  split; [exact Hready |].
  apply (player_attack_keeps_ready (G := Z) state (goblin 13) true dice).
  exact Hready.
Defined.

(** ** Combat: the enemy's attack *)

Lemma combat_ready_same_enemy (state state' : GameState.t) (e : Enemy.t) :
  GameState.current_enemy state' = GameState.current_enemy state ->
  combat_ready state e -> combat_ready state' e.
Proof.
  intros Hsame ((data0 & data & Hcur & Hfrom) & Hrest).
  split; [exists data0, data; split; [congruence | exact Hfrom] | exact Hrest].
Qed.

Lemma py_double_number (v : pyval) (z : Z) :
  as_int v = Some z -> exists v', py_double v = Ok v' /\ as_int v' = Some (z * 2).
Proof.
  destruct v as [|b|x| | | |]; try discriminate; intros [= <-];
    eexists; split; reflexivity.
Qed.

Section EnemyAttackFacts.
Context {G : Type} `{RandomGen G} `{PyStr}.

(** On integers the functions on values are the functions on integers. *)
Lemma roll_d20_dyn_int (dice : DiceRoller G) (modifier : Z) (stat_name : string)
    (advantage disadvantage : bool) :
  roll_d20_dyn dice (PInt modifier) stat_name advantage disadvantage
  = roll_d20 dice modifier stat_name advantage disadvantage.
Proof.
  unfold roll_d20_dyn, roll_d20. cbn [int_operand as_int].
  rewrite py_str_int. reflexivity.
Qed.

Lemma roll_dyn_int (dice : DiceRoller G) (num_dice die_size : Z) :
  roll_dyn dice (PInt num_dice) (PInt die_size) = roll dice num_dice die_size.
Proof.
  unfold roll_dyn, roll, int_operand, mbind, result_bind. cbn [as_int].
  destruct (Z.to_nat num_dice); reflexivity.
Qed.

Lemma roll_damage_dyn_int (dice : DiceRoller G) (num_dice die_size modifier : Z)
    (stat_name : string) :
  roll_damage_dyn dice (PInt num_dice) (PInt die_size) (PInt modifier) stat_name
  = roll_damage dice num_dice die_size modifier stat_name.
Proof.
  unfold roll_damage_dyn, roll_damage. rewrite roll_dyn_int.
  destruct (roll dice num_dice die_size) as [[[rolls total] dice']|e];
    [| reflexivity].
  rewrite !bind_Ok. cbn [int_operand as_int]. rewrite bind_Ok, !py_str_int.
  reflexivity.
Qed.

Lemma roll_d20_dyn_plain (dice : DiceRoller G) (modifier : pyval) (m : Z)
    (stat_name : string) :
  as_int modifier = Some m ->
  exists display,
    roll_d20_dyn dice modifier stat_name false false
    = Ok (fst (randint_draw (rng dice) 1 20),
          fst (randint_draw (rng dice) 1 20) + m,
          display,
          with_rng dice (snd (randint_draw (rng dice) 1 20))).
Proof.
  intros Hm. unfold roll_d20_dyn, int_operand. cbn [andb negb].
  rewrite randint_Ok by lia. rewrite bind_Ok.
  destruct (randint_draw (rng dice) 1 20) as [raw g1].
  rewrite bind_Ok, Hm, bind_Ok. cbn [fst snd]. eexists. reflexivity.
Qed.

Lemma roll_damage_dyn_Ok (dice : DiceRoller G) (num_dice die_size modifier : pyval)
    (n d m : Z) (stat_name : string) :
  as_int num_dice = Some n -> as_int die_size = Some d ->
  as_int modifier = Some m -> 1 <= d ->
  exists rolls display g',
    roll_each (Z.to_nat n) d (rng dice) = Ok (rolls, g')
    /\ roll_damage_dyn dice num_dice die_size modifier stat_name
       = Ok (Z.max 1 (sum rolls + m), display, with_rng dice g')
    /\ length rolls = Z.to_nat n.
Proof.
  intros Hn Hd Hm Hd1.
  destruct (roll_each_Ok (Z.to_nat n) d (rng dice) Hd1)
    as (rolls & g' & Heach & Hlen & _).
  exists rolls. eexists. exists g'. split; [exact Heach |].
  split; [| exact Hlen].
  unfold roll_damage_dyn, roll_dyn, int_operand. rewrite Hn, Hd, Hm, !bind_Ok.
  assert (Hrolls :
    match Z.to_nat n with
    | O => Ok ([], rng dice)
    | S _ => roll_each (Z.to_nat n) d (rng dice)
    end = Ok (rolls, g')).
  { destruct (Z.to_nat n); exact Heach. }
  rewrite Hrolls, !bind_Ok. cbv beta iota zeta. rewrite ?bind_Ok. reflexivity.
Qed.

Variables (state : GameState.t) (e : Enemy.t) (dice : DiceRoller G).
Variables (num_dice die_size : pyval) (ab dn ds db : Z).

Hypothesis Hready : combat_ready state e.
Hypothesis Hab : as_int (Enemy.attack_bonus e) = Some ab.
Hypothesis Hdice : Enemy.damage_dice e = PTuple [num_dice; die_size].
Hypothesis Hdn : as_int num_dice = Some dn.
Hypothesis Hds : as_int die_size = Some ds.
Hypothesis Hdb : as_int (Enemy.damage_bonus e) = Some db.

Let raw : Z := fst (randint_draw (rng dice) 1 20).
Let g1 : G := snd (randint_draw (rng dice) 1 20).
Let total : Z := raw + ab.
Let player_ac : Z := GameState.get_ac state.

(** The outcomes of the enemy's attack. *)
Lemma enemy_attack_outcome :
  exists r state' dice',
    enemy_attack state dice = Ok (r, state', dice')
    /\ combat_ready state' e
    /\ GameState.hp state'
       = (if success r
          then GameState.hp state - Z.min (damage r) (GameState.hp state)
          else GameState.hp state)
    /\ GameState.max_hp state' = GameState.max_hp state
    /\ GameState.gold state' = GameState.gold state
    /\ GameState.inventory state' = GameState.inventory state
    /\ GameState.ability_uses state' = GameState.ability_uses state
    /\ GameState.ability_max_uses state' = GameState.ability_max_uses state
    /\ GameState.sneak_attack_available state'
       = GameState.sneak_attack_available state
    /\ GameState.equipped_weapon state' = GameState.equipped_weapon state
    /\ GameState.stats state' = GameState.stats state
    /\ ((raw = 1 \/ (raw <> 20 /\ total < player_ac))
         /\ success r = false /\ damage r = 0
         /\ dice' = with_rng dice g1
        \/
        (raw <> 1 /\ (raw = 20 \/ player_ac <= total))
         /\ success r = true
         /\ hit_damage g1 (if raw =? 20 then dn * 2 else dn) ds db false
              (damage r) (rng dice')).
Proof.
  pose proof Hready as ((data0 & data & Hcur & Hfrom) & _).
  assert (Hds1 : 1 <= ds).
  { destruct Hready as (_ & _ & _ & _ & _ & n' & s' & dn' & ds' & Hdd & _ & Hs' & Hle).
    rewrite Hdice in Hdd. injection Hdd as <- <-.
    rewrite Hds in Hs'. injection Hs' as <-. exact Hle. }
  assert (Hready1 : combat_ready (GameState.set_current_enemy state (Some data)) e)
    by (eapply combat_ready_rewritten; eauto).
  unfold enemy_attack. rewrite Hcur.
  rewrite (from_dict_has_enemy state data0 _ Hcur Hfrom).
  rewrite Hfrom, bind_Ok. cbv beta iota zeta.
  destruct (roll_d20_dyn_plain dice (Enemy.attack_bonus e) ab "ATK" Hab)
    as [display Hd20].
  rewrite Hd20, bind_Ok. cbv beta iota zeta.
  change (randint_draw (rng dice) 1 20).1 with raw.
  change (randint_draw (rng dice) 1 20).2 with g1.
  change (raw + ab) with total.
  change (GameState.get_ac (GameState.set_current_enemy state (Some data)))
    with player_ac.
  destruct (Z.eq_dec raw 1) as [Hraw1 | Hraw1].
  { rewrite Hraw1. change (1 =? 1) with true. cbv iota.
    eexists _, _, _. split; [reflexivity |].
    cbn [damage CombatResult_init success].
    split; [exact Hready1 |].
    split; [reflexivity |].
    repeat (split; [reflexivity |]). left. auto. }
  rewrite (proj2 (Z.eqb_neq raw 1) Hraw1).
  assert (Hcases : (raw <> 20 /\ total < player_ac)
                   \/ (raw = 20 \/ player_ac <= total)) by lia.
  destruct Hcases as [[Hraw20 Hlt] | Hhit].
  { rewrite (proj2 (Z.eqb_neq raw 20) Hraw20), (proj2 (Z.leb_gt player_ac total) Hlt).
    cbn [orb].
    eexists _, _, _. split; [reflexivity |].
    cbn [damage CombatResult_init success].
    split; [exact Hready1 |].
    split; [reflexivity |].
    repeat (split; [reflexivity |]). left. auto. }
  assert (Hcond : (player_ac <=? total) || (raw =? 20) = true).
  { destruct Hhit as [-> | Hle]; [apply orb_true_r |].
    rewrite (proj2 (Z.leb_le player_ac total) Hle). reflexivity. }
  rewrite Hcond, Hdice.
  change (unpack_pair (PTuple [num_dice; die_size]))
    with (Ok (num_dice, die_size) : result (pyval * pyval)).
  rewrite bind_Ok. cbv beta iota.
  assert (Hcount : exists v,
    (if raw =? 20 then py_double num_dice else Ok num_dice) = Ok v
    /\ as_int v = Some (if raw =? 20 then dn * 2 else dn)).
  { destruct (raw =? 20); [apply py_double_number; exact Hdn | eauto]. }
  destruct Hcount as (count & -> & Hcount).
  rewrite bind_Ok.
  destruct (roll_damage_dyn_Ok (with_rng dice g1) count die_size
              (Enemy.damage_bonus e) _ ds db "" Hcount Hds Hdb Hds1)
    as (rolls & dmg_display & g2 & Heach & -> & Hlen).
  rewrite bind_Ok. cbv beta iota zeta.
  unfold GameState.take_damage. cbv beta iota zeta.
  eexists _, _, _. split; [reflexivity |].
  cbn [damage CombatResult_init success].
  split; [eapply combat_ready_same_enemy; [| exact Hready1]; reflexivity |].
  split; [reflexivity |].
  repeat (split; [reflexivity |]). right.
  split; [auto |]. split; [reflexivity |].
  exists rolls, g2, []. cbn [rng with_rng] in Heach.
  split; [exact Heach |]. split; [exact Hlen |].
  split; [split; reflexivity |]. unfold sum. cbn [foldr]. lia.
Qed.

(** X23: the enemy's attack on a state ready for combat returns.  On a
    raw 1 it misses; on a raw 20 it hits whatever the player's armor
    class and throws twice the enemy's damage dice; otherwise it hits
    exactly when the die plus the attack bonus reaches the armor class
    [get_ac] computes, and throws the damage dice once.  The damage is
    the dice plus the damage bonus, at least 1. *)
Theorem enemy_attack_hit_rule :
  exists r state' dice',
    enemy_attack state dice = Ok (r, state', dice')
    /\ (raw = 1 -> success r = false)
    /\ (raw = 20 ->
        success r = true
        /\ hit_damage g1 (dn * 2) ds db false (damage r) (rng dice'))
    /\ (raw <> 1 -> raw <> 20 ->
        (success r = true <-> player_ac <= total)
        /\ (success r = true ->
            hit_damage g1 dn ds db false (damage r) (rng dice'))).
Proof.
  destruct enemy_attack_outcome
    as (r & state' & dice' & Hrun & _ & _ & _ & _ & _ & _ & _ & _ & _ & _
        & Hcase).
  exists r, state', dice'. split; [exact Hrun |].
  destruct Hcase as [(Hraw & Hs & _) | ((Hraw1 & Hraw) & Hs & Hdmg)].
  - split; [auto |]. split; [intros ->; lia |].
    intros Hraw1 Hraw20. rewrite Hs.
    split; [split; [discriminate | lia] | discriminate].
  - split; [intros ->; lia |]. split.
    + intros Hraw20. rewrite Hraw20 in Hdmg. auto.
    + intros _ Hraw20.
      rewrite (proj2 (Z.eqb_neq raw 20) Hraw20) in Hdmg.
      split; [split; [lia | auto] | auto].
Qed.


End EnemyAttackFacts.

Lemma enemy_attack_hit_rule_witness :
  let state := sample_rogue 3 7 1 true (Some (goblin_entry 13)) in
  let dice := DiceRoller_init (G := Z) (Some 5) in
  let raw := fst (randint_draw (rng dice) 1 20) in
  let g1 := snd (randint_draw (rng dice) 1 20) in
  (combat_ready state (goblin 13)
   /\ as_int (Enemy.attack_bonus (goblin 13)) = Some 3
   /\ Enemy.damage_dice (goblin 13) = PTuple [PInt 1; PInt 6]
   /\ as_int (PInt 1) = Some 1
   /\ as_int (PInt 6) = Some 6
   /\ as_int (Enemy.damage_bonus (goblin 13)) = Some 1)
  /\ exists r state' dice',
       enemy_attack state dice = Ok (r, state', dice')
       /\ (raw = 1 -> success r = false)
       /\ (raw = 20 ->
           success r = true
           /\ hit_damage g1 (1 * 2) 6 1 false (damage r) (rng dice'))
       /\ (raw <> 1 -> raw <> 20 ->
           (success r = true <-> GameState.get_ac state <= raw + 3)
           /\ (success r = true ->
               hit_damage g1 1 6 1 false (damage r) (rng dice'))).
Proof.
  intros state dice raw g1.
  assert (Hready : combat_ready state (goblin 13))
    by (apply goblin_ready; reflexivity).
  split; [repeat split; try reflexivity; apply Hready |].
  apply (enemy_attack_hit_rule (G := Z) state (goblin 13) dice
           (PInt 1) (PInt 6) 3 1 6 1 Hready);
    reflexivity.
Defined.


(** ** Combat: the class abilities that roll dice *)

Section AbilityDiceFacts.
Context {G : Type} `{RandomGen G}.

Lemma use_ability_left (state : GameState.t) :
  0 < GameState.ability_uses state ->
  GameState.use_ability state
  = (true, GameState.set_ability_uses state (GameState.ability_uses state - 1)).
Proof.
  intros Huses. unfold GameState.use_ability.
  destruct (0 <? GameState.ability_uses state) eqn:E;
    [reflexivity | apply Z.ltb_ge in E; lia].
Qed.

(** X25: when the class ability has the [heal] effect (the fighter's
    Second Wind, and the ability of a class unknown to the table) and a
    use is left, [use_class_ability] throws one d10, heals the throw plus
    2 but no more than the hit points missing, reports what it healed,
    and takes one use, also when nothing was missing. *)
Theorem use_class_ability_heal (state : GameState.t) (dice : DiceRoller G) :
  Ability.effect (GameState.get_ability_info state) = "heal" ->
  0 < GameState.ability_uses state ->
  let d := fst (randint_draw (rng dice) 1 10) in
  let actual := Z.min (d + 2) (GameState.max_hp state - GameState.hp state) in
  1 <= d <= 10
  /\ exists state',
       use_class_ability state dice
       = Ok (true, "Second Wind! Healed " +:+ pretty actual +:+ " HP.", actual,
             state', with_rng dice (snd (randint_draw (rng dice) 1 10)))
       /\ state'
          = GameState.set_hp
              (GameState.set_ability_uses state (GameState.ability_uses state - 1))
              (GameState.hp state + actual)
       /\ GameState.hp state' = GameState.hp state + actual
       /\ GameState.ability_uses state' = GameState.ability_uses state - 1
       /\ (GameState.hp state <= GameState.max_hp state ->
           GameState.hp state <= GameState.hp state' <= GameState.max_hp state).
Proof.
  intros Heffect Huses d actual.
  pose proof (randint_draw_range (rng dice) 1 10 ltac:(lia)) as Hd.
  fold d in Hd. split; [exact Hd |].
  eexists. split; [| split; [reflexivity |]].
  - unfold use_class_ability.
    destruct (GameState.ability_uses state <=? 0) eqn:E;
      [apply Z.leb_le in E; lia |].
    rewrite (use_ability_left state Huses), Heffect.
    cbn [String.eqb Ascii.eqb Bool.eqb].
    unfold roll. change (Z.to_nat 1) with 1%nat. cbn [roll_each].
    rewrite (randint_Ok (rng dice) 1 10) by lia. rewrite bind_Ok.
    destruct (randint_draw (rng dice) 1 10) as [r g1] eqn:Edraw.
    rewrite ?bind_Ok. cbv beta iota zeta. rewrite ?bind_Ok.
    unfold GameState.heal. cbv beta iota zeta.
    unfold sum. cbn [foldr fst snd].
    cbn [GameState.hp GameState.max_hp GameState.set_ability_uses].
    subst actual d. cbn [fst].
    replace (r + 0 + 2) with (r + 2) by lia. reflexivity.
  - cbn [GameState.hp GameState.set_hp GameState.ability_uses
         GameState.set_ability_uses].
    split; [reflexivity |]. split; [reflexivity |].
    intros Hmax. subst actual. lia.
Qed.

(** X26: when the class ability has the [direct_damage] effect (the
    mage's Fireball) and a use is left, [use_class_ability] succeeds,
    throws three d6 and reports their sum, between 3 and 18, as the
    damage; one use is taken and the player's hit points stay.  On a
    state ready for combat the sum is taken off the enemy's hit points,
    which may go below zero, and the state stays ready.  Without a
    current enemy the dice are thrown and the use is taken all the
    same. *)
Theorem use_class_ability_fireball (state : GameState.t) (dice : DiceRoller G) :
  Ability.effect (GameState.get_ability_info state) = "direct_damage" ->
  0 < GameState.ability_uses state ->
  exists rolls g',
    roll_each 3 6 (rng dice) = Ok (rolls, g')
    /\ length rolls = 3%nat
    /\ 3 <= sum rolls <= 18
    /\ let used :=
         GameState.set_ability_uses state (GameState.ability_uses state - 1) in
       let msg := "Fireball! Dealt " +:+ pretty (sum rolls) +:+ " fire damage!" in
       (GameState.has_enemy state = false ->
        use_class_ability state dice
        = Ok (true, msg, sum rolls, used, with_rng dice g'))
       /\ (forall e hp,
             combat_ready state e -> as_int (Enemy.hp e) = Some hp ->
             exists state',
               use_class_ability state dice
               = Ok (true, msg, sum rolls, state', with_rng dice g')
               /\ combat_ready state' (Enemy.set_hp e (PInt (hp - sum rolls)))
               /\ GameState.hp state' = GameState.hp state
               /\ GameState.ability_uses state'
                  = GameState.ability_uses state - 1).
Proof.
  intros Heffect Huses.
  destruct (roll_Ok dice 3 6 ltac:(lia)) as (rolls & g' & Heach & Hrun & Hlen & Hall).
  exists rolls, g'. split; [exact Heach |]. split; [exact Hlen |].
  split.
  { pose proof (sum_bounds 1 6 rolls Hall) as Hsum. rewrite Hlen in Hsum. lia. }
  intros used msg.
  assert (Hstart : use_class_ability state dice
                   = (state' ← damage_current_enemy used (sum rolls);
                      Ok (true, msg, sum rolls, state', with_rng dice g'))).
  { unfold use_class_ability.
    destruct (GameState.ability_uses state <=? 0) eqn:E;
      [apply Z.leb_le in E; lia |].
    rewrite (use_ability_left state Huses), Heffect.
    cbn [String.eqb Ascii.eqb Bool.eqb].
    rewrite Hrun, bind_Ok. reflexivity. }
  rewrite Hstart. clear Hstart. split.
  - intros Hnone. unfold damage_current_enemy.
    change (GameState.current_enemy used) with (GameState.current_enemy state).
    change (GameState.has_enemy used) with (GameState.has_enemy state).
    rewrite Hnone.
    destruct (GameState.current_enemy state); rewrite bind_Ok; reflexivity.
  - intros e hp Hready Hhp.
    pose proof Hready as ((data0 & data & Hcur & Hfrom) & _).
    destruct (from_dict_tuples _ _ _ Hfrom) as (l1 & l2 & Hdd & Hgd).
    destruct (to_dict_set_hp_Ok e (PInt (hp - sum rolls)) l1 l2 Hdd Hgd)
      as [d Hto].
    exists (GameState.set_current_enemy used (Some d)).
    split; [| split; [| split; reflexivity]].
    + unfold damage_current_enemy.
      change (GameState.current_enemy used) with (GameState.current_enemy state).
      change (GameState.has_enemy used) with (GameState.has_enemy state).
      rewrite Hcur, (from_dict_has_enemy state data0 _ Hcur Hfrom).
      rewrite Hfrom, bind_Ok. cbv beta iota zeta.
      unfold py_sub_int. rewrite Hhp, bind_Ok, Hto, !bind_Ok. reflexivity.
    + eapply combat_ready_set_hp; [exact Hready | exact Hfrom | exact Hto |].
      reflexivity.
Qed.

End AbilityDiceFacts.

Lemma use_class_ability_heal_witness :
  let state := sample_player "fighter" 7 2 None in
  let dice := DiceRoller_init (G := Z) (Some 5) in
  let d := fst (randint_draw (rng dice) 1 10) in
  let actual := Z.min (d + 2) (GameState.max_hp state - GameState.hp state) in
  (Ability.effect (GameState.get_ability_info state) = "heal"
   /\ 0 < GameState.ability_uses state)
  /\ 1 <= d <= 10
  /\ exists state',
       use_class_ability state dice
       = Ok (true, "Second Wind! Healed " +:+ pretty actual +:+ " HP.", actual,
             state', with_rng dice (snd (randint_draw (rng dice) 1 10)))
       /\ state'
          = GameState.set_hp
              (GameState.set_ability_uses state (GameState.ability_uses state - 1))
              (GameState.hp state + actual)
       /\ GameState.hp state' = GameState.hp state + actual
       /\ GameState.ability_uses state' = GameState.ability_uses state - 1
       /\ (GameState.hp state <= GameState.max_hp state ->
           GameState.hp state <= GameState.hp state' <= GameState.max_hp state).
Proof.
  intros state dice d actual.
  split; [split; [reflexivity | simpl; lia] |].
  apply (use_class_ability_heal (G := Z) state dice); [reflexivity | simpl; lia].
Defined.

Lemma use_class_ability_fireball_witness :
  let state := sample_player "mage" 7 2 (Some (goblin_entry 13)) in
  let dice := DiceRoller_init (G := Z) (Some 5) in
  (Ability.effect (GameState.get_ability_info state) = "direct_damage"
   /\ 0 < GameState.ability_uses state)
  /\ exists rolls g',
       roll_each 3 6 (rng dice) = Ok (rolls, g')
       /\ length rolls = 3%nat
       /\ 3 <= sum rolls <= 18
       /\ let used :=
            GameState.set_ability_uses state (GameState.ability_uses state - 1) in
          let msg := "Fireball! Dealt " +:+ pretty (sum rolls) +:+ " fire damage!" in
          (GameState.has_enemy state = false ->
           use_class_ability state dice
           = Ok (true, msg, sum rolls, used, with_rng dice g'))
          /\ (forall e hp,
                combat_ready state e -> as_int (Enemy.hp e) = Some hp ->
                exists state',
                  use_class_ability state dice
                  = Ok (true, msg, sum rolls, state', with_rng dice g')
                  /\ combat_ready state' (Enemy.set_hp e (PInt (hp - sum rolls)))
                  /\ GameState.hp state' = GameState.hp state
                  /\ GameState.ability_uses state'
                     = GameState.ability_uses state - 1).
Proof.
  intros state dice.
  split; [split; [reflexivity | simpl; lia] |].
  apply (use_class_ability_fireball (G := Z) state dice);
    [reflexivity | simpl; lia].
Defined.

(** ** Enemies: which dictionaries the constructors accept *)

Lemma required_Some (data : dict) (k : string) (v : pyval) :
  data !! k = Some v -> Enemy.required data k = Ok v.
Proof. unfold Enemy.required. intros ->. reflexivity. Qed.

Lemma init_accepts (data : dict) :
  (exists e, Enemy.init data = Ok e)
  <-> dom data ⊆ list_to_set Enemy.field_names
      /\ Forall (fun k => is_Some (data !! k)) required_fields.
Proof.
  unfold Enemy.init, required_fields. split.
  - intros [e Hrun].
    destruct (bool_decide (dom data ⊆ list_to_set Enemy.field_names)) eqn:Edom;
      [| discriminate].
    apply bool_decide_eq_true in Edom. split; [exact Edom |].
    unfold Enemy.required in Hrun.
    repeat (match type of Hrun with
            | context [data !! ?k] =>
                destruct (data !! k) eqn:?; [rewrite bind_Ok in Hrun |]
            end; [| discriminate Hrun]).
    repeat (constructor; [eauto |]). constructor.
  - intros [Hdom Hall].
    rewrite (bool_decide_eq_true_2 _ Hdom).
    repeat (apply Forall_cons in Hall as [[? Hk] Hall];
            rewrite (required_Some _ _ _ Hk), bind_Ok; clear Hk).
    eexists. reflexivity.
Qed.

Lemma init_raises (data : dict) (err : pyerr) :
  Enemy.init data = Raise err -> err = TypeError.
Proof.
  unfold Enemy.init, Enemy.required.
  destruct (bool_decide _); [| congruence].
  repeat (match goal with
          | |- context [data !! ?k] =>
              destruct (data !! k); [rewrite bind_Ok |]
          end; [| unfold mbind, result_bind; congruence]).
  discriminate.
Qed.

Lemma py_tuple_result (v : pyval) :
  match py_iter v with
  | Ok l => py_tuple v = Ok (PTuple l)
  | Raise _ => py_tuple v = Raise TypeError
  end.
Proof. destruct v; reflexivity. Qed.

(** What [from_dict] does, entry by entry. *)
Lemma from_dict_cases (data : dict) :
  match data !! "damage_dice" with
  | None => Enemy.from_dict data = Raise KeyError
  | Some dd =>
    match py_iter dd with
    | Raise _ => Enemy.from_dict data = Raise TypeError
    | Ok l1 =>
      match data !! "gold_drop" with
      | None => Enemy.from_dict data = Raise KeyError
      | Some gd =>
        match py_iter gd with
        | Raise _ => Enemy.from_dict data = Raise TypeError
        | Ok l2 =>
          let data' :=
            <["gold_drop" := PTuple l2]> (<["damage_dice" := PTuple l1]> data) in
          Enemy.from_dict data = (self ← Enemy.init data'; Ok (data', self))
        end
      end
    end
  end.
Proof.
  unfold Enemy.from_dict, getitem.
  destruct (data !! "damage_dice") as [dd|] eqn:Edd; [| reflexivity].
  rewrite bind_Ok. pose proof (py_tuple_result dd) as Hdd.
  destruct (py_iter dd) as [l1|e1]; rewrite Hdd; [| reflexivity].
  rewrite bind_Ok, lookup_insert_ne by discriminate.
  destruct (data !! "gold_drop") as [gd|] eqn:Egd; [| reflexivity].
  rewrite bind_Ok. pose proof (py_tuple_result gd) as Hgd.
  destruct (py_iter gd) as [l2|e2]; rewrite Hgd; [| reflexivity].
  rewrite bind_Ok. reflexivity.
Qed.

Lemma rewritten_entries_accepted (data : dict) (v1 v2 : pyval) :
  is_Some (data !! "damage_dice") -> is_Some (data !! "gold_drop") ->
  let data' := <["gold_drop" := v2]> (<["damage_dice" := v1]> data) in
  (dom data' ⊆ list_to_set Enemy.field_names
   /\ Forall (fun k => is_Some (data' !! k)) required_fields)
  <-> (dom data ⊆ list_to_set Enemy.field_names
       /\ Forall (fun k => is_Some (data !! k)) required_fields).
Proof.
  intros Hdd Hgd data'.
  assert (Hdom : dom data' = dom data).
  { unfold data'. rewrite !dom_insert_L.
    apply elem_of_dom in Hdd, Hgd. set_solver. }
  assert (Hlook : forall k, is_Some (data' !! k) <-> is_Some (data !! k)).
  { intros k. unfold data'. rewrite !lookup_insert_is_Some.
    split; [intros [<- | [_ [<- | [_ Hk]]]]; assumption |].
    intros Hk.
    destruct (decide ("gold_drop" = k)); [auto |].
    destruct (decide ("damage_dice" = k)); auto. }
  rewrite Hdom. split; intros [Hsub Hall]; (split; [exact Hsub |]);
    eapply Forall_impl; try exact Hall; intros k; apply Hlook.
Qed.

(** X27: [from_dict] returns an enemy exactly for the dictionaries that
    hold an iterable [damage_dice] and an iterable [gold_drop], every
    field without a default, and no key that is not a field.  It raises
    [KeyError] exactly when [damage_dice] is missing, or is iterable with
    [gold_drop] missing; every other failure is a [TypeError]. *)
Theorem from_dict_accepts_iff (data : dict) :
  ((exists r, Enemy.from_dict data = Ok r) <-> from_dict_accepts data)
  /\ (Enemy.from_dict data = Raise KeyError
      <-> data !! "damage_dice" = None
          \/ (iterable_entry data "damage_dice" /\ data !! "gold_drop" = None))
  /\ (forall err, Enemy.from_dict data = Raise err ->
      err = KeyError \/ err = TypeError).
Proof.
  pose proof (from_dict_cases data) as Hcases.
  unfold from_dict_accepts, iterable_entry.
  destruct (data !! "damage_dice") as [dd|] eqn:Edd.
  2:{ rewrite Hcases. split; [| split].
      - split; [intros [r Hr]; discriminate |].
        intros ((v & l & Hv & _) & _). discriminate.
      - split; [auto | reflexivity].
      - intros err [= <-]. auto. }
  destruct (py_iter dd) as [l1|e1] eqn:Eiter1.
  2:{ rewrite Hcases. split; [| split].
      - split; [intros [r Hr]; discriminate |].
        intros ((v & l & [= <-] & Hl) & _). congruence.
      - split; [discriminate |].
        intros [Hnone | ((v & l & [= <-] & Hl) & _)]; congruence.
      - intros err [= <-]. auto. }
  destruct (data !! "gold_drop") as [gd|] eqn:Egd.
  2:{ rewrite Hcases. split; [| split].
      - split; [intros [r Hr]; discriminate |].
        intros (_ & (v & l & Hv & _) & _). discriminate.
      - split; [| reflexivity]. intros _. right. eauto.
      - intros err [= <-]. auto. }
  destruct (py_iter gd) as [l2|e2] eqn:Eiter2.
  2:{ rewrite Hcases. split; [| split].
      - split; [intros [r Hr]; discriminate |].
        intros (_ & (v & l & [= <-] & Hl) & _). congruence.
      - split; [discriminate |].
        intros [Hnone | (_ & Hnone)]; discriminate.
      - intros err [= <-]. auto. }
  cbv zeta in Hcases. rewrite Hcases.
  pose proof (rewritten_entries_accepted data (PTuple l1) (PTuple l2)
                ltac:(rewrite Edd; eauto) ltac:(rewrite Egd; eauto)) as Hsame.
  cbv zeta in Hsame.
  pose proof (init_accepts
                (<["gold_drop" := PTuple l2]> (<["damage_dice" := PTuple l1]> data)))
    as Hinit.
  destruct (Enemy.init _) as [self|err0] eqn:Einit.
  - rewrite bind_Ok. split; [| split].
    + split; [| eauto]. intros _.
      split; [eauto |]. split; [eauto |].
      apply Hsame, Hinit. eauto.
    + split; [discriminate |].
      intros [Hnone | (_ & Hnone)]; discriminate.
    + discriminate.
  - rewrite bind_Raise. pose proof (init_raises _ _ Einit) as ->.
    split; [| split].
    + split; [intros [r Hr]; discriminate |].
      intros (_ & _ & Hrest). apply Hsame, Hinit in Hrest.
      destruct Hrest as [e He]. discriminate.
    + split; [discriminate |].
      intros [Hnone | (_ & Hnone)]; discriminate.
    + intros err [= <-]. auto.
Qed.

(** [max(lo, min(hi, v))] followed by the rest of the computation: a
    value for a number, [TypeError] otherwise. *)
Lemma clamp_step (lo hi : Z) (v : pyval) :
  match as_int v with
  | Some _ =>
      exists r, forall (A : Type) (k : pyval -> result A),
        (m ← py_min (PInt hi) v; r' ← py_max (PInt lo) m; k r') = k r
  | None =>
      forall (A : Type) (k : pyval -> result A),
        (m ← py_min (PInt hi) v; r' ← py_max (PInt lo) m; k r')
        = Raise TypeError
  end.
Proof.
  unfold py_min, py_max, py_lt. cbn [as_int].
  destruct (as_int v) as [x|] eqn:Ev.
  - destruct (x <? hi) eqn:E1; eexists; intros A k;
      rewrite !bind_Ok; cbv beta iota;
      [rewrite Ev | cbn [as_int]]; rewrite !bind_Ok; reflexivity.
  - intros A k. reflexivity.
Qed.

(** [max(a, b)] followed by the rest of the computation. *)
Lemma max_step (a b : pyval) :
  match as_int a, as_int b with
  | Some _, Some _ =>
      exists r, forall (A : Type) (k : pyval -> result A),
        (r' ← py_max a b; k r') = k r
  | _, _ =>
      forall (A : Type) (k : pyval -> result A),
        (r' ← py_max a b; k r') = Raise TypeError
  end.
Proof.
  unfold py_max, py_lt.
  destruct (as_int a) as [x|], (as_int b) as [y|]; try (intros A k; reflexivity).
  eexists. intros A k. rewrite !bind_Ok. reflexivity.
Qed.

Lemma number_or_absent_get (data : dict) (k : string) (dflt : Z) :
  number_or_absent data k <-> is_Some (as_int (dict_get data k (PInt dflt))).
Proof.
  unfold number_or_absent, dict_get.
  destruct (data !! k); cbn [default as_int]; [reflexivity |].
  split; [eauto | auto].
Qed.

Lemma numbers_if_pair_get (data : dict) (k : string) (a b : Z) :
  numbers_if_pair data k
  <-> pair_of_numbers (dict_get data k (PList [PInt a; PInt b])).
Proof.
  unfold numbers_if_pair, dict_get.
  destruct (data !! k); cbn [default pair_of_numbers as_int]; [reflexivity |].
  split; [eauto | auto].
Qed.

(** The clamping of [damage_dice], followed by the rest of the
    computation. *)
Lemma damage_dice_step (v : pyval) :
  (pair_of_numbers v
   /\ exists r, forall (A : Type) (k : pyval -> result A),
        (match v with
         | PList [d0; d1] =>
             m ← py_min (PInt 4) d0;
             num_dice ← py_max (PInt 1) m;
             m ← py_min (PInt 12) d1;
             die_size ← py_max (PInt 4) m;
             Ok (PTuple [num_dice; die_size])
         | _ => Ok (PTuple [PInt 1; PInt 6])
         end ≫= k) = k r)
  \/ (~ pair_of_numbers v
      /\ forall (A : Type) (k : pyval -> result A),
        (match v with
         | PList [d0; d1] =>
             m ← py_min (PInt 4) d0;
             num_dice ← py_max (PInt 1) m;
             m ← py_min (PInt 12) d1;
             die_size ← py_max (PInt 4) m;
             Ok (PTuple [num_dice; die_size])
         | _ => Ok (PTuple [PInt 1; PInt 6])
         end ≫= k) = Raise TypeError).
Proof.
  destruct v as [| | | | [|d0 [|d1 [|d2 l]]] | |];
    try (left; split; [exact I |]; eexists; intros A k; rewrite bind_Ok;
         reflexivity).
  cbn [pair_of_numbers].
  pose proof (clamp_step 1 4 d0) as H0. pose proof (clamp_step 4 12 d1) as H1.
  destruct (as_int d0) as [x0|].
  2:{ right. split; [intros [[? ?] _]; discriminate |].
      intros A k. rewrite H0. reflexivity. }
  destruct H0 as [r0 H0].
  destruct (as_int d1) as [x1|].
  2:{ right. split; [intros [_ [? ?]]; discriminate |].
      intros A k. rewrite H0, H1. reflexivity. }
  destruct H1 as [r1 H1].
  left. split; [eauto |]. eexists. intros A k.
  rewrite H0, H1, bind_Ok. reflexivity.
Qed.

(** The ordering of [gold_drop], followed by the rest of the
    computation. *)
Lemma gold_drop_step (v : pyval) :
  (pair_of_numbers v
   /\ exists r, forall (A : Type) (k : pyval -> result A),
        (match v with
         | PList [g0; g1] =>
             low ← py_max (PInt 0) g0;
             high ← py_max g0 g1;
             Ok (PTuple [low; high])
         | _ => Ok (PTuple [PInt 1; PInt 5])
         end ≫= k) = k r)
  \/ (~ pair_of_numbers v
      /\ forall (A : Type) (k : pyval -> result A),
        (match v with
         | PList [g0; g1] =>
             low ← py_max (PInt 0) g0;
             high ← py_max g0 g1;
             Ok (PTuple [low; high])
         | _ => Ok (PTuple [PInt 1; PInt 5])
         end ≫= k) = Raise TypeError).
Proof.
  destruct v as [| | | | [|g0 [|g1 [|g2 l]]] | |];
    try (left; split; [exact I |]; eexists; intros A k; rewrite bind_Ok;
         reflexivity).
  cbn [pair_of_numbers].
  pose proof (max_step (PInt 0) g0) as H0. pose proof (max_step g0 g1) as H1.
  cbn [as_int] in H0.
  destruct (as_int g0) as [x0|].
  2:{ right. split; [intros [[? ?] _]; discriminate |].
      intros A k. rewrite H0. reflexivity. }
  destruct H0 as [r0 H0].
  destruct (as_int g1) as [x1|].
  2:{ right. split; [intros [_ [? ?]]; discriminate |].
      intros A k. rewrite H0. cbv beta. rewrite H1. reflexivity. }
  destruct H1 as [r1 H1].
  left. split; [eauto |]. eexists. intros A k.
  rewrite H0. cbv beta. rewrite H1, bind_Ok. reflexivity.
Qed.

Ltac llm_refused :=
  split;
  [ split;
    [ intros [? ?]; discriminate
    | intros Hacc; exfalso; decompose [and] Hacc;
      match goal with
      | Hnone : is_Some None |- _ => destruct Hnone; discriminate
      | Hbad : ~ pair_of_numbers _ |- _ => apply Hbad; assumption
      end ]
  | intros ? [= <-]; reflexivity ].

Ltac llm_clamp lo hi v :=
  let Hstep := fresh "Hstep" in
  let r := fresh "r" in
  pose proof (clamp_step lo hi v) as Hstep;
  destruct (as_int v) eqn:?;
  [ destruct Hstep as [r Hstep]; rewrite Hstep; clear Hstep; cbv beta
  | rewrite Hstep; llm_refused ].

Ltac llm_pair lemma v :=
  let Hstep := fresh "Hstep" in
  let Hpair := fresh "Hpair" in
  let r := fresh "r" in
  destruct (lemma v) as [[Hpair [r Hstep]] | [Hpair Hstep]];
  [ rewrite Hstep; clear Hstep; cbv beta
  | rewrite Hstep; llm_refused ].

(** X28: [create_enemy_from_llm] returns an enemy exactly when each of
    [hp], [ac], [attack_bonus], [damage_bonus] and [xp] is a number or
    missing, and [damage_dice] and [gold_drop], where they are lists of
    two, hold numbers; anything else in their place gives the default.
    When it does not return it raises [TypeError]. *)
Theorem create_enemy_from_llm_accepts_iff (enemy_data : dict) :
  ((exists e, create_enemy_from_llm enemy_data = Ok e)
   <-> llm_enemy_accepts enemy_data)
  /\ (forall err, create_enemy_from_llm enemy_data = Raise err ->
      err = TypeError).
Proof.
  unfold llm_enemy_accepts.
  rewrite (number_or_absent_get enemy_data "hp" 10),
    (number_or_absent_get enemy_data "ac" 12),
    (number_or_absent_get enemy_data "attack_bonus" 2),
    (numbers_if_pair_get enemy_data "damage_dice" 1 6),
    (number_or_absent_get enemy_data "damage_bonus" 1),
    (number_or_absent_get enemy_data "xp" 25),
    (numbers_if_pair_get enemy_data "gold_drop" 1 5).
  unfold create_enemy_from_llm.
  llm_clamp 1 100 (dict_get enemy_data "hp" (PInt 10)).
  llm_clamp 8 20 (dict_get enemy_data "ac" (PInt 12)).
  llm_clamp (-2) 8 (dict_get enemy_data "attack_bonus" (PInt 2)).
  llm_pair damage_dice_step
    (dict_get enemy_data "damage_dice" (PList [PInt 1; PInt 6])).
  llm_clamp 0 5 (dict_get enemy_data "damage_bonus" (PInt 1)).
  llm_clamp 10 500 (dict_get enemy_data "xp" (PInt 25)).
  llm_pair gold_drop_step
    (dict_get enemy_data "gold_drop" (PList [PInt 1; PInt 5])).
  split; [| discriminate].
  split; [intros _; repeat split; eauto | eauto].
Qed.

(** ** Save and load: the round trip *)




Section RoundTripFacts.
Context {G : Type} `{RandomGen G}.



End RoundTripFacts.


(** ** Combat: entering a fight *)






(** ** Combat: the sneak attack over a fight *)



Section SneakAttackFacts.
Context {G : Type} `{RandomGen G} `{PyStr}.




End SneakAttackFacts.

